(** * Verification of [nf_core/subworkflows/install.py]

  A shallow embedding of [SubworkflowInstall] (the recursive installer of
  nf-core subworkflows) and the properties of its dependency extractor,
  its lockfile bookkeeping and the order of its steps.

  Layout:
  - [PyStr]         the Python string and [os.path]/[pathlib] operations
                    used;
  - [Regex]         a backtracking matcher for the fragment of [re] used
                    by the include pattern;
  - [Extractor]     [get_modules_subworkflows_to_install];
  - [Store]         the file system, [modules.json] and the installer
                    state;
  - [Installer]     [__init__], [install], [install_included_components];
  - [Observations]  the predicates in which the properties are stated;
  - [Scenario]      a registry and a pipeline to run the installer on;
  - [Shapes]        the shapes of include lines and of the names found;
  - [Wording]       the names of dependencies in the words of the
                    specification;
  - [Outcomes]      the exception for a missing [main.nf], an entry with
                    one more referrer;
  - [Uncalled]      [clear_subworkflow_dir], which [install] does not call;
  - [Fixtures]      more of the registry: an unknown dependency, a
                    component that includes itself;
  - the facts about the extractor and about paths, how a call of
    [install] unfolds, and the properties of the installer and of the
    extractor. *)

From Stdlib Require Import Ascii String Bool Arith Lia.
From stdpp Require Import gmap strings list.

Set Default Proof Using "Type".

(* ===================================================================== *)
(** * Python strings and paths *)
(* ===================================================================== *)

Module PyStr.

(** The double quote and the newline, by their character codes. *)
Definition dquote : ascii := "034"%char.
Definition squote : ascii := "039"%char.
Definition newline : ascii := "010"%char.
Definition slash : ascii := "/"%char.

(** [s.startswith(p)] *)
Fixpoint startswith (s p : string) {struct p} : bool :=
  match p with
  | EmptyString => true
  | String a p' =>
      match s with
      | String b s' => if Ascii.eqb a b then startswith s' p' else false
      | EmptyString => false
      end
  end.

(** [s.endswith("/")]: the last character is the separator. *)
Fixpoint endswith_sep (s : string) : bool :=
  match s with
  | EmptyString => false
  | String c EmptyString => Ascii.eqb c slash
  | String _ s' => endswith_sep s'
  end.

Definition between (lo hi c : ascii) : bool :=
  (nat_of_ascii lo <=? nat_of_ascii c) && (nat_of_ascii c <=? nat_of_ascii hi).

Definition is_upper (c : ascii) : bool := between "A" "Z" c.
Definition is_lower (c : ascii) : bool := between "a" "z" c.
Definition is_digit (c : ascii) : bool := between "0" "9" c.

Definition lower_char (c : ascii) : ascii :=
  if is_upper c then ascii_of_nat (nat_of_ascii c + 32) else c.
Definition upper_char (c : ascii) : ascii :=
  if is_lower c then ascii_of_nat (nat_of_ascii c - 32) else c.

(** [s.lower()] and [s.upper()] on ASCII text: only the letters from a to
    z have another case there. The extractor lower-cases identifier
    characters only; text with other characters is upper-cased by
    [str_upper] of the installer. *)
Fixpoint lower (s : string) : string :=
  match s with
  | EmptyString => EmptyString
  | String c s' => String (lower_char c) (lower s')
  end.
Fixpoint upper (s : string) : string :=
  match s with
  | EmptyString => EmptyString
  | String c s' => String (upper_char c) (upper s')
  end.

(** Every byte of [s] is an ASCII character. *)
Fixpoint is_ascii_text (s : string) : bool :=
  match s with
  | EmptyString => true
  | String c s' => (nat_of_ascii c <? 128) && is_ascii_text s'
  end.

(** [s.split(sep)] for a one-character separator: never the empty list. *)
Fixpoint split (sep : ascii) (s : string) : list string :=
  match s with
  | EmptyString => [EmptyString]
  | String c s' =>
      if Ascii.eqb c sep then EmptyString :: split sep s'
      else match split sep s' with
           | h :: t => String c h :: t
           | [] => [String c EmptyString]
           end
  end.

(** [sep.join(parts)] *)
Fixpoint join (sep : string) (parts : list string) : string :=
  match parts with
  | [] => EmptyString
  | [p] => p
  | p :: rest => p +:+ sep +:+ join sep rest
  end.

(** Every character of [s] satisfies [p]. *)
Fixpoint all_chars (p : ascii -> bool) (s : string) : bool :=
  match s with
  | EmptyString => true
  | String c s' => p c && all_chars p s'
  end.

(** [os.path.join(a, b)] of [posixpath]: an absolute [b] discards [a]. *)
Definition os_path_join (a b : string) : string :=
  if startswith b "/" then b
  else if (String.eqb a "" || endswith_sep a)%bool then a +:+ b
  else a +:+ "/" +:+ b.

(** [os.path.join(a, b, c)] folds the binary join from the left. *)
Definition os_path_join3 (a b c : string) : string :=
  os_path_join (os_path_join a b) c.

(** The root of a [PurePosixPath]: exactly two leading slashes are kept,
    any other positive number collapses to one. *)
Definition path_root (s : string) : list string :=
  match s with
  | String c1 (String c2 (String c3 _)) =>
      if Ascii.eqb c1 slash then
        if Ascii.eqb c2 slash then
          if Ascii.eqb c3 slash then ["/"] else ["//"]
        else ["/"]
      else []
  | String c1 (String c2 EmptyString) =>
      if Ascii.eqb c1 slash then
        if Ascii.eqb c2 slash then ["//"] else ["/"]
      else []
  | String c1 EmptyString => if Ascii.eqb c1 slash then ["/"] else []
  | EmptyString => []
  end.

Definition is_name_part (p : string) : bool :=
  negb (String.eqb p "" || String.eqb p ".").

(** [Path(s).parts]: the root, then the segments that are neither empty
    nor a single dot. *)
Definition path_parts (s : string) : list string :=
  path_root s ++ filter (fun p => is_name_part p = true) (split slash s).

(** [Path(s).parts[-1]]; [None] stands for the [IndexError] on an empty
    tuple. *)
Definition path_last_part (s : string) : option string :=
  last (path_parts s).

(** [str] of the path with the given parts: the root is not followed by
    a separator of its own, and the path without parts is a dot. *)
Definition path_str (parts : list string) : string :=
  match parts with
  | [] => "."
  | r :: rest => if startswith r "/" then r +:+ join "/" rest
                 else join "/" parts
  end.

(** [str(Path(a, b))]: the parts of [a], then those of [b]; an absolute
    [b] discards [a]. The path is normalised: no empty segment, no
    single dot, no trailing separator. *)
Definition path_join_str (a b : string) : string :=
  if startswith b "/" then path_str (path_parts b)
  else path_str (path_parts a
                 ++ filter (fun p => is_name_part p = true) (split slash b)).

End PyStr.

(* ===================================================================== *)
(** * The fragment of Python's [re] used by the include pattern *)
(* ===================================================================== *)

Module Regex.

(** Repetition only occurs over one-character classes in the pattern of
    the source, which keeps the matcher structurally recursive. *)
Inductive regex : Type :=
| Lit (c : ascii)
| StarCls (p : ascii -> bool)
| Cat (r1 r2 : regex)
| Alt (r1 r2 : regex)
| Opt (r : regex)
| Grp (i : nat) (r : regex).

(** Captures, newest binding first. *)
Definition caps : Type := list (nat * string).

Fixpoint group (i : nat) (g : caps) : option string :=
  match g with
  | [] => None
  | (j, s) :: g' => if Nat.eqb i j then Some s else group i g'
  end.

(** The text consumed between [s] and its suffix [s']. *)
Definition consumed (s s' : string) : string :=
  String.substring 0 (String.length s - String.length s') s.

(** Greedy [p*]: the longest run first, shorter runs on backtracking. *)
Fixpoint star_match {R} (p : ascii -> bool) (s : string)
    (k : string -> option R) : option R :=
  match s with
  | String c s' =>
      if p c then
        match star_match p s' k with
        | Some r => Some r
        | None => k s
        end
      else k s
  | EmptyString => k s
  end.

(** Backtracking match in continuation-passing style: the first success
    in Python's order of alternatives. *)
Fixpoint rmatch (r : regex) (s : string) (g : caps)
    (k : string -> caps -> option caps) : option caps :=
  match r with
  | Lit c =>
      match s with
      | String c' s' => if Ascii.eqb c c' then k s' g else None
      | EmptyString => None
      end
  | StarCls p => star_match p s (fun s' => k s' g)
  | Cat r1 r2 => rmatch r1 s g (fun s' g' => rmatch r2 s' g' k)
  | Alt r1 r2 =>
      match rmatch r1 s g k with
      | Some x => Some x
      | None => rmatch r2 s g k
      end
  | Opt r1 =>
      match rmatch r1 s g k with
      | Some x => Some x
      | None => k s g
      end
  | Grp i r1 => rmatch r1 s g (fun s' g' => k s' ((i, consumed s s') :: g'))
  end.

(** What it means for [r] to match the text between [s] and its suffix
    [s'], taking the captures from [g] to [g']: the reading of a pattern
    that does not depend on the order in which the matcher tries things. *)
Fixpoint matches (r : regex) (s s' : string) (g g' : caps) : Prop :=
  match r with
  | Lit c => s = String c s' /\ g' = g
  | StarCls p =>
      exists run, s = run +:+ s' /\ PyStr.all_chars p run = true /\ g' = g
  | Cat r1 r2 =>
      exists s1 g1, matches r1 s s1 g g1 /\ matches r2 s1 s' g1 g'
  | Alt r1 r2 => matches r1 s s' g g' \/ matches r2 s s' g g'
  | Opt r1 => matches r1 s s' g g' \/ (s' = s /\ g' = g)
  | Grp i r1 => exists g1, matches r1 s s' g g1 /\ g' = (i, consumed s s') :: g1
  end.

(** [regex.match(line)]: anchored at the start, free at the end. *)
Definition re_match (r : regex) (line : string) : option caps :=
  rmatch r line [] (fun _ g => Some g).

Fixpoint lits (s : string) : regex -> regex :=
  match s with
  | EmptyString => fun k => k
  | String c s' => fun k => Cat (Lit c) (lits s' k)
  end.

Fixpoint cats (rs : list regex) (last : regex) : regex :=
  match rs with
  | [] => last
  | r :: rs' => Cat r (cats rs' last)
  end.

End Regex.

(* ===================================================================== *)
(** * The dependency extractor *)
(* ===================================================================== *)

Module Extractor.
Import PyStr Regex.

Definition is_space (c : ascii) : bool := Ascii.eqb c " ".
(** [[a-zA-Z\_0-9]] *)
Definition is_ident (c : ascii) : bool :=
  is_lower c || is_upper c || Ascii.eqb c "_" || is_digit c.
(** [.] without DOTALL *)
Definition is_dot (c : ascii) : bool := negb (Ascii.eqb c newline).

Definition sp : regex := StarCls is_space.
Definition quote : regex := Alt (Lit squote) (Lit dquote).

(** The pattern compiled in the loop, piece by piece: the word include;
    spaces, an opening brace, spaces; group 1, a run of identifier
    characters; optionally spaces, the word as, spaces; optionally a run
    of identifier characters; spaces and a closing brace; spaces, the
    word from, spaces; a single or double quote; group 2, a greedy run of
    any characters but the newline; a single or double quote. *)
Definition after_symbol : regex :=
  cats [ Opt (cats [sp; Lit "a"] (Cat (Lit "s") sp));
         Opt (StarCls is_ident);
         sp; Lit "}";
         sp; Lit "f"; Lit "r"; Lit "o"; Lit "m"; sp;
         quote;
         Grp 2 (StarCls is_dot) ]
       quote.

Definition include_regex : regex :=
  lits "include"
    (cats [ sp; Lit "{"; sp; Grp 1 (StarCls is_ident) ] after_symbol).

(** [match.groups()] when the line matches: both groups take part in every
    match, so the tuple always has two strings. *)
Definition include_match (line : string) : option (string * string) :=
  match re_match include_regex line with
  | Some g =>
      match group 1 g, group 2 g with
      | Some name, Some link => Some (name, link)
      | _, _ => None
      end
  | None => None
  end.

(** The body of the [for line in fh] loop on the pair of accumulators. *)
Definition scan_line (acc : list string * list string) (line : string)
    : list string * list string :=
  let '(modules, subworkflows) := acc in
  match include_match line with
  | Some (name, link) =>
      if startswith link "../../../" then
        let name_split := split "_" (lower name) in
        (modules ++ [join "/" name_split], subworkflows)
      else if startswith link "../" then
        (modules, subworkflows ++ [lower name])
      else acc
  | None => acc
  end.

(** [get_modules_subworkflows_to_install] on the lines of [main.nf]. *)
Definition scan_lines (lines : list string) : list string * list string :=
  fold_left scan_line lines ([], []).

End Extractor.

(* ===================================================================== *)
(** * The file system, [modules.json] and the installer state *)
(* ===================================================================== *)

Module Store.
Import PyStr.

(** The file tree of one installed component: the lines of its [main.nf]
    (absent when the tree has no such file) and whether it ships a
    [nextflow.config]. *)
Record files : Type := Files {
  main_nf : option (list string);
  nextflow_config : bool
}.

(** One record of [modules.json]: the installed revision and the names of
    everything that asked for the component. *)
Record entry : Type := Entry {
  git_sha : string;
  installed_by : gset string
}.

(** Component directories on disk, keyed by their path. *)
Abbreviation disk := (gmap string files).

(** [modules.json] for the one configured remote: component type, then
    component name. *)
Abbreviation lockfile := (gmap (string * string) entry).

(** [ModulesRepo]: the fields the installer reads. *)
Record modules_repo : Type := ModulesRepo {
  remote_url : string;
  branch : string;
  repo_path : string
}.

(** The keyword arguments [install_included_components] gives to
    [ModuleInstall]. *)
Record module_args : Type := ModuleArgs {
  mi_dir : option string;
  mi_force : bool;
  mi_prompt : bool;
  mi_sha : option string;
  mi_remote_url : string;
  mi_branch : string;
  mi_installed_by : string
}.

Inductive level : Type := Debug | Info | Error.

(** What the installer does, in program order: the calls of [install] and
    their returns, its calls into the collaborators and the lines it
    logs. *)
Inductive event : Type :=
| EvInstall (subworkflow : string) (silent : bool) (by_ : string)
| EvCheckUpToDate
| EvVerifySha
| EvVerifyName (requested : string)
| EvCurrentVersion (name : string)
| EvPresenceCheck (name : string) (proceed : bool)
| EvResolveVersion (name : string)
| EvClearDir (dir : string) (ok : bool)
| EvCleanJson (name : string)
| EvInstallFiles (name version : string) (ok : bool)
| EvScan (dir : string)
| EvModuleInstall (args : module_args) (name : string)
| EvUpdate (name : string) (version : option string) (by_ : string)
| EvUpdateSubworkflow (name version by_ : string) (track : option (gset string))
| EvLog (lvl : level) (msg : string)
| EvReturn (subworkflow : string) (result : bool).

(** The mutable world of one run: the one field of the installer object
    that is reassigned, the disk, [modules.json] and the history. *)
Record state : Type := State {
  self_installed_by : string;
  fs : disk;
  modules_json : lockfile;
  history : list event
}.

Definition set_installed_by (v : string) (st : state) : state :=
  State v (fs st) (modules_json st) (history st).
Definition set_fs (d : disk) (st : state) : state :=
  State (self_installed_by st) d (modules_json st) (history st).
Definition set_modules_json (l : lockfile) (st : state) : state :=
  State (self_installed_by st) (fs st) l (history st).
Definition emit (e : event) (st : state) : state :=
  State (self_installed_by st) (fs st) (modules_json st) (history st ++ [e]).

Inductive exn : Type :=
| FileNotFoundError (path : string)
| IndexError.

(** The three ways a call ends: it returns, it raises, or the recursion
    is deeper than the fuel allows. *)
Inductive result (A : Type) : Type :=
| Ret (a : A) (st : state)
| Raise (e : exn) (st : state)
| OutOfFuel.
Arguments Ret {A} a st.
Arguments Raise {A} e st.
Arguments OutOfFuel {A}.

(** The collaborators the installer calls and the source does not define:
    the operating system, the registry client, the prompts (folded into
    the answers of [verify_sha] and [get_version]), the self-healing of
    [modules.json], the sibling module installer, and the case mapping
    of Unicode for text that is not ASCII. *)
Record env : Type := Env {
  os_path_exists : string -> bool;
  rmtree_error : string -> option string;
  check_up_to_date : disk -> lockfile -> lockfile;
  verify_sha : bool -> option string -> bool;
  collect_and_verify_name : string -> string -> modules_repo -> option string;
  get_version :
    string -> string -> option string -> bool -> option string ->
    modules_repo -> option string;
  repo_files : modules_repo -> string -> string -> option files;
  module_install :
    module_args -> string -> disk -> lockfile -> bool * disk * lockfile;
  unicode_upper : string -> string
}.

(** ** [ModulesJson] *)

(** Modelled from the spec: [ModulesJson.get_subworkflow_version] is not in
    the source; section 4.1, getVersion: the recorded version, or absent
    if never installed. *)
Definition get_subworkflow_version (name : string) (l : lockfile)
    : option string :=
  git_sha <$> l !! ("subworkflows", name).

Definition referrers (component_type name : string) (l : lockfile)
    : gset string :=
  match l !! (component_type, name) with
  | Some e => installed_by e
  | None => ∅
  end.

(** Modelled from the spec: [ModulesJson.update] and
    [ModulesJson.update_subworkflow] are not in the source; section 4.1,
    updateEntry: adds the installer to the referrer set of the entry at the
    given version, merges in the members of a salvaged referrer set, and
    creates the entry if absent. The object writes through to the file. *)
Definition update_entry (component_type name version by_ : string)
    (track : option (gset string)) (l : lockfile) : lockfile :=
  <[(component_type, name) :=
      Entry version
        (referrers component_type name l ∪ {[by_]} ∪ default ∅ track)]> l.

(** Modelled from the spec: [clean_modules_json] is not in the source;
    section 4.5 step 6 and section 3: the entry of the component is removed
    and its referrer set is handed back ([None] when there was no entry). *)
Definition clean_modules_json (name component_type : string) (l : lockfile)
    : option (gset string) * lockfile :=
  (installed_by <$> l !! (component_type, name),
   delete (component_type, name) l).

(** Modelled from the spec: [check_component_installed] is not in the
    source; section 4.5 step 5: the files exist on disk at a recorded
    version and force is false. The function answers whether the install
    may go ahead. *)
Definition check_component_installed (component_type component : string)
    (current_version : option string) (component_dir : string)
    (force prompt : bool) (d : disk) : bool :=
  negb (bool_decide (is_Some current_version)
        && bool_decide (is_Some (d !! component_dir))
        && negb force).

End Store.

(* ===================================================================== *)
(** * The installer *)
(* ===================================================================== *)

Module Installer.
Import PyStr Extractor Store.

(** The fields of a [SubworkflowInstall] object that are never reassigned
    after construction. *)
Record installer : Type := Installer_ {
  dir : option string;
  force : bool;
  prompt : bool;
  sha : option string;
  repo : modules_repo;
  component_type : string
}.

(** [__init__]: the base class is given the literal component type; a
    missing or falsy [installed_by] (the default [False], or the empty
    string) falls back to the component type. *)
Definition init (pipeline_dir : option string) (force_ prompt_ : bool)
    (sha_ : option string) (repo_ : modules_repo)
    (installed_by_ : option string) : installer * string :=
  let self := Installer_ pipeline_dir force_ prompt_ sha_ repo_ "subworkflows" in
  (self,
   match installed_by_ with
   | Some (String c s) => String c s
   | Some EmptyString | None => component_type self
   end).

(** Python truthiness of a value that is a string, [None] or [False]. *)
Definition truthy (o : option string) : option string :=
  match o with
  | Some EmptyString => None
  | other => other
  end.

Section Run.
Variable E : env.
Variable self : installer.

Definition log (lvl : level) (msg : string) (st : state) : state :=
  emit (EvLog lvl msg) st.

(** [has_valid_directory] *)
Definition has_valid_directory (st : state) : bool * state :=
  match dir self with
  | None => (false, log Error "Could not find pipeline: None" st)
  | Some d =>
      if os_path_exists E d then (true, st)
      else (false, log Error ("Could not find pipeline: " +:+ d) st)
  end.

(** Modelled from the spec: [clear_component_dir] is inherited from a base
    class that is not in the source; section 4.4, remove: success or
    failure. The body follows [clear_subworkflow_dir] of this class, which
    has the same arguments: the tree is removed and [True] returned, or
    the [OSError] is logged and [False] returned. *)
Definition clear_component_dir (name component_dir : string) (st : state)
    : bool * state :=
  match fs st !! component_dir with
  | None =>
      (false,
       log Error ("Could not remove subworkflow: [Errno 2] No such file or directory: '"
                  +:+ component_dir +:+ "'")
         (emit (EvClearDir component_dir false) st))
  | Some _ =>
      match rmtree_error E component_dir with
      | Some msg =>
          (false,
           log Error ("Could not remove subworkflow: " +:+ msg)
             (emit (EvClearDir component_dir false) st))
      | None =>
          (true,
           log Debug ("Successfully removed " +:+ name +:+ " subworkflow")
             (set_fs (delete component_dir (fs st))
                (emit (EvClearDir component_dir true) st)))
      end
  end.

(** Modelled from the spec: [install_component_files] is inherited from
    the same base class; section 4.4, materialize: success or failure, and
    a failed fetch leaves the target directory as it was. The body follows
    [install_subworkflow_files] of this class, which hands the request to
    the registry client and returns its success. *)
Definition install_component_files (name version : string)
    (install_dir : string) (st : state) : bool * state :=
  match repo_files E (repo self) name version with
  | Some f =>
      (true,
       set_fs (<[os_path_join install_dir name := f]> (fs st))
         (emit (EvInstallFiles name version true) st))
  | None => (false, emit (EvInstallFiles name version false) st)
  end.

(** [get_modules_subworkflows_to_install]: [open] raises when the
    component directory has no [main.nf]; the file it names is
    [Path(subworkflow_dir, "main.nf")]. *)
Definition get_modules_subworkflows_to_install (subworkflow_dir : string)
    (st : state) : result (list string * list string) :=
  let st := emit (EvScan subworkflow_dir) st in
  match fs st !! subworkflow_dir with
  | Some (Files (Some lines) _) => Ret (scan_lines lines) st
  | _ => Raise (FileNotFoundError (path_join_str subworkflow_dir "main.nf")) st
  end.

(** The first loop of [install_included_components]; [rec] is the
    recursive call to [install]. Its boolean result is dropped. *)
Fixpoint install_subworkflows (rec : string -> bool -> state -> result bool)
    (subworkflow_dir : string) (subworkflows_to_install : list string)
    (st : state) : result unit :=
  match subworkflows_to_install with
  | [] => Ret tt st
  | s_install :: rest =>
      let original_installed := self_installed_by st in
      match path_last_part subworkflow_dir with
      | None => Raise IndexError st
      | Some parent =>
          match rec s_install true (set_installed_by parent st) with
          | Ret _ st1 =>
              install_subworkflows rec subworkflow_dir rest
                (set_installed_by original_installed st1)
          | Raise e st1 => Raise e st1
          | OutOfFuel => OutOfFuel
          end
      end
  end.

Definition module_install_args (parent : string) : module_args :=
  ModuleArgs (dir self) (force self) (prompt self) (sha self)
    (remote_url (repo self)) (branch (repo self)) parent.

(** The second loop: one [ModuleInstall] per module, installed silently. *)
Fixpoint install_modules (subworkflow_dir : string)
    (modules_to_install : list string) (st : state) : result unit :=
  match modules_to_install with
  | [] => Ret tt st
  | m_install :: rest =>
      match path_last_part subworkflow_dir with
      | None => Raise IndexError st
      | Some parent =>
          let args := module_install_args parent in
          let st := emit (EvModuleInstall args m_install) st in
          let '(_, d, l) :=
            module_install E args m_install (fs st) (modules_json st) in
          install_modules subworkflow_dir rest
            (set_modules_json l (set_fs d st))
      end
  end.

(** [install_included_components], open in the recursive call. *)
Definition install_included_components_with
    (rec : string -> bool -> state -> result bool)
    (subworkflow_dir : string) (st : state) : result unit :=
  match get_modules_subworkflows_to_install subworkflow_dir st with
  | Ret (modules_to_install, subworkflows_to_install) st1 =>
      match install_subworkflows rec subworkflow_dir
              subworkflows_to_install st1 with
      | Ret _ st2 => install_modules subworkflow_dir modules_to_install st2
      | Raise e st2 => Raise e st2
      | OutOfFuel => OutOfFuel
      end
  | Raise e st1 => Raise e st1
  | OutOfFuel => OutOfFuel
  end.

(** Lines 95 to 109 of [install]: the removal under [force]. The result
    of [clear_component_dir] is not looked at. *)
Definition force_remove (subworkflow : string)
    (current_version : option string) (subworkflow_dir : string)
    (st : state) : option (gset string) * state :=
  if force self
     && check_component_installed (component_type self) subworkflow
          current_version subworkflow_dir (force self) (prompt self) (fs st)
  then
    let st :=
      log Info ("Removing installed version of '" +:+ repo_path (repo self)
                +:+ "/" +:+ subworkflow +:+ "'") st in
    let '(_, st) := clear_component_dir subworkflow subworkflow_dir st in
    let '(install_track, l) :=
      clean_modules_json subworkflow (component_type self) (modules_json st) in
    (install_track, set_modules_json l (emit (EvCleanJson subworkflow) st))
  else (None, st).

(** [subworkflow.upper()]: written out on ASCII text, by the rules of
    Unicode otherwise. *)
Definition str_upper (s : string) : string :=
  if is_ascii_text s then upper s else unicode_upper E s.

(** Lines 121 to 129: the include statement, and the one for the
    configuration file when there is one. *)
Definition print_include_statement (subworkflow install_folder : string)
    (st : state) : state :=
  let subworkflow_name := str_upper subworkflow in
  let st :=
    log Info ("Include statement: include { " +:+ subworkflow_name
              +:+ " } from '." +:+ os_path_join install_folder subworkflow
              +:+ "/main'") st in
  let subworkflow_config :=
    os_path_join (os_path_join install_folder subworkflow) "nextflow.config" in
  match fs st !! os_path_join install_folder subworkflow with
  | Some (Files _ true) =>
      log Info ("Subworkflow config include statement: includeConfig '"
                +:+ subworkflow_config +:+ "'") st
  | _ => st
  end.

Definition finish (requested : string) (r : bool) (st : state)
    : result bool :=
  Ret r (emit (EvReturn requested r) st).

(** The body of [install] is given in the order of the source, cut at its
    two early exits; [rec] stands for the method itself, called again
    from [install_included_components]. *)

(** Lines 118 to 134: the dependencies, the include statement, the
    update of [modules.json]. *)
Definition install_tail (rec : string -> bool -> state -> result bool)
    (requested : string) (silent : bool)
    (subworkflow version install_folder : string)
    (install_track : option (gset string)) (st : state) : result bool :=
  match install_included_components_with rec
          (os_path_join install_folder subworkflow) st with
  | Ret _ st =>
      let st :=
        if negb silent
        then print_include_statement subworkflow install_folder st
        else st in
      let st :=
        set_modules_json
          (update_entry (component_type self) subworkflow version
             (self_installed_by st) install_track (modules_json st))
          (emit (EvUpdateSubworkflow subworkflow version
                   (self_installed_by st) install_track) st) in
      finish requested true st
  | Raise e st => Raise e st
  | OutOfFuel => OutOfFuel
  end.

(** Lines 88 to 116: the target version, the removal under [force], the
    download. *)
Definition install_fresh (rec : string -> bool -> state -> result bool)
    (requested : string) (silent : bool)
    (subworkflow : string) (current_version : option string)
    (install_folder : string) (st : state) : result bool :=
  let st := emit (EvResolveVersion subworkflow) st in
  match truthy (get_version E subworkflow (component_type self) (sha self)
                  (prompt self) current_version (repo self)) with
  | None => finish requested false st
  | Some version =>
      let '(install_track, st) :=
        force_remove subworkflow current_version
          (os_path_join install_folder subworkflow) st in
      let st :=
        log Info ((if force self then "Rei" else "I") +:+ "nstalling '"
                  +:+ subworkflow +:+ "'") st in
      let st :=
        log Debug ("Installing subworkflow '" +:+ subworkflow
                   +:+ "' at hash " +:+ version +:+ " from "
                   +:+ remote_url (repo self)) st in
      let '(ok, st) :=
        install_component_files subworkflow version install_folder st in
      if negb ok then finish requested false st
      else install_tail rec requested silent subworkflow version
             install_folder install_track st
  end.

(** Lines 81 to 86: the component is installed and [force] is not set.
    The source calls [modules_json.update] here, and
    [modules_json.update_subworkflow] after a full install. The recorded
    version is never [None] on this path. *)
Definition already_installed (requested subworkflow : string)
    (current_version : option string) (st : state) : result bool :=
  let st :=
    log Debug
      ("Subworkflow is already installed and force is not set."
       +:+ String newline
         ("Adding the new installation source "
          +:+ self_installed_by st +:+ " for subworkflow " +:+ subworkflow
          +:+ " to 'modules.json' without installing the subworkflow."))
      st in
  let st :=
    set_modules_json
      (update_entry (component_type self) subworkflow
         (default "" current_version) (self_installed_by st) None
         (modules_json st))
      (emit (EvUpdate subworkflow current_version (self_installed_by st))
         st) in
  finish requested false st.

(** Lines 60 to 80: the recorded version, the directories, the presence
    check. *)
Definition install_verified (rec : string -> bool -> state -> result bool)
    (requested : string) (silent : bool) (d subworkflow : string)
    (st : state) : result bool :=
  let current_version :=
    get_subworkflow_version subworkflow (modules_json st) in
  let st := emit (EvCurrentVersion subworkflow) st in
  let install_folder :=
    os_path_join3 d "subworkflows" (repo_path (repo self)) in
  let subworkflow_dir := os_path_join install_folder subworkflow in
  let proceed :=
    check_component_installed (component_type self) subworkflow
      current_version subworkflow_dir (force self) (prompt self) (fs st) in
  let st := emit (EvPresenceCheck subworkflow proceed) st in
  if negb proceed
  then already_installed requested subworkflow current_version st
  else install_fresh rec requested silent subworkflow current_version
         install_folder st.

(** Lines 37 to 58: the pipeline directory, the consistency check of
    [modules.json], the revision and the name. *)
Definition install_body (rec : string -> bool -> state -> result bool)
    (requested : string) (silent : bool) (st : state) : result bool :=
  let st := emit (EvInstall requested silent (self_installed_by st)) st in
  let '(valid, st) := has_valid_directory st in
  if negb valid then finish requested false st else
  match dir self with
  | None => finish requested false st
  | Some d =>
      let st :=
        set_modules_json (check_up_to_date E (fs st) (modules_json st))
          (emit EvCheckUpToDate st) in
      let st := emit EvVerifySha st in
      if negb (verify_sha E (prompt self) (sha self))
      then finish requested false st else
      let st := emit (EvVerifyName requested) st in
      match truthy (collect_and_verify_name E (component_type self)
                      requested (repo self)) with
      | None => finish requested false st
      | Some subworkflow =>
          install_verified rec requested silent d subworkflow st
      end
  end.

(** [install]. One unit of fuel is one level of Python's recursion. *)
Fixpoint install (fuel : nat) (requested : string) (silent : bool)
    (st : state) {struct fuel} : result bool :=
  match fuel with
  | O => OutOfFuel
  | S fuel' => install_body (install fuel') requested silent st
  end.

(** [install_included_components] as a method: the recursive calls it
    makes have the depth budget of the caller. *)
Definition install_included_components (fuel : nat)
    (subworkflow_dir : string) (st : state) : result unit :=
  install_included_components_with (install fuel) subworkflow_dir st.

End Run.

End Installer.

(* ===================================================================== *)
(** * Reading a history *)
(* ===================================================================== *)

Module Observations.
Import PyStr Extractor Store Installer.

(** The two lines of guidance of lines 121 to 129. *)
Definition is_guidance (e : event) : bool :=
  match e with
  | EvLog Info msg =>
      startswith msg "Include statement: "
      || startswith msg "Subworkflow config include statement: "
  | _ => false
  end.

(** The events with which work on a dependency starts: a call of
    [install], the scan of a [main.nf], a call of the module installer. *)
Definition is_dependency_event (e : event) : bool :=
  match e with
  | EvInstall _ _ _ | EvScan _ | EvModuleInstall _ _ => true
  | _ => false
  end.

Definition is_resolve (e : event) : bool :=
  match e with EvResolveVersion _ => true | _ => false end.

Definition is_materialize (e : event) : bool :=
  match e with EvInstallFiles _ _ _ => true | _ => false end.

(** The events that write an entry of [modules.json]. *)
Definition is_entry_write (e : event) : bool :=
  match e with
  | EvUpdate _ _ _ | EvUpdateSubworkflow _ _ _ _ => true
  | _ => false
  end.

Definition quiet (evs : list event) : Prop :=
  Forall (fun e => is_guidance e = false) evs.

Definition idle (evs : list event) : Prop :=
  Forall (fun e => is_entry_write e = false) evs.

Definition calm (evs : list event) : Prop :=
  Forall (fun e => is_dependency_event e = false) evs.

(** A segment of history that opens with a silent call of [install] for
    [s], made on behalf of [parent]. *)
Definition starts_silent (parent : string) (s : string) (seg : list event)
    : Prop :=
  exists tl, seg = EvInstall s true parent :: tl.

(** What a call of [install] that returns guarantees to its caller. *)
Definition well_behaved (rec : string -> bool -> state -> result bool)
    : Prop :=
  forall req silent st r st',
    rec req silent st = Ret r st' ->
    self_installed_by st' = self_installed_by st /\
    exists tl,
      history st' =
        history st ++ EvInstall req silent (self_installed_by st) :: tl /\
      (silent = true -> quiet tl).

(** What one line of [main.nf] contributes: the loop body run on empty
    accumulators. *)
Definition line_deps (line : string) : list string * list string :=
  scan_line ([], []) line.

(** [c in s] *)
Fixpoint has_char (c : ascii) (s : string) : bool :=
  match s with
  | EmptyString => false
  | String x s' => Ascii.eqb c x || has_char c s'
  end.

(** A component name that is one path segment: not empty, not a single
    dot, no separator in it. The names the extractor finds are of this
    kind whenever they are not empty. *)
Definition is_segment (s : string) : bool :=
  negb (String.eqb s "") && negb (String.eqb s ".")
  && negb (has_char slash s).

(** The event that writes an entry, read as the component and the
    referrer it records. *)
Definition written (e : event) : option (string * string) :=
  match e with
  | EvUpdate name _ by_ | EvUpdateSubworkflow name _ by_ _ => Some (name, by_)
  | _ => None
  end.

(** What a call of [install] that raises guarantees: it opened with its
    own event and only added to the history. *)
Definition grows (rec : string -> bool -> state -> result bool) : Prop :=
  forall req silent st e st',
    rec req silent st = Raise e st' ->
    exists tl,
      history st' =
        history st ++ EvInstall req silent (self_installed_by st) :: tl.

(** The end of a call of [install] for [req], made on behalf of [by_],
    that returned [r]: the event before the return is the update the call
    makes for the component it was asked for, when it makes one, and the
    update records [by_]. A call that returns [True] has made it; a call
    that returns [False] has made no other. *)
Definition closes_for (by_ req : string) (r : bool) (tl : list event)
    : Prop :=
  exists mid e,
    tl = mid ++ [e; EvReturn req r] /\
    (forall x b, written e = Some (x, b) -> b = by_) /\
    (r = true -> exists x, written e = Some (x, by_)) /\
    (r = false -> idle mid).

(** A segment of history made by a silent call of [install] for [s] on
    behalf of [parent], from its start to its return. *)
Definition nested_for (parent s : string) (seg : list event) : Prop :=
  exists r tl, seg = EvInstall s true parent :: tl /\ closes_for parent s r tl.

(** What a call of [install] that returns has recorded, and for whom. *)
Definition records_caller
    (rec : string -> bool -> state -> result bool) : Prop :=
  forall req silent st r st',
    rec req silent st = Ret r st' ->
    exists tl,
      history st' =
        history st ++ EvInstall req silent (self_installed_by st) :: tl /\
      closes_for (self_installed_by st) req r tl.

(** A deeper recursion budget changes no result that was reached. *)
Definition refines (rec rec' : string -> bool -> state -> result bool)
    : Prop :=
  forall req silent st res,
    rec req silent st = res -> res <> OutOfFuel -> rec' req silent st = res.

(** The call ended in [st'], by returning or by raising. *)
Definition ends_in {A} (res : result A) (st' : state) : Prop :=
  (exists a, res = Ret a st') \/ (exists e, res = Raise e st').

(** The component type [__init__] gives to the base class. *)
Definition constructed (self : installer) : Prop :=
  component_type self = "subworkflows".

(** The state a call ended in; the start state when it ran out of fuel. *)
Definition final {A} (st : state) (r : result A) : state :=
  match r with
  | Ret _ st' | Raise _ st' => st'
  | OutOfFuel => st
  end.

Section Run.
Variable E : env.
Variable self : installer.

(** The checks every call passes before it reaches the presence check. *)
Definition verified (req d sub : string) : Prop :=
  dir self = Some d /\ os_path_exists E d = true /\
  verify_sha E (prompt self) (sha self) = true /\
  truthy (collect_and_verify_name E (component_type self) req (repo self))
    = Some sub.

Definition folder_of (d : string) : string :=
  os_path_join3 d "subworkflows" (repo_path (repo self)).

Definition healed (st : state) : lockfile :=
  check_up_to_date E (fs st) (modules_json st).

(** The version on record once [modules.json] has been checked. *)
Definition recorded (sub : string) (st : state) : option string :=
  get_subworkflow_version sub (healed st).

(** The answer of the presence check of a call that starts in [st]. *)
Definition may_proceed (d sub : string) (st : state) : bool :=
  check_component_installed (component_type self) sub (recorded sub st)
    (os_path_join (folder_of d) sub) (force self) (prompt self) (fs st).

(** The target version a call that starts in [st] resolves. *)
Definition target (sub : string) (st : state) : option string :=
  truthy (get_version E sub (component_type self) (sha self) (prompt self)
            (recorded sub st) (repo self)).

(** The state in which the presence check of [sub] has just been made. *)
Definition presence_checked (req : string) (silent : bool) (sub : string)
    (proceed : bool) (st : state) : state :=
  emit (EvPresenceCheck sub proceed)
    (emit (EvCurrentVersion sub)
       (emit (EvVerifyName req)
          (emit EvVerifySha
             (set_modules_json (healed st)
                (emit EvCheckUpToDate
                   (emit (EvInstall req silent (self_installed_by st))
                      st)))))).

(** The events of the second loop of [install_included_components]. *)
Definition module_events (subworkflow_dir : string) (mods : list string)
    : list event :=
  if path_last_part subworkflow_dir is Some parent
  then map (EvModuleInstall (module_install_args self parent)) mods
  else [].

(** What is known of a call that went all the way, from the state [st] in
    which the presence check has been made to the final state [st']:
    the download, the dependencies, the include statement, the update. *)
Definition completed (rec : string -> bool -> state -> result bool)
    (req : string) (silent : bool) (sub : string)
    (cv : option string) (folder : string) (st st' : state) : Prop :=
  exists version f pre st1 st2 post,
    let track :=
      if force self
      then installed_by <$> modules_json st !! (component_type self, sub)
      else None in
    truthy (get_version E sub (component_type self) (sha self) (prompt self)
              cv (repo self)) = Some version /\
    repo_files E (repo self) sub version = Some f /\
    history st1 =
      history st ++ EvResolveVersion sub :: pre
        ++ [EvInstallFiles sub version true] /\
    quiet pre /\ calm pre /\ idle pre /\
    self_installed_by st1 = self_installed_by st /\
    fs st1 !! os_path_join folder sub = Some f /\
    modules_json st1 =
      (if force self
       then delete (component_type self, sub) (modules_json st)
       else modules_json st) /\
    install_included_components_with E self rec (os_path_join folder sub) st1
      = Ret tt st2 /\
    history st' =
      history st2 ++ post
        ++ [EvUpdateSubworkflow sub version (self_installed_by st) track;
            EvReturn req true] /\
    calm post /\ idle post /\
    (if silent then post = []
     else exists msg rest, post = EvLog Info msg :: rest
                           /\ is_guidance (EvLog Info msg) = true) /\
    fs st' = fs st2 /\
    modules_json st' =
      update_entry (component_type self) sub version (self_installed_by st)
        track (modules_json st2).

End Run.

End Observations.

(* ===================================================================== *)
(** * A registry and a pipeline to run the installer on *)
(* ===================================================================== *)

Module Scenario.
Import PyStr Extractor Store Installer.

Definition nf_core : modules_repo :=
  ModulesRepo "https://github.com/nf-core/modules.git" "master" "nf-core".

(** The end-to-end example of the specification: [bam_stats_samtools]
    includes one subworkflow from one level down and one module. *)
Definition bam_stats_main : list string :=
  [ "include { BAM_SORT_STATS_SAMTOOLS } from '../bam_sort_stats_samtools/main'";
    "include { SAMTOOLS_FLAGSTAT } from '../../../modules/nf-core/samtools/flagstat/main'";
    "workflow BAM_STATS_SAMTOOLS { }" ].

(** A fetch of the revision [unreachable] fails, whatever the name. *)
Definition registry (r : modules_repo) (name version : string)
    : option files :=
  if String.eqb version "unreachable" then None
  else if String.eqb name "bam_stats_samtools"
  then Some (Files (Some bam_stats_main) true)
  else if String.eqb name "bam_sort_stats_samtools"
  then Some (Files (Some ["workflow BAM_SORT_STATS_SAMTOOLS { }"]) false)
  else if String.eqb name "no_main"
  then Some (Files None false)
  else if String.eqb name "needs_no_main"
  then Some (Files (Some ["include { NO_MAIN } from '../no_main/main'"]) false)
  else if String.eqb name "group/inner"
  then Some (Files
               (Some ["include { BAM_SORT_STATS_SAMTOOLS } from '../../bam_sort_stats_samtools/main'"])
               false)
  else None.

(** The sibling installer of the scenario records the module and writes
    nothing to disk. *)
Definition record_module (args : module_args) (name : string)
    (d : disk) (l : lockfile) : bool * disk * lockfile :=
  (true, d, update_entry "modules" name "m1" (mi_installed_by args) None l).

Definition known_name (component_type name : string) (r : modules_repo)
    : option string :=
  if String.eqb name "ghost" then None else Some name.

Definition pinned_or_latest (name component_type : string)
    (sha_ : option string) (prompt_ : bool) (current : option string)
    (r : modules_repo) : option string :=
  Some (default "v2" sha_).

(** The names of the scenario are ASCII text, so the case mapping of
    Unicode is never asked. *)
Definition world (rm : string -> option string) : env :=
  Env (fun d => String.eqb d "/pipe") rm (fun _ l => l) (fun _ _ => true)
    known_name pinned_or_latest registry record_module (fun s => s).

Definition healthy : env := world (fun _ => None).
Definition read_only : env := world (fun _ => Some "[Errno 13] Permission denied").

Definition installer_of (force_ : bool) (sha_ installed_by_ : option string)
    : installer * string :=
  init (Some "/pipe") force_ false sha_ nf_core installed_by_.

Definition plain : installer := (installer_of false None None).1.
Definition forced : installer := (installer_of true None None).1.
Definition forced_unreachable : installer :=
  (installer_of true (Some "unreachable") None).1.

Definition start (by_ : string) (d : disk) (l : lockfile) : state :=
  State by_ d l [].

Definition sort_dir : string := "/pipe/subworkflows/nf-core/bam_sort_stats_samtools".

(** [bam_sort_stats_samtools] installed at version [v1] for [A] and [B]. *)
Definition sort_installed : state :=
  start "A"
    {[ sort_dir := Files (Some ["workflow BAM_SORT_STATS_SAMTOOLS { }"]) false ]}
    {[ ("subworkflows", "bam_sort_stats_samtools") := Entry "v1" {[ "A"; "B" ]} ]}.

Definition stats_dir : string := "/pipe/subworkflows/nf-core/bam_stats_samtools".

(** The files of [bam_stats_samtools] on disk, nothing recorded yet. *)
Definition stats_on_disk : state :=
  start "subworkflows" {[ stats_dir := Files (Some bam_stats_main) true ]} ∅.

Definition needs_no_main_dir : string :=
  "/pipe/subworkflows/nf-core/needs_no_main".

(** A component on disk whose one dependency ships no [main.nf]. *)
Definition needs_no_main_on_disk : state :=
  start "subworkflows"
    {[ needs_no_main_dir :=
         Files (Some ["include { NO_MAIN } from '../no_main/main'"]) false ]}
    ∅.

Definition empty_pipeline : state := start "subworkflows" ∅ ∅.

End Scenario.

(* ===================================================================== *)
(** * The shapes of lines and names *)
(* ===================================================================== *)

Module Shapes.
Import PyStr Regex Extractor.

(** [s.replace(a, b)] for one-character [a] and [b]. *)
Fixpoint replace_char (a b : ascii) (s : string) : string :=
  match s with
  | EmptyString => EmptyString
  | String c s' => String (if Ascii.eqb c a then b else c) (replace_char a b s')
  end.

(** The characters of a module name and of a subworkflow name. *)
Definition is_module_char (c : ascii) : bool :=
  is_lower c || is_digit c || Ascii.eqb c "/".
Definition is_subworkflow_char (c : ascii) : bool :=
  is_lower c || is_digit c || Ascii.eqb c "_".

(** The single and the double quote. *)
Definition is_quote (c : ascii) : bool :=
  Ascii.eqb c squote || Ascii.eqb c dquote.

(** An include statement as it is usually written: the symbol, an
    optional alias, and the path between two quotes. *)
Definition include_line (name : string) (alias : option string)
    (q1 q2 : ascii) (link : string) : string :=
  "include { " +:+ name
  +:+ (if alias is Some a then " as " +:+ a else "")
  +:+ " } from " +:+ String q1 (link +:+ String q2 "").

End Shapes.

(* ===================================================================== *)
(** * The names of dependencies in the words of the specification *)
(* ===================================================================== *)

Module Wording.
Import PyStr Shapes.

(** The letters in upper case, and the same letters in lower case. *)
Definition upper_case_letters : string := "ABCDEFGHIJKLMNOPQRSTUVWXYZ".
Definition lower_case_letters : string := "abcdefghijklmnopqrstuvwxyz".

(** The letter of [lowers] at the place [c] has in [uppers]; [c] itself
    when it is not among [uppers]. *)
Fixpoint letter_for (c : ascii) (uppers lowers : string) : ascii :=
  match uppers, lowers with
  | String u uppers', String l lowers' =>
      if Ascii.eqb u c then l else letter_for c uppers' lowers'
  | _, _ => c
  end.

(** Lower-casing the symbol: every upper-case letter is replaced by its
    lower-case letter, every other character is kept. *)
Fixpoint spec_lowercase (s : string) : string :=
  match s with
  | EmptyString => EmptyString
  | String c s' =>
      String (letter_for c upper_case_letters lower_case_letters)
        (spec_lowercase s')
  end.

(** [s] starts with [p]. *)
Definition has_prefix (p s : string) : Prop := exists rest, s = p +:+ rest.

(** The name of a module: the lower-cased symbol, with a slash between
    the parts that an underscore separates in the symbol. *)
Definition spec_module_name (symbol : string) : string :=
  replace_char "_" "/" (spec_lowercase symbol).

End Wording.

(* ===================================================================== *)
(** * How a call can end *)
(* ===================================================================== *)

Module Outcomes.
Import PyStr Extractor Store Installer Observations.

(** The exception of a call that found no [main.nf] to open: the file is
    the [main.nf] of the directory scanned last, and that directory has
    none. *)
Definition missing_main (e : exn) (st' : state) : Prop :=
  exists p,
    e = FileNotFoundError (path_join_str p "main.nf") /\
    (fs st' !! p ≫= main_nf) = None /\
    last (history st') = Some (EvScan p).

Definition raises_for_missing_main
    (rec : string -> bool -> state -> result bool) : Prop :=
  forall req silent st e st',
    rec req silent st = Raise e st' -> missing_main e st'.

(** The entry with one more referrer, at the version it has. *)
Definition add_referrer (by_ : string) (e : entry) : entry :=
  Entry (git_sha e) (installed_by e ∪ {[by_]}).

End Outcomes.

(* ===================================================================== *)
(** * The methods [install] does not call *)
(* ===================================================================== *)

Module Uncalled.
Import PyStr Store Installer.

(** What a statement of the file can raise besides the exceptions of
    [install]: an unbound name, and the error of the operating system
    that the handler of [clear_subworkflow_dir] is written for. *)
Inductive py_error : Type :=
| NameError (name : string)
| OSError (msg : string).

(** [except OSError]: a [NameError] is no [OSError]. *)
Definition is_OSError (e : py_error) : bool :=
  match e with
  | OSError _ => true
  | NameError _ => false
  end.

(** The names the module binds: the imports of lines 1 to 11, [log] of
    line 13 and the class of line 16. *)
Definition module_globals : list string :=
  [ "logging"; "os"; "re"; "Path"; "nf_core"; "ComponentCommand";
    "ModuleInstall"; "ModulesJson"; "log"; "SubworkflowInstall" ].

(** The evaluation of a global name. No builtin is called [shutil]. *)
Definition load_global (name : string) : py_error + unit :=
  if bool_decide (name ∈ module_globals) then inr tt
  else inl (NameError name).

Section Run.
Variable E : env.

(** [clear_subworkflow_dir]: the body of the [try], then the handler. *)
Definition clear_subworkflow_dir (subworkflow_name subworkflow_dir : string)
    (st : state) : (py_error + bool) * state :=
  let try_body : (py_error + unit) * state :=
    match load_global "shutil" with
    | inl e => (inl e, st)
    | inr _ =>
        match fs st !! subworkflow_dir with
        | None =>
            (inl (OSError ("[Errno 2] No such file or directory: '"
                           +:+ subworkflow_dir +:+ "'")), st)
        | Some _ =>
            match rmtree_error E subworkflow_dir with
            | Some msg => (inl (OSError msg), st)
            | None =>
                (inr tt,
                 emit (EvLog Debug ("Successfully removed " +:+ subworkflow_name
                                    +:+ " subworkflow"))
                   (set_fs (delete subworkflow_dir (fs st)) st))
            end
        end
    end in
  match try_body with
  | (inr _, st1) => (inr true, st1)
  | (inl (OSError msg), st1) =>
      (inr false,
       emit (EvLog Error ("Could not remove subworkflow: " +:+ msg)) st1)
  | (inl e, st1) => (inl e, st1)
  end.

End Run.

End Uncalled.

(* ===================================================================== *)
(** * More of the registry *)
(* ===================================================================== *)

Module Fixtures.
Import PyStr Extractor Store Installer Scenario.

(** A component that includes a subworkflow the registry does not know,
    and one module. *)
Definition needs_ghost_main : list string :=
  [ "include { GHOST } from '../ghost/main'";
    "include { SAMTOOLS_SORT } from '../../../modules/nf-core/samtools/sort/main'" ].

Definition registry_with_ghost (r : modules_repo) (name version : string)
    : option files :=
  if String.eqb name "needs_ghost"
  then Some (Files (Some needs_ghost_main) false)
  else registry r name version.

Definition haunted : env :=
  Env (fun d => String.eqb d "/pipe") (fun _ => None) (fun _ l => l)
    (fun _ _ => true) known_name pinned_or_latest registry_with_ghost
    record_module (fun s => s).


(** The pipeline in the current directory, given as a single dot. *)
Definition in_cwd : env :=
  Env (fun d => String.eqb d ".") (fun _ => None) (fun _ l => l)
    (fun _ _ => true) known_name pinned_or_latest registry record_module
    (fun s => s).

Definition plain_in_cwd : installer :=
  (init (Some ".") false false None nf_core None).1.

(** A directory named by a single dot, which has no path parts. *)
Definition here_on_disk : state :=
  start "subworkflows"
    {[ "." := Files (Some ["include { BAR } from '../bar/main'"]) false ]} ∅.

(** A component that includes itself. *)
Definition registry_with_loop (r : modules_repo) (name version : string)
    : option files :=
  if String.eqb name "ouroboros"
  then Some (Files (Some ["include { OUROBOROS } from '../ouroboros/main'"])
               false)
  else registry r name version.

Definition looping : env :=
  Env (fun d => String.eqb d "/pipe") (fun _ => None) (fun _ l => l)
    (fun _ _ => true) known_name pinned_or_latest registry_with_loop
    record_module (fun s => s).

(** The depth of the includes below each name of the registry of the
    scenario. *)
Definition depth (name : string) : nat :=
  if bool_decide (name ∈ ["bam_stats_samtools"; "needs_no_main"; "group/inner"])
  then 1 else 0.


(** [bam_stats_samtools] on disk beside its dependency, which is
    installed at version [v1] for [A]. *)
Definition stats_beside_sort : state :=
  start "subworkflows"
    {[ stats_dir := Files (Some bam_stats_main) true;
       sort_dir := Files (Some ["workflow BAM_SORT_STATS_SAMTOOLS { }"]) false ]}
    {[ ("subworkflows", "bam_sort_stats_samtools") := Entry "v1" {[ "A" ]} ]}.

End Fixtures.

(* ===================================================================== *)
(** * Strings *)
(* ===================================================================== *)

Section StringFacts.

Lemma append_cons c (a b : string) : String c a +:+ b = String c (a +:+ b).
Proof. reflexivity. Qed.

Lemma append_empty (b : string) : "" +:+ b = b.
Proof. reflexivity. Qed.

Lemma append_assoc (a b c : string) : (a +:+ b) +:+ c = a +:+ (b +:+ c).
Proof.
  induction a as [|x a IH]; [done|]. by rewrite !append_cons, IH.
Qed.

Lemma length_append (a b : string) :
  String.length (a +:+ b) = String.length a + String.length b.
Proof.
  induction a as [|c a IH]; [done|]. rewrite append_cons. cbn.
  by rewrite IH.
Qed.

Lemma substring_append (a b : string) :
  String.substring 0 (String.length a) (a +:+ b) = a.
Proof.
  induction a as [|c a IH].
  - rewrite append_empty. by destruct b.
  - rewrite append_cons. cbn. by rewrite IH.
Qed.

End StringFacts.

(* ===================================================================== *)
(** * Paths *)
(* ===================================================================== *)

Section PathFacts.
Import PyStr Observations.


Lemma split_nonempty sep s : split sep s <> [].
Proof.
  destruct s as [|c s]; cbn; [done|].
  destruct (Ascii.eqb c sep); [done|]. by destruct (split sep s).
Qed.

Lemma split_no_sep sep s : has_char sep s = false -> split sep s = [s].
Proof.
  induction s as [|c s IH]; cbn; [done|].
  rewrite (Ascii.eqb_sym c sep). destruct (Ascii.eqb sep c); cbn; [done|].
  intros H. by rewrite (IH H).
Qed.

Lemma split_app_sep sep a s :
  split sep (a +:+ String sep s) = split sep a ++ split sep s.
Proof.
  induction a as [|c a IH]; rewrite ?append_cons, ?append_empty; simpl.
  - by rewrite Ascii.eqb_refl.
  - destruct (Ascii.eqb c sep); [by rewrite IH|].
    rewrite IH. pose proof (split_nonempty sep a).
    by destruct (split sep a).
Qed.

Lemma endswith_sep_inv a :
  endswith_sep a = true -> exists a', a = a' +:+ "/".
Proof.
  induction a as [|c a IH]; cbn; [done|].
  destruct a as [|c' a].
  - intros H. apply Ascii.eqb_eq in H. subst c. by exists "".
  - intros H. destruct (IH H) as [a' Ha']. exists (String c a').
    by rewrite append_cons, <- Ha'.
Qed.

Lemma segment_no_leading_slash s :
  is_segment s = true -> startswith s "/" = false.
Proof.
  destruct s as [|c s]; [done|]. intros Hs.
  change (startswith (String c s) "/")
    with (if Ascii.eqb "/" c then true else false).
  destruct (Ascii.eqb_spec "/" c) as [<-|Hne]; [|done].
  unfold is_segment in Hs.
  assert (has_char slash (String "/" s) = true) as H by reflexivity.
  rewrite H in Hs. by rewrite andb_false_r in Hs.
Qed.

Lemma last_split_join a s :
  is_segment s = true ->
  exists l, split slash (os_path_join a s) = l ++ [s].
Proof.
  intros Hs. unfold os_path_join. rewrite (segment_no_leading_slash _ Hs).
  assert (Hns : split slash s = [s]).
  { apply split_no_sep. unfold is_segment in Hs.
    by destruct (has_char slash s); [rewrite andb_false_r in Hs|]. }
  destruct (String.eqb a "") eqn:Ha; cbn [orb].
  - apply String.eqb_eq in Ha. subst a. exists []. exact Hns.
  - destruct (endswith_sep a) eqn:He.
    + destruct (endswith_sep_inv _ He) as [a' ->].
      rewrite append_assoc, append_cons, append_empty. fold slash.
      rewrite split_app_sep, Hns. by eexists.
    + rewrite append_cons, append_empty. fold slash.
      rewrite split_app_sep, Hns. by eexists.
Qed.

(** The last part of the directory of a component whose name is one path
    segment is that name. *)
Lemma path_last_part_join a s :
  is_segment s = true -> path_last_part (os_path_join a s) = Some s.
Proof.
  intros Hs. destruct (last_split_join a s Hs) as [l Hl].
  unfold path_last_part, path_parts. rewrite Hl, filter_app.
  rewrite filter_cons_True, filter_nil.
  - by rewrite app_assoc, last_snoc.
  - unfold is_segment in Hs. unfold is_name_part.
    destruct (String.eqb s ""), (String.eqb s "."); done.
Qed.

End PathFacts.

Section ComponentDirectory.
Import PyStr Observations.

Lemma path_root_slash s : path_root s <> [] <-> startswith s "/" = true.
Proof.
  destruct s as [|c1 s]; [done|].
  change (startswith (String c1 s) "/")
    with (if Ascii.eqb "/" c1 then true else false).
  rewrite (Ascii.eqb_sym "/" c1). fold slash.
  destruct s as [|c2 [|c3 s]]; cbn [path_root];
    destruct (Ascii.eqb c1 slash); try done;
    destruct (Ascii.eqb c2 slash); try done;
    destruct (Ascii.eqb c3 slash); done.
Qed.

Lemma startswith_app a b p :
  startswith a p = true -> startswith (a +:+ b) p = true.
Proof.
  revert a. induction p as [|x p IH]; intros a; [done|].
  destruct a as [|y a]; [done|]. rewrite append_cons. cbn [startswith].
  destruct (Ascii.eqb x y); [apply IH|done].
Qed.

Lemma path_parts_nonempty s :
  path_parts s <> [] <->
  startswith s "/" = true \/
  filter (fun p => is_name_part p = true) (split slash s) <> [].
Proof.
  unfold path_parts. rewrite <- path_root_slash.
  destruct (path_root s), (filter _ (split slash s)); cbn; split; intros H;
    try done; auto.
  by destruct H.
Qed.

Lemma filter_app_nonempty {A} (P : A -> Prop) `{!forall x, Decision (P x)}
    (l k : list A) :
  filter P l <> [] -> filter P (l ++ k) <> [].
Proof. rewrite filter_app. by destruct (filter P l). Qed.

(** Joining never loses the last part of a path that has one. *)
Lemma path_parts_join a b :
  path_parts a <> [] -> path_parts (os_path_join a b) <> [].
Proof.
  intros Ha. unfold os_path_join.
  destruct (startswith b "/") eqn:Hb.
  { apply path_parts_nonempty. by left. }
  assert (Hne : a <> "") by (by intros ->).
  apply path_parts_nonempty in Ha.
  destruct (String.eqb_spec a ""); [done|]. cbn [orb].
  destruct (endswith_sep a) eqn:He.
  - destruct (endswith_sep_inv _ He) as [a' ->].
    apply path_parts_nonempty. destruct Ha as [Ha|Ha].
    + left. by apply startswith_app.
    + right. rewrite append_assoc, append_cons, append_empty. fold slash.
      rewrite split_app_sep. apply filter_app_nonempty.
      change "/"%string with (String slash "") in Ha.
      rewrite split_app_sep, filter_app in Ha. cbn [split] in Ha.
      rewrite filter_cons_False, filter_nil, app_nil_r in Ha; done.
  - apply path_parts_nonempty. destruct Ha as [Ha|Ha].
    + left. by apply startswith_app.
    + right. rewrite append_cons, append_empty. fold slash.
      rewrite split_app_sep. by apply filter_app_nonempty.
Qed.

(** The directory of a component always has a last part. *)
Lemma component_dir_has_name d rp sub :
  is_Some
    (path_last_part (os_path_join (os_path_join3 d "subworkflows" rp) sub)).
Proof.
  unfold path_last_part, os_path_join3.
  assert (H : path_parts (os_path_join d "subworkflows") <> []).
  { pose proof (path_last_part_join d "subworkflows" eq_refl) as H.
    unfold path_last_part in H. intros Hnil. by rewrite Hnil in H. }
  apply (path_parts_join _ rp), (path_parts_join _ sub) in H.
  destruct (path_parts _) as [|x l] using rev_ind; [done|].
  rewrite last_snoc. by eexists.
Qed.

End ComponentDirectory.

(* ===================================================================== *)
(** * The include pattern *)
(* ===================================================================== *)

Section RegexFacts.
Import PyStr Regex Extractor Observations.

(** The text between a string and its suffix is the prefix. *)
Lemma consumed_append (a b : string) : consumed (a +:+ b) b = a.
Proof.
  unfold consumed. rewrite length_append.
  replace (String.length a + String.length b - String.length b)
    with (String.length a) by lia.
  apply substring_append.
Qed.

(** The greedy star takes the whole run when what follows can match. *)
Lemma star_match_greedy {R} p (run rest : string) (k : string -> option R) r :
  all_chars p run = true ->
  star_match p rest k = Some r ->
  star_match p (run +:+ rest) k = Some r.
Proof.
  intros Hrun Hrest. induction run as [|c run IH].
  - by rewrite append_empty.
  - rewrite append_cons. cbn in Hrun. apply andb_prop in Hrun as [Hc Hrun].
    cbn [star_match]. by rewrite Hc, (IH Hrun).
Qed.

Lemma star_match_stop {R} p c (s : string) (k : string -> option R) :
  p c = false -> star_match p (String c s) k = k (String c s).
Proof. intros H. cbn [star_match]. by rewrite H. Qed.

(** Whatever the star hands to its continuation follows a run of the
    class. *)
Lemma star_match_sound {R} p (s : string) (k : string -> option R) r :
  star_match p s k = Some r ->
  exists run s', s = run +:+ s' /\ all_chars p run = true /\ k s' = Some r.
Proof.
  induction s as [|c s IH]; cbn [star_match].
  - intros H. by exists "", "".
  - destruct (p c) eqn:Hc.
    + destruct (star_match p s k) as [r'|] eqn:Hs.
      * intros [= <-]. destruct (IH eq_refl) as (run & s' & -> & Hrun & Hk).
        exists (String c run), s'. rewrite append_cons. cbn. by rewrite Hc, Hrun.
      * intros H. by exists "", (String c s).
    + intros H. by exists "", (String c s).
Qed.

(** The matcher only succeeds on matches. *)
Lemma rmatch_sound r :
  forall s g k x,
    rmatch r s g k = Some x ->
    exists s' g', matches r s s' g g' /\ k s' g' = Some x.
Proof.
  induction r as [c|p|r1 IH1 r2 IH2|r1 IH1 r2 IH2|r1 IH1|i r1 IH1];
    intros s g k x; cbn [rmatch matches].
  - destruct s as [|c' s]; [done|].
    destruct (Ascii.eqb_spec c c') as [<-|]; [|done].
    intros H. by exists s, g.
  - intros H. apply star_match_sound in H as (run & s' & -> & Hrun & Hk).
    exists s', g. split; [by exists run|done].
  - intros H. apply IH1 in H as (s1 & g1 & H1 & H).
    apply IH2 in H as (s2 & g2 & H2 & H). exists s2, g2.
    split; [by exists s1, g1|done].
  - destruct (rmatch r1 s g k) as [y|] eqn:H1.
    + intros [= <-]. apply IH1 in H1 as (s' & g' & H1 & Hk).
      exists s', g'. split; [by left|done].
    + intros H. apply IH2 in H as (s' & g' & H2 & Hk).
      exists s', g'. split; [by right|done].
  - destruct (rmatch r1 s g k) as [y|] eqn:H1.
    + intros [= <-]. apply IH1 in H1 as (s' & g' & H1 & Hk).
      exists s', g'. split; [by left|done].
    + intros H. exists s, g. split; [by right|done].
  - intros H. apply IH1 in H as (s' & g1 & H1 & Hk).
    exists s', ((i, consumed s s') :: g1). split; [by exists g1|done].
Qed.

(** A line that matches the include pattern opens with the word include;
    the symbol is a run of identifier characters and the path has no line
    break in it. *)
Lemma include_match_sound line name link :
  include_match line = Some (name, link) ->
  startswith line "include" = true /\
  all_chars is_ident name = true /\ all_chars is_dot link = true.
Proof.
  unfold include_match, re_match.
  destruct (rmatch include_regex line [] _) as [g|] eqn:H; [|done].
  apply rmatch_sound in H as (s' & g' & Hm & [= <-]).
  unfold include_regex, after_symbol, sp, quote in Hm.
  cbn [lits cats matches] in Hm.
  repeat match goal with
         | H : exists _, _ |- _ => destruct H
         | H : _ /\ _ |- _ => destruct H
         | H : _ \/ _ |- _ => destruct H
         end; subst.
  all: cbn [group Nat.eqb]; rewrite ?consumed_append.
  all: intros [= <- <-]; done.
Qed.

Lemma ident_not_space c : is_ident c = true -> is_space c = false.
Proof. destruct c as [[] [] [] [] [] [] [] []]; vm_compute; intros; done. Qed.

Lemma rmatch_lit c r s g k :
  rmatch (Cat (Lit c) r) (String c s) g k = rmatch r s g k.
Proof. cbn [rmatch]. by rewrite Ascii.eqb_refl. Qed.

Lemma rmatch_spaces_before c r s g k :
  is_space c = false ->
  rmatch (Cat sp r) (String " " (String c s)) g k
  = match rmatch r (String c s) g k with
    | Some x => Some x
    | None => rmatch r (String " " (String c s)) g k
    end.
Proof.
  intros Hc. unfold sp. cbn [rmatch star_match].
  change (is_space " ") with true. cbn iota. by rewrite Hc.
Qed.

Lemma rmatch_skip_as c r s g k :
  is_space c = false -> Ascii.eqb "a" c = false ->
  rmatch (Cat (Opt (cats [sp; Lit "a"] (Cat (Lit "s") sp))) r)
    (String " " (String c s)) g k
  = rmatch r (String " " (String c s)) g k.
Proof.
  intros Hc Ha. unfold sp. cbn [cats rmatch star_match].
  change (is_space " ") with true. cbn iota. rewrite Hc, Ha.
  change (Ascii.eqb "a" " ") with false. done.
Qed.

Lemma rmatch_skip_alias c r s g k :
  is_ident c = false ->
  rmatch (Cat (Opt (StarCls is_ident)) r) (String c s) g k
  = rmatch r (String c s) g k.
Proof.
  intros Hc. cbn [rmatch star_match]. rewrite Hc.
  by destruct (rmatch r (String c s) g k).
Qed.

Lemma rmatch_single_quote r s g k :
  rmatch (Cat quote r) (String squote s) g k
  = match rmatch r s g k with Some x => Some x | None => None end.
Proof. reflexivity. Qed.

(** The path and its closing quote. *)
Lemma rmatch_path link g :
  all_chars is_dot link = true ->
  rmatch (Cat (Grp 2 (StarCls is_dot)) quote) (link +:+ "'") g
    (fun _ g' => Some g')
  = Some ((2, link) :: g).
Proof.
  intros Hlink. cbn [rmatch].
  erewrite star_match_greedy; [|exact Hlink|reflexivity].
  by rewrite consumed_append.
Qed.

(** What follows the symbol on the canonical line. *)
Lemma after_symbol_canonical link g :
  all_chars is_dot link = true ->
  rmatch after_symbol (" } from '" +:+ link +:+ "'") g (fun _ g' => Some g')
  = Some ((2, link) :: g).
Proof.
  intros Hlink. unfold after_symbol. cbn [cats].
  rewrite !append_cons, !append_empty.
  rewrite rmatch_skip_as by reflexivity.
  rewrite rmatch_skip_alias by reflexivity.
  rewrite rmatch_spaces_before by reflexivity.
  rewrite !rmatch_lit.
  rewrite rmatch_spaces_before by reflexivity.
  rewrite !rmatch_lit.
  rewrite rmatch_spaces_before by reflexivity.
  rewrite rmatch_single_quote.
  by rewrite (rmatch_path link g Hlink).
Qed.

(** The canonical line binds the symbol to the path. *)
Lemma include_match_canonical c name link :
  all_chars is_ident (String c name) = true ->
  all_chars is_dot link = true ->
  include_match
    ("include { " +:+ String c name +:+ " } from '" +:+ link +:+ "'")
  = Some (String c name, link).
Proof.
  intros Hname Hlink.
  assert (Hc : is_space c = false).
  { apply ident_not_space. cbn in Hname. by apply andb_prop in Hname as [? _]. }
  unfold include_match, re_match, include_regex. cbn [lits cats].
  rewrite (append_cons c name), !append_cons, !append_empty.
  rewrite !rmatch_lit.
  rewrite rmatch_spaces_before by reflexivity.
  rewrite !rmatch_lit.
  rewrite rmatch_spaces_before by exact Hc.
  assert (Hcore :
    rmatch (Cat (Grp 1 (StarCls is_ident)) after_symbol)
      (String c (name +:+ " } from '" +:+ link +:+ "'")) []
      (fun _ g' => Some g')
    = Some [(2, link); (1, String c name)]).
  { rewrite <- append_cons. cbn [rmatch].
    erewrite star_match_greedy; [reflexivity|exact Hname|].
    rewrite !append_cons, !append_empty, star_match_stop by reflexivity.
    rewrite <- !append_cons. rewrite consumed_append.
    change (String " " (String "}" (String " " (String "f" (String "r"
              (String "o" (String "m" (String " " (String "'" ""))))))))
            +:+ link +:+ "'")
      with (" } from '" +:+ link +:+ "'").
    apply after_symbol_canonical, Hlink. }
  rewrite !append_cons, !append_empty in Hcore.
  by rewrite Hcore.
Qed.
End RegexFacts.

(* ===================================================================== *)
(** * The dependency extractor *)
(* ===================================================================== *)

Section ExtractorFacts.
Import PyStr Regex Extractor Observations.

Lemma line_deps_cases line :
  line_deps line =
    match include_match line with
    | Some (name, link) =>
        if startswith link "../../../"
        then ([join "/" (split "_" (lower name))], [])
        else if startswith link "../" then ([], [lower name])
        else ([], [])
    | None => ([], [])
    end.
Proof.
  unfold line_deps, scan_line.
  destruct (include_match line) as [[name link]|]; [|done].
  by destruct (startswith link "../../../"), (startswith link "../").
Qed.

Lemma scan_line_acc acc line :
  scan_line acc line
  = (acc.1 ++ (line_deps line).1, acc.2 ++ (line_deps line).2).
Proof.
  unfold line_deps, scan_line. destruct acc as [m s].
  destruct (include_match line) as [[name link]|]; cbn [fst snd].
  - destruct (startswith link "../../../"); cbn [fst snd].
    + by rewrite app_nil_r.
    + destruct (startswith link "../"); cbn [fst snd];
        by rewrite ?app_nil_r.
  - by rewrite !app_nil_r.
Qed.

Lemma fold_scan_line lines acc :
  fold_left scan_line lines acc
  = (acc.1 ++ concat (map (fun l => (line_deps l).1) lines),
     acc.2 ++ concat (map (fun l => (line_deps l).2) lines)).
Proof.
  revert acc. induction lines as [|l lines IH]; intros acc; cbn.
  - rewrite !app_nil_r. by destruct acc.
  - rewrite IH, scan_line_acc. cbn [fst snd]. by rewrite <- !app_assoc.
Qed.

Lemma scan_lines_concat lines :
  scan_lines lines =
    (concat (map (fun l => (line_deps l).1) lines),
     concat (map (fun l => (line_deps l).2) lines)).
Proof. unfold scan_lines. by rewrite fold_scan_line. Qed.

(** The lower-cased symbol of a matching line: one path segment, or
    nothing at all. *)
Lemma ident_lower_plain c :
  is_ident c = true ->
  Ascii.eqb slash (lower_char c) = false /\ Ascii.eqb (lower_char c) "." = false.
Proof.
  destruct c as [[] [] [] [] [] [] [] []]; vm_compute; intros; done.
Qed.

Lemma lower_ident_no_slash name :
  all_chars is_ident name = true -> has_char slash (lower name) = false.
Proof.
  induction name as [|c name IH]; [done|]. cbn [all_chars lower has_char].
  intros H. apply andb_prop in H as [Hc H].
  destruct (ident_lower_plain c Hc) as [-> _]. by apply IH.
Qed.

Lemma lower_ident_segment name :
  all_chars is_ident name = true ->
  lower name = "" \/ is_segment (lower name) = true.
Proof.
  intros H. destruct name as [|c name]; [by left|right].
  unfold is_segment. rewrite (lower_ident_no_slash _ H).
  cbn [all_chars] in H. apply andb_prop in H as [Hc _].
  destruct (ident_lower_plain c Hc) as [_ Hdot].
  cbn [lower]. 
  change (String.eqb (String (lower_char c) (lower name)) "")
    with false.
  change (String.eqb (String (lower_char c) (lower name)) ".")
    with (if Ascii.eqb (lower_char c) "." then String.eqb (lower name) "" else false).
  by rewrite Hdot.
Qed.

(** Every subworkflow the extractor reports is named by one path segment
    (or by the empty string, when the braces of the line are empty). *)
Lemma subworkflow_names_are_segments lines :
  Forall (fun s => s = "" \/ is_segment s = true) (scan_lines lines).2.
Proof.
  rewrite scan_lines_concat. cbn [snd].
  induction lines as [|l lines IH]; [constructor|]. cbn [map concat].
  apply Forall_app. split; [|exact IH].
  rewrite line_deps_cases. destruct (include_match l) as [[name link]|] eqn:Hm;
    [|constructor].
  apply include_match_sound in Hm as (_ & Hname & _).
  destruct (startswith link "../../../"); [constructor|].
  destruct (startswith link "../"); [|constructor].
  constructor; [|constructor]. by apply lower_ident_segment.
Qed.

Example spec_module_line :
  scan_lines ["include { FOO } from '../../../modules/nf-core/foo/main'"]
  = (["foo"], []).
Proof. vm_compute. reflexivity. Qed.

Example spec_subworkflow_line :
  scan_lines ["include { BAR } from '../bar/main'"] = ([], ["bar"]).
Proof. vm_compute. reflexivity. Qed.

Example deeper_path_is_a_module :
  scan_lines ["include { FOO_BAR } from '../../../../elsewhere/main'"]
  = (["foo/bar"], []).
Proof. vm_compute. reflexivity. Qed.

Example same_directory_is_ignored :
  scan_lines ["include { FOO } from './foo/main'"] = ([], []).
Proof. vm_compute. reflexivity. Qed.

Example module_with_alias :
  include_match
    "include { SAMTOOLS_SORT as SORT2 } from '../../../modules/nf-core/samtools/sort/main'"
  = Some ("SAMTOOLS_SORT", "../../../modules/nf-core/samtools/sort/main").
Proof. vm_compute. reflexivity. Qed.

(** The matcher backtracks into the first group as [re] does. *)
Example backtracking_into_group :
  include_match "include {FOOas BAR} from './x'" = Some ("FOO", "./x").
Proof. vm_compute. reflexivity. Qed.

Example not_an_include :
  include_match "workflow BAM_STATS_SAMTOOLS { }" = None.
Proof. vm_compute. reflexivity. Qed.

Example path_last_of_component_dir :
  path_last_part "/p/subworkflows/nf-core/bam_sort" = Some "bam_sort".
Proof. vm_compute. reflexivity. Qed.

Example path_last_of_nested_name :
  path_last_part (os_path_join "/p/subworkflows/nf-core" "group/inner")
  = Some "inner".
Proof. vm_compute. reflexivity. Qed.

End ExtractorFacts.

(* ===================================================================== *)
(** * How a call of [install] unfolds *)
(* ===================================================================== *)

Section Frame.
Import PyStr Extractor Store Installer Observations.
Variable E : env.
Variable self : installer.

Lemma quiet_app a b : quiet a -> quiet b -> quiet (a ++ b).
Proof. intros. by apply Forall_app. Qed.

Lemma module_events_quiet d mods : quiet (module_events self d mods).
Proof.
  unfold module_events. destruct (path_last_part d); [|constructor].
  induction mods; constructor; done.
Qed.

Ltac forall_events :=
  unfold quiet, calm, idle in *;
  repeat first
    [ assumption
    | apply Forall_nil_2
    | apply module_events_quiet
    | apply Forall_app; split
    | apply Forall_cons; split; [first [done | by destruct (force self)]|] ].

(** With [force] set the presence check lets every install go ahead. *)
Lemma check_forced ct c cv d p (dk : disk) :
  check_component_installed ct c cv d true p dk = true.
Proof.
  unfold check_component_installed. by rewrite andb_false_r.
Qed.

Lemma force_remove_spec sub cv d st track st1 :
  force_remove E self sub cv d st = (track, st1) ->
  self_installed_by st1 = self_installed_by st /\
  (exists evs, history st1 = history st ++ evs /\ quiet evs /\ calm evs
               /\ idle evs) /\
  track = (if force self
           then installed_by <$> modules_json st !! (component_type self, sub)
           else None) /\
  modules_json st1 = (if force self
                      then delete (component_type self, sub) (modules_json st)
                      else modules_json st).
Proof.
  unfold force_remove. destruct (force self) eqn:Hf; cbn [andb].
  - rewrite check_forced.
    unfold clear_component_dir, clean_modules_json, log.
    intros H. repeat case_match; simplify_eq; cbn.
    all: (split; [done|]); (split; [|done]).
    all: eexists; split; [rewrite <- ?app_assoc; cbn; reflexivity|].
    all: repeat split; repeat constructor.
  - intros [= <- <-]. repeat split; try done. exists []. rewrite app_nil_r.
    repeat split; constructor.
Qed.

Lemma print_include_statement_spec sub folder st :
  let st' := print_include_statement E sub folder st in
  self_installed_by st' = self_installed_by st /\
  fs st' = fs st /\ modules_json st' = modules_json st /\
  exists msg rest,
    history st' = history st ++ EvLog Info msg :: rest /\
    is_guidance (EvLog Info msg) = true /\
    calm (EvLog Info msg :: rest) /\ idle (EvLog Info msg :: rest).
Proof.
  unfold print_include_statement, log. cbn zeta.
  repeat case_match; cbn; repeat split; eauto.
  all: eexists _, _; (split; [rewrite <- ?app_assoc; cbn; reflexivity|]).
  all: split; [reflexivity|split; repeat constructor].
Qed.

Lemma install_component_files_spec name version folder st ok st1 :
  install_component_files E self name version folder st = (ok, st1) ->
  self_installed_by st1 = self_installed_by st /\
  modules_json st1 = modules_json st /\
  history st1 = history st ++ [EvInstallFiles name version ok] /\
  match repo_files E (repo self) name version with
  | Some f => ok = true /\ fs st1 = <[os_path_join folder name := f]> (fs st)
  | None => ok = false /\ fs st1 = fs st
  end.
Proof.
  unfold install_component_files.
  destruct (repo_files E (repo self) name version); intros [= <- <-]; cbn; done.
Qed.

(** The second loop leaves the installer alone and adds one event per
    module. *)
Lemma install_modules_spec d mods st st' :
  install_modules E self d mods st = Ret tt st' ->
  self_installed_by st' = self_installed_by st /\
  history st' = history st ++ module_events self d mods.
Proof.
  unfold module_events.
  revert st. induction mods as [|m mods IH]; intros st; cbn [install_modules].
  - intros [= <-]. split; [done|].
    destruct (path_last_part d); cbn; by rewrite app_nil_r.
  - destruct (path_last_part d) as [parent|] eqn:Hp; [|done].
    destruct (module_install E _ m (fs _) (modules_json _)) as [[ok dk] l] eqn:Hm.
    intros H. apply IH in H as (Hby & Hh). cbn in *.
    split; [done|]. by rewrite Hh, <- app_assoc.
Qed.

(** The first loop: every recursive call is silent and made in the name
    of the directory, and the field is put back after each of them. *)
Lemma install_subworkflows_spec rec d subs st st' :
  well_behaved rec ->
  install_subworkflows rec d subs st = Ret tt st' ->
  self_installed_by st' = self_installed_by st /\
  exists segs,
    history st' = history st ++ concat segs /\ quiet (concat segs) /\
    forall parent, path_last_part d = Some parent ->
      Forall2 (starts_silent parent) subs segs.
Proof.
  intros Hrec. revert st.
  induction subs as [|s subs IH]; intros st; cbn [install_subworkflows].
  - intros [= <-]. split; [done|]. exists []. cbn. rewrite app_nil_r.
    split; [done|]. split; [constructor|]. intros; constructor.
  - destruct (path_last_part d) as [parent|] eqn:Hp; [|done].
    destruct (rec s true _) as [r st1| |] eqn:Hr; [|done..].
    apply Hrec in Hr as (Hby1 & tl & Hh1 & Hq1). cbn in Hby1, Hh1.
    intros H. apply IH in H as (Hby & segs & Hh & Hq & Hseg). cbn in Hby, Hh.
    split; [done|]. exists ((EvInstall s true parent :: tl) :: segs).
    split; [cbn; by rewrite Hh, Hh1, <- app_assoc|].
    split.
    + cbn. constructor; [done|]. apply Forall_app. split; [by apply Hq1|done].
    + intros p [= <-]. constructor; [by exists tl|by apply Hseg].
Qed.

Lemma included_spec rec d st st' :
  well_behaved rec ->
  install_included_components_with E self rec d st = Ret tt st' ->
  self_installed_by st' = self_installed_by st /\
  exists lines cfg segs,
    fs st !! d = Some (Files (Some lines) cfg) /\
    history st' =
      history st ++ EvScan d :: concat segs
        ++ module_events self d (scan_lines lines).1 /\
    quiet (concat segs) /\
    forall parent, path_last_part d = Some parent ->
      Forall2 (starts_silent parent) (scan_lines lines).2 segs.
Proof.
  intros Hrec.
  unfold install_included_components_with, get_modules_subworkflows_to_install.
  cbn [fs emit].
  destruct (fs st !! d) as [[[lines|] cfg]|] eqn:Hfs; [|done..].
  destruct (scan_lines lines) as [mods subs] eqn:Hscan.
  destruct (install_subworkflows rec d subs _) as [[] st2| |] eqn:Hs; [|done..].
  apply (install_subworkflows_spec _ _ _ _ _ Hrec) in Hs
    as (Hby2 & segs & Hh2 & Hq2 & Hseg).
  intros Hm. apply install_modules_spec in Hm as (Hby & Hh).
  cbn in *. split; [congruence|]. exists lines, cfg, segs.
  split; [done|]. rewrite Hscan. cbn [fst snd]. split; [|done].
  by rewrite Hh, Hh2, <- !app_assoc.
Qed.

Lemma install_tail_spec rec req silent sub version folder track st r st' :
  well_behaved rec ->
  install_tail E self rec req silent sub version folder track st = Ret r st' ->
  r = true /\
  self_installed_by st' = self_installed_by st /\
  exists st2 post,
    install_included_components_with E self rec (os_path_join folder sub) st
      = Ret tt st2 /\
    history st' =
      history st2 ++ post
        ++ [EvUpdateSubworkflow sub version (self_installed_by st) track;
            EvReturn req true] /\
    calm post /\ idle post /\
    (if silent then post = []
     else exists msg rest, post = EvLog Info msg :: rest
                           /\ is_guidance (EvLog Info msg) = true) /\
    fs st' = fs st2 /\
    modules_json st' =
      update_entry (component_type self) sub version (self_installed_by st)
        track (modules_json st2).
Proof.
  intros Hrec. unfold install_tail.
  destruct (install_included_components_with _ _ _ _ _)
    as [[] st2| |] eqn:Hd; [|done..].
  pose proof (included_spec _ _ _ _ Hrec Hd) as (Hby2 & _).
  unfold finish. intros [= <- <-]. split; [done|].
  destruct silent; cbn [negb].
  - cbn. split; [done|]. exists st2, []. rewrite Hby2, <- app_assoc.
    repeat split; first [done | constructor].
  - pose proof (print_include_statement_spec sub folder st2)
      as (Hby3 & Hfs3 & Hl3 & msg & rest & Hh3 & Hg & Hnd & Hid).
    cbn in *. rewrite Hby3, Hby2, Hfs3, Hl3, Hh3. split; [done|].
    exists st2, (EvLog Info msg :: rest). rewrite <- !app_assoc. cbn.
    repeat split; eauto.
Qed.

(** From the resolution of the target version on. *)
Lemma install_fresh_spec rec req silent sub cv folder st r st' :
  well_behaved rec ->
  install_fresh E self rec req silent sub cv folder st = Ret r st' ->
  self_installed_by st' = self_installed_by st /\
  (exists tl, history st' = history st ++ EvResolveVersion sub :: tl
              /\ (silent = true -> quiet tl)
              /\ (r = false -> calm tl)) /\
  (r = true -> completed E self rec req silent sub cv folder st st').
Proof.
  intros Hrec. unfold install_fresh.
  destruct (truthy (get_version _ _ _ _ _ _ _)) as [version|] eqn:Hv.
  2:{ unfold finish. intros [= <- <-]. cbn. split; [done|]. split; [|done].
      eexists. rewrite <- app_assoc. split; [reflexivity|].
      split; intros _; forall_events. }
  destruct (force_remove _ _ _ _ _ _) as [track st0] eqn:Hfr.
  apply force_remove_spec in Hfr
    as (Hby0 & (ev0 & Hh0 & Hq0 & Hc0 & Hi0) & Htrack & Hl0).
  destruct (install_component_files _ _ _ _ _ _) as [ok st1] eqn:Hic.
  apply install_component_files_spec in Hic as (Hby1 & Hl1 & Hh1 & Hrf).
  cbn in Hby0, Hh0, Hl0, Htrack, Hby1, Hl1, Hh1.
  destruct ok; cbn [negb].
  2:{ unfold finish. intros [= <- <-]. cbn. split; [congruence|].
      split; [|done].
      eexists. rewrite Hh1, Hh0, <- !app_assoc. cbn. split; [reflexivity|].
      split; intros _; forall_events. }
  destruct (repo_files _ _ _ _) as [f|] eqn:Hf; [|by destruct Hrf].
  destruct Hrf as [_ Hfs1]. cbn in Hfs1.
  intros H. apply (install_tail_spec _ _ _ _ _ _ _ _ _ _ Hrec) in H
    as (-> & Hby & st2 & post & Hd & Hh & Hc & Hi & Hpost & Hfs & Hl).
  pose proof (included_spec _ _ _ _ Hrec Hd)
    as (Hby2 & lines & cfg & segs & _ & Hh2 & Hq2 & _).
  split; [congruence|]. split.
  - eexists. rewrite Hh, Hh2, Hh1, Hh0, <- !app_assoc. cbn.
    split; [reflexivity|]. split; [|done].
    intros ->. subst post. forall_events.
  - intros _. eexists version, f, (ev0 ++ [_; _]), st1, st2, post.
    cbn zeta. rewrite <- Htrack.
    split; [done|]. split; [done|].
    split; [rewrite Hh1, Hh0, <- !app_assoc; cbn; reflexivity|].
    split; [forall_events|]. split; [forall_events|].
    split; [forall_events|].
    split; [congruence|].
    split; [by rewrite Hfs1, lookup_insert_eq|].
    split; [congruence|].
    split; [done|].
    rewrite Hby1, Hby0 in Hh, Hl. done.
Qed.

Lemma history_presence_checked req silent sub proceed st :
  history (presence_checked E req silent sub proceed st) =
  history st ++
    [EvInstall req silent (self_installed_by st); EvCheckUpToDate; EvVerifySha;
     EvVerifyName req; EvCurrentVersion sub; EvPresenceCheck sub proceed].
Proof. unfold presence_checked. cbn. by rewrite <- !app_assoc. Qed.

(** A call that has passed its checks goes one of two ways. *)
Lemma install_body_verified rec req silent st d sub :
  verified E self req d sub ->
  install_body E self rec req silent st =
    if may_proceed E self d sub st
    then install_fresh E self rec req silent sub (recorded E sub st)
           (folder_of self d) (presence_checked E req silent sub true st)
    else already_installed self req sub (recorded E sub st)
           (presence_checked E req silent sub false st).
Proof.
  intros (Hd & Hex & Hsha & Hname).
  unfold install_body, has_valid_directory. rewrite Hd, Hex. cbn [negb].
  rewrite Hsha. cbn [negb]. rewrite Hname.
  unfold install_verified, may_proceed, recorded, healed, folder_of,
    presence_checked. cbn.
  by destruct (check_component_installed _ _ _ _ _ _ _).
Qed.

(** A call that fails one of its checks returns [False] at once. *)
Lemma install_body_cases rec req silent st :
  (exists st1,
     install_body E self rec req silent st = finish req false st1 /\
     self_installed_by st1 = self_installed_by st /\
     exists tl,
       history st1 =
         history st ++ EvInstall req silent (self_installed_by st) :: tl /\
       quiet tl /\ calm tl /\ Forall (fun e => is_resolve e = false) tl) \/
  (exists d sub, verified E self req d sub).
Proof.
  unfold install_body, has_valid_directory, verified.
  destruct (dir self) as [d|] eqn:Hd.
  2:{ left. eexists. cbn. split; [reflexivity|]. cbn. split; [done|].
      eexists. rewrite <- app_assoc. cbn. split; [reflexivity|].
      repeat split; forall_events. }
  destruct (os_path_exists E d) eqn:Hex; cbn [negb].
  2:{ left. eexists. split; [reflexivity|]. cbn. split; [done|].
      eexists. rewrite <- app_assoc. cbn. split; [reflexivity|].
      repeat split; forall_events. }
  destruct (verify_sha E (prompt self) (sha self)) eqn:Hsha; cbn [negb].
  2:{ left. eexists. split; [reflexivity|]. cbn. split; [done|].
      eexists. rewrite <- !app_assoc. cbn. split; [reflexivity|].
      repeat split; forall_events. }
  destruct (truthy _) as [sub|] eqn:Hname.
  2:{ left. eexists. split; [reflexivity|]. cbn. split; [done|].
      eexists. rewrite <- !app_assoc. cbn. split; [reflexivity|].
      repeat split; forall_events. }
  right. by exists d, sub.
Qed.

(** The already-installed path is one update and nothing else. *)
Lemma already_installed_spec req sub cv st :
  exists st',
    already_installed self req sub cv st = Ret false st' /\
    self_installed_by st' = self_installed_by st /\
    fs st' = fs st /\
    modules_json st' =
      update_entry (component_type self) sub (default "" cv)
        (self_installed_by st) None (modules_json st) /\
    exists msg,
      history st' =
        history st ++
          [EvLog Debug msg; EvUpdate sub cv (self_installed_by st);
           EvReturn req false].
Proof.
  eexists. split; [reflexivity|]. cbn. repeat split.
  eexists. by rewrite <- !app_assoc.
Qed.

Lemma install_body_spec rec req silent st r st' :
  well_behaved rec ->
  install_body E self rec req silent st = Ret r st' ->
  self_installed_by st' = self_installed_by st /\
  (exists tl,
     history st' =
       history st ++ EvInstall req silent (self_installed_by st) :: tl
     /\ (silent = true -> quiet tl)
     /\ (r = false -> calm tl)) /\
  (r = true ->
   exists d sub,
     verified E self req d sub /\ may_proceed E self d sub st = true /\
     completed E self rec req silent sub (recorded E sub st) (folder_of self d)
       (presence_checked E req silent sub true st) st').
Proof.
  intros Hrec H.
  destruct (install_body_cases rec req silent st)
    as [(st1 & Heq & Hby & tl & Hh & Hq & Hc & _)|(d & sub & Hver)].
  - rewrite Heq in H. unfold finish in H. injection H as <- <-. cbn.
    split; [done|]. split; [|done].
    eexists. rewrite Hh, <- app_assoc. cbn. split; [reflexivity|].
    split; intros _; forall_events.
  - rewrite (install_body_verified _ _ _ _ _ _ Hver) in H.
    destruct (may_proceed E self d sub st) eqn:Hp.
    + apply (install_fresh_spec _ _ _ _ _ _ _ _ _ Hrec) in H
        as (Hby & (tl & Hh & Hq & Hc) & Hdone).
      split; [done|]. split.
      * eexists. rewrite Hh, history_presence_checked, <- app_assoc. cbn.
        split; [reflexivity|].
        split; intros Hs; [specialize (Hq Hs)|specialize (Hc Hs)];
          forall_events.
      * intros ->. exists d, sub. auto.
    + destruct (already_installed_spec req sub (recorded E sub st)
                  (presence_checked E req silent sub false st))
        as (st1 & Heq & Hby & _ & _ & msg & Hh).
      rewrite Heq in H. injection H as <- <-. split; [done|]. split; [|done].
      eexists. rewrite Hh, history_presence_checked, <- app_assoc. cbn.
      split; [reflexivity|]. split; intros _; forall_events.
Qed.

(** Every call that returns has put [installed_by] back, has only added
    to the history, and has printed no include statement when silent. *)
Lemma install_well_behaved fuel : well_behaved (install E self fuel).
Proof.
  induction fuel as [|fuel IH]; intros req silent st r st' H; [done|].
  cbn [install] in H.
  apply (install_body_spec _ _ _ _ _ _ IH) in H as (Hby & (tl & Hh & Hq & _) & _).
  eauto.
Qed.

(** ** Calls that raise *)

Lemma install_modules_raise d mods st e st' :
  install_modules E self d mods st = Raise e st' ->
  exists tl, history st' = history st ++ tl.
Proof.
  revert st. induction mods as [|m mods IH]; intros st; cbn [install_modules];
    [done|].
  destruct (path_last_part d) as [parent|] eqn:Hp.
  - destruct (module_install E _ m (fs _) (modules_json _)) as [[ok dk] l].
    intros H. apply IH in H as (tl & Hh). cbn in Hh.
    eexists. by rewrite Hh, <- app_assoc.
  - intros [= <- <-]. exists []. by rewrite app_nil_r.
Qed.

Lemma install_subworkflows_raise rec d subs st e st' :
  well_behaved rec -> grows rec ->
  install_subworkflows rec d subs st = Raise e st' ->
  exists tl, history st' = history st ++ tl.
Proof.
  intros Hrec Hg. revert st.
  induction subs as [|s subs IH]; intros st; cbn [install_subworkflows];
    [done|].
  destruct (path_last_part d) as [parent|] eqn:Hp.
  2:{ intros [= <- <-]. exists []. by rewrite app_nil_r. }
  destruct (rec s true _) as [r st1|e1 st1|] eqn:Hr; [| |done].
  - apply Hrec in Hr as (_ & tl1 & Hh1 & _). cbn in Hh1.
    intros H. apply IH in H as (tl & Hh). cbn in Hh.
    eexists. by rewrite Hh, Hh1, <- app_assoc.
  - apply Hg in Hr as (tl1 & Hh1). cbn in Hh1.
    intros [= <- <-]. eexists. exact Hh1.
Qed.

Lemma included_raise rec d st e st' :
  well_behaved rec -> grows rec ->
  install_included_components_with E self rec d st = Raise e st' ->
  exists tl, history st' = history st ++ EvScan d :: tl.
Proof.
  intros Hrec Hg.
  unfold install_included_components_with, get_modules_subworkflows_to_install.
  cbn [fs emit].
  assert (Hopen : forall (x : result unit),
            x = Raise (FileNotFoundError (path_join_str d "main.nf"))
                  (emit (EvScan d) st) ->
            x = Raise e st' ->
            exists tl, history st' = history st ++ EvScan d :: tl).
  { intros x -> [= <- <-]. by exists []. }
  destruct (fs st !! d) as [[[lines|] cfg]|] eqn:Hfs;
    [|by apply Hopen..].
  destruct (scan_lines lines) as [mods subs].
  destruct (install_subworkflows rec d subs _) as [[] st2|e2 st2|] eqn:Hs;
    [| |done].
  - apply (install_subworkflows_spec _ _ _ _ _ Hrec) in Hs
      as (_ & segs & Hh2 & _).
    intros H. apply install_modules_raise in H as (tl & Hh).
    cbn in Hh2. eexists. by rewrite Hh, Hh2, <- !app_assoc.
  - apply (install_subworkflows_raise _ _ _ _ _ _ Hrec Hg) in Hs as (tl & Hh).
    intros [= <- <-]. cbn in Hh. eexists. by rewrite Hh, <- app_assoc.
Qed.

Lemma install_tail_extends rec req silent sub version folder track st st' :
  well_behaved rec -> grows rec ->
  ends_in (install_tail E self rec req silent sub version folder track st) st' ->
  exists tl, history st' = history st ++ tl.
Proof.
  intros Hrec Hg [[r H]|[e H]].
  - apply (install_tail_spec _ _ _ _ _ _ _ _ _ _ Hrec) in H
      as (_ & _ & st2 & post & Hd & Hh & _).
    apply (included_spec _ _ _ _ Hrec) in Hd
      as (_ & lines & cfg & segs & _ & Hh2 & _).
    eexists. by rewrite Hh, Hh2, <- !app_assoc.
  - unfold install_tail in H.
    destruct (install_included_components_with _ _ _ _ _)
      as [[] st2|e2 st2|] eqn:Hd; [done| |done].
    injection H as <- <-.
    apply (included_raise _ _ _ _ _ Hrec Hg) in Hd as (tl & Hh).
    by eexists.
Qed.

(** A call raises only from among its dependencies: after the presence
    check, the resolution and the download. *)
Lemma install_fresh_raise rec req silent sub cv folder st e st' :
  well_behaved rec -> grows rec ->
  install_fresh E self rec req silent sub cv folder st = Raise e st' ->
  exists version pre tl,
    history st' =
      history st ++ EvResolveVersion sub :: pre
        ++ EvInstallFiles sub version true
        :: EvScan (os_path_join folder sub) :: tl /\
    calm pre /\ idle pre.
Proof.
  intros Hrec Hg. unfold install_fresh.
  destruct (truthy (get_version _ _ _ _ _ _ _)) as [version|]; [|done].
  destruct (force_remove _ _ _ _ _ _) as [track st0] eqn:Hfr.
  apply force_remove_spec in Hfr as (_ & (ev0 & Hh0 & _ & Hc0 & Hi0) & _ & _).
  destruct (install_component_files _ _ _ _ _ _) as [ok st1] eqn:Hic.
  apply install_component_files_spec in Hic as (_ & _ & Hh1 & _).
  cbn in Hh0, Hh1.
  destruct ok; cbn [negb]; [|done].
  unfold install_tail.
  destruct (install_included_components_with _ _ _ _ _)
    as [[] st2|e2 st2|] eqn:Hd; [done| |done].
  apply (included_raise _ _ _ _ _ Hrec Hg) in Hd as (tl & Hh).
  intros [= <- <-]. eexists version, (ev0 ++ [_; _]), tl.
  split; [by rewrite Hh, Hh1, Hh0, <- !app_assoc|].
  split; forall_events.
Qed.

Lemma install_body_raise rec req silent st e st' :
  well_behaved rec -> grows rec ->
  install_body E self rec req silent st = Raise e st' ->
  exists d sub version pre tl,
    verified E self req d sub /\
    history st' =
      history (presence_checked E req silent sub true st)
        ++ EvResolveVersion sub :: pre
        ++ EvInstallFiles sub version true
        :: EvScan (os_path_join (folder_of self d) sub) :: tl /\
    calm pre /\ idle pre.
Proof.
  intros Hrec Hg H.
  destruct (install_body_cases rec req silent st)
    as [(st1 & Heq & _)|(d & sub & Hver)]; [by rewrite Heq in H|].
  rewrite (install_body_verified _ _ _ _ _ _ Hver) in H.
  destruct (may_proceed E self d sub st).
  - apply (install_fresh_raise _ _ _ _ _ _ _ _ _ Hrec Hg) in H
      as (version & pre & tl & Hh & Hc & Hi).
    by exists d, sub, version, pre, tl.
  - destruct (already_installed_spec req sub (recorded E sub st)
                (presence_checked E req silent sub false st))
      as (st1 & Heq & _).
    by rewrite Heq in H.
Qed.

Lemma install_grows fuel : grows (install E self fuel).
Proof.
  induction fuel as [|fuel IH]; intros req silent st e st' H; [done|].
  cbn [install] in H.
  apply (install_body_raise _ _ _ _ _ _ (install_well_behaved fuel) IH) in H
    as (d & sub & version & pre & tl & _ & Hh & _).
  eexists. by rewrite Hh, history_presence_checked, <- app_assoc.
Qed.

(** ** The recursion budget *)

Lemma install_subworkflows_mono rec rec' d subs st res :
  refines rec rec' ->
  install_subworkflows rec d subs st = res -> res <> OutOfFuel ->
  install_subworkflows rec' d subs st = res.
Proof.
  intros Href. revert st.
  induction subs as [|s subs IH]; intros st; cbn [install_subworkflows];
    [done|].
  destruct (path_last_part d) as [parent|]; [|done].
  destruct (rec s true _) as [r st1|e1 st1|] eqn:Hr.
  - rewrite (Href _ _ _ _ Hr) by done. apply IH.
  - rewrite (Href _ _ _ _ Hr) by done. done.
  - by intros <-.
Qed.

Lemma included_mono rec rec' d st res :
  refines rec rec' ->
  install_included_components_with E self rec d st = res ->
  res <> OutOfFuel ->
  install_included_components_with E self rec' d st = res.
Proof.
  intros Href. unfold install_included_components_with.
  destruct (get_modules_subworkflows_to_install _ _) as [[mods subs] st1| |];
    [|done..].
  destruct (install_subworkflows rec d subs st1) as [[] st2|e2 st2|] eqn:Hs.
  - by rewrite (install_subworkflows_mono _ _ _ _ _ _ Href Hs).
  - by rewrite (install_subworkflows_mono _ _ _ _ _ _ Href Hs).
  - by intros <-.
Qed.

Lemma install_tail_mono f f' req silent sub version folder track st res :
  refines f f' ->
  install_tail E self f req silent sub version folder track st = res ->
  res <> OutOfFuel ->
  install_tail E self f' req silent sub version folder track st = res.
Proof.
  intros Href. unfold install_tail.
  destruct (install_included_components_with E self f _ st)
    as [[] st2|e2 st2|] eqn:Hd.
  - by rewrite (included_mono _ _ _ _ _ Href Hd).
  - by rewrite (included_mono _ _ _ _ _ Href Hd).
  - by intros <-.
Qed.

Lemma install_fresh_mono f f' req silent sub cv folder st res :
  refines f f' ->
  install_fresh E self f req silent sub cv folder st = res ->
  res <> OutOfFuel ->
  install_fresh E self f' req silent sub cv folder st = res.
Proof.
  intros Href. unfold install_fresh.
  destruct (truthy _); [|done].
  destruct (force_remove _ _ _ _ _ _) as [track st0].
  destruct (install_component_files _ _ _ _ _ _) as [[] st1]; cbn [negb];
    [|done].
  by apply install_tail_mono.
Qed.

Lemma install_body_mono f f' :
  refines f f' ->
  refines (install_body E self f) (install_body E self f').
Proof.
  intros Href req silent st res.
  unfold install_body, install_verified.
  repeat case_match; try done.
  by apply install_fresh_mono.
Qed.

(** A result reached with some budget is reached with any larger one. *)
Lemma install_mono fuel : refines (install E self fuel) (install E self (S fuel)).
Proof.
  induction fuel as [|fuel IH]; [by intros req silent st res <-|].
  intros req silent st res. change (install E self (S (S fuel)))
    with (install_body E self (install E self (S fuel))).
  change (install E self (S fuel) req silent st)
    with (install_body E self (install E self fuel) req silent st).
  by apply install_body_mono.
Qed.

Lemma install_fuel_le fuel fuel' req silent st res :
  fuel <= fuel' ->
  install E self fuel req silent st = res -> res <> OutOfFuel ->
  install E self fuel' req silent st = res.
Proof.
  induction 1 as [|fuel' Hle IH]; [done|].
  intros H Hres. apply install_mono; [by apply IH|done].
Qed.

(** The presence check of a component that is installed. *)
Lemma may_proceed_installed d sub st e :
  force self = false ->
  healed E st !! ("subworkflows", sub) = Some e ->
  is_Some (fs st !! os_path_join (folder_of self d) sub) ->
  may_proceed E self d sub st = false /\
  recorded E sub st = Some (git_sha e).
Proof.
  intros Hf He [f Hfs].
  unfold may_proceed, recorded, check_component_installed,
    get_subworkflow_version.
  rewrite He, Hf, Hfs. done.
Qed.

Lemma verified_unique req d1 sub1 d2 sub2 :
  verified E self req d1 sub1 -> verified E self req d2 sub2 ->
  d1 = d2 /\ sub1 = sub2.
Proof.
  intros (Hd1 & _ & _ & Hn1) (Hd2 & _ & _ & Hn2). split; congruence.
Qed.

(** What a call that returned [True] went through. *)
Lemma install_true_inv fuel req silent st st' d sub :
  verified E self req d sub ->
  install E self fuel req silent st = Ret true st' ->
  exists fuel',
    fuel = S fuel' /\ may_proceed E self d sub st = true /\
    completed E self (install E self fuel') req silent sub (recorded E sub st)
      (folder_of self d) (presence_checked E req silent sub true st) st'.
Proof.
  intros Hver H. destruct fuel as [|fuel]; [done|]. exists fuel.
  split; [done|]. cbn [install] in H.
  apply (install_body_spec _ _ _ _ _ _ (install_well_behaved fuel))
    in H as (_ & _ & Hdone).
  destruct (Hdone eq_refl) as (d' & sub' & Hver' & Hp & Hc).
  destruct (verified_unique _ _ _ _ _ Hver Hver') as [-> ->]. done.
Qed.


End Frame.

(* ===================================================================== *)
(** * For whom a call records its update *)
(* ===================================================================== *)

Section Referrers.
Import PyStr Extractor Store Installer Observations.
Variable E : env.
Variable self : installer.

Lemma closes_for_app by_ req r pre tl :
  (r = false -> idle pre) ->
  closes_for by_ req r tl -> closes_for by_ req r (pre ++ tl).
Proof.
  intros Hpre (mid & e & -> & He & Ht & Hf).
  exists (pre ++ mid), e. rewrite <- app_assoc. split; [done|].
  split; [done|]. split; [done|].
  intros Hr. apply Forall_app. split; [by apply Hpre|by apply Hf].
Qed.

Lemma closes_for_false by_ req e :
  (forall x b, written e = Some (x, b) -> b = by_) ->
  closes_for by_ req false [e; EvReturn req false].
Proof.
  intros He. exists [], e. repeat split; [done..|]. intros _. constructor.
Qed.

Lemma install_fresh_records rec req silent sub cv folder st r st' :
  well_behaved rec ->
  install_fresh E self rec req silent sub cv folder st = Ret r st' ->
  exists tl,
    history st' = history st ++ tl /\
    closes_for (self_installed_by st) req r tl.
Proof.
  intros Hrec. unfold install_fresh.
  destruct (truthy (get_version _ _ _ _ _ _ _)) as [version|].
  2:{ unfold finish. intros [= <- <-]. cbn. rewrite <- app_assoc.
      eexists. split; [reflexivity|]. by apply closes_for_false. }
  destruct (force_remove _ _ _ _ _ _) as [track st0] eqn:Hfr.
  apply force_remove_spec in Hfr as (Hby0 & (ev0 & Hh0 & _ & _ & Hi0) & _).
  destruct (install_component_files _ _ _ _ _ _) as [ok st1] eqn:Hic.
  apply install_component_files_spec in Hic as (Hby1 & _ & Hh1 & _).
  cbn in Hby0, Hh0, Hby1, Hh1. destruct ok; cbn [negb].
  2:{ unfold finish. intros [= <- <-]. cbn.
      rewrite Hh1, Hh0, <- !app_assoc. cbn.
      eexists. split; [reflexivity|].
      apply (closes_for_app _ _ _ [_]); [intros _; by repeat constructor|].
      apply closes_for_app; [done|].
      apply (closes_for_app _ _ _ [_; _]); [intros _; by repeat constructor|].
      by apply closes_for_false. }
  intros H. apply (install_tail_spec _ _ _ _ _ _ _ _ _ _ _ _ Hrec) in H
    as (-> & _ & st2 & post & Hd & Hh & _).
  pose proof (included_spec _ _ _ _ _ _ Hrec Hd)
    as (_ & lines & cfg & segs & _ & Hh2 & _).
  rewrite Hh, Hh2, Hh1, Hh0, <- !app_assoc. cbn.
  rewrite <- ?app_assoc. cbn. rewrite <- ?app_assoc.
  eexists. split; [reflexivity|].
  exists (EvResolveVersion sub :: ev0
          ++ [EvLog Info
                ((if force self then "Rei" else "I") +:+ "nstalling '"
                 +:+ sub +:+ "'");
              EvLog Debug
                ("Installing subworkflow '" +:+ sub +:+ "' at hash "
                 +:+ version +:+ " from " +:+ remote_url (repo self));
              EvInstallFiles sub version true;
              EvScan (os_path_join folder sub)]
          ++ concat segs
          ++ module_events self (os_path_join folder sub) (scan_lines lines).1
          ++ post),
    (EvUpdateSubworkflow sub version (self_installed_by st1) track).
  split; [cbn; rewrite <- ?app_assoc; cbn; by rewrite <- ?app_assoc|].
  rewrite Hby1, Hby0. cbn.
  split; [by intros x b [= _ <-]|]. split; [by eexists|done].
Qed.

Lemma install_body_records rec :
  well_behaved rec -> records_caller (install_body E self rec).
Proof.
  intros Hrec req silent st r st'.
  unfold install_body, has_valid_directory.
  destruct (dir self) as [d|] eqn:Hd.
  2:{ unfold finish. intros [= <- <-]. cbn. rewrite <- !app_assoc. cbn.
      eexists. split; [reflexivity|]. by apply closes_for_false. }
  destruct (os_path_exists E d); cbn [negb].
  2:{ unfold finish. intros [= <- <-]. cbn. rewrite <- !app_assoc. cbn.
      eexists. split; [reflexivity|]. by apply closes_for_false. }
  destruct (verify_sha _ _ _); cbn [negb].
  2:{ unfold finish. intros [= <- <-]. cbn. rewrite <- !app_assoc. cbn.
      eexists. split; [reflexivity|].
      apply (closes_for_app _ _ _ [_]); [intros _; by repeat constructor|].
      by apply closes_for_false. }
  destruct (truthy (collect_and_verify_name _ _ _ _)) as [sub|].
  2:{ unfold finish. intros [= <- <-]. cbn. rewrite <- !app_assoc. cbn.
      eexists. split; [reflexivity|].
      apply (closes_for_app _ _ _ [_; _]); [intros _; by repeat constructor|].
      by apply closes_for_false. }
  unfold install_verified. cbv zeta.
  destruct (check_component_installed _ _ _ _ _ _ _); cbn [negb].
  2:{ unfold already_installed, finish, log. intros [= <- <-].
      cbn. rewrite <- !app_assoc. cbn.
      eexists. split; [reflexivity|].
      apply (closes_for_app _ _ _ [_; _; _; _; _; _]);
        [intros _; by repeat constructor|].
      apply closes_for_false. by intros x b [= _ <-]. }
  intros H. apply (install_fresh_records _ _ _ _ _ _ _ _ _ Hrec) in H
    as (tl & Hh & Hc). cbn in Hh, Hc.
  rewrite Hh, <- !app_assoc. cbn.
  eexists. split; [reflexivity|].
  apply (closes_for_app _ _ _ [_; _; _; _; _]); [intros _; by repeat constructor|].
  done.
Qed.

Lemma install_records fuel : records_caller (install E self fuel).
Proof.
  destruct fuel as [|fuel]; [done|]. cbn [install].
  apply install_body_records, install_well_behaved.
Qed.

(** The first loop: each nested call is made for the last part of the
    directory, and records it. *)
Lemma install_subworkflows_records rec d subs st st' :
  records_caller rec ->
  install_subworkflows rec d subs st = Ret tt st' ->
  exists segs,
    history st' = history st ++ concat segs /\
    forall parent, path_last_part d = Some parent ->
      Forall2 (nested_for parent) subs segs.
Proof.
  intros Hrec. revert st.
  induction subs as [|s subs IH]; intros st; cbn [install_subworkflows].
  - intros [= <-]. exists []. cbn. rewrite app_nil_r. split; [done|].
    intros; constructor.
  - destruct (path_last_part d) as [parent|] eqn:Hp; [|done].
    destruct (rec s true _) as [r st1| |] eqn:Hr; [|done..].
    apply Hrec in Hr as (tl & Hh1 & Hc). cbn in Hh1, Hc.
    intros H. apply IH in H as (segs & Hh & Hsegs). cbn in Hh.
    exists ((EvInstall s true parent :: tl) :: segs).
    split; [cbn; by rewrite Hh, Hh1, <- !app_assoc|].
    intros p [= <-]. constructor; [by exists r, tl|by apply Hsegs].
Qed.

Lemma included_records rec d st st' :
  records_caller rec ->
  install_included_components_with E self rec d st = Ret tt st' ->
  exists lines cfg segs,
    fs st !! d = Some (Files (Some lines) cfg) /\
    history st' =
      history st ++ EvScan d :: concat segs
        ++ module_events self d (scan_lines lines).1 /\
    forall parent, path_last_part d = Some parent ->
      Forall2 (nested_for parent) (scan_lines lines).2 segs.
Proof.
  intros Hrec.
  unfold install_included_components_with, get_modules_subworkflows_to_install.
  cbn [fs emit].
  destruct (fs st !! d) as [[[lines|] cfg]|] eqn:Hfs; [|done..].
  destruct (scan_lines lines) as [mods subs] eqn:Hscan.
  destruct (install_subworkflows rec d subs _) as [[] st2| |] eqn:Hs; [|done..].
  apply (install_subworkflows_records _ _ _ _ _ Hrec) in Hs
    as (segs & Hh2 & Hseg).
  intros Hm. apply install_modules_spec in Hm as (_ & Hh).
  cbn in *. exists lines, cfg, segs. split; [done|]. rewrite Hscan.
  cbn [fst snd]. split; [|done]. by rewrite Hh, Hh2, <- !app_assoc.
Qed.

End Referrers.

(* ===================================================================== *)
(** * The properties of the installer *)
(* ===================================================================== *)

Import PyStr Extractor Store Installer Observations Scenario.
Import Shapes Outcomes Fixtures.


(** ** The already-installed path *)

(** C1, as amended: when the files of the component exist on disk at a
    recorded version and [force] is false, [install] downloads nothing
    (the disk is as before and the history has no download in it), adds
    the caller's [installed_by] to the referrer set of the entry in
    [modules.json], keeps the recorded version, and returns [False]: the
    value of a failed request, not a third outcome. *)
Theorem already_installed_adds_referrer E self fuel req silent st d sub e :
  constructed self ->
  verified E self req d sub ->
  force self = false ->
  healed E st !! ("subworkflows", sub) = Some e ->
  is_Some (fs st !! os_path_join (folder_of self d) sub) ->
  exists st' msg,
    install E self (S fuel) req silent st = Ret false st' /\
    fs st' = fs st /\
    history st' =
      history st ++
        [EvInstall req silent (self_installed_by st); EvCheckUpToDate;
         EvVerifySha; EvVerifyName req; EvCurrentVersion sub;
         EvPresenceCheck sub false; EvLog Debug msg;
         EvUpdate sub (Some (git_sha e)) (self_installed_by st);
         EvReturn req false] /\
    modules_json st' =
      <[("subworkflows", sub) :=
          Entry (git_sha e) (installed_by e ∪ {[self_installed_by st]})]>
        (healed E st) /\
    self_installed_by st' = self_installed_by st.
Proof.
  intros Hct Hver Hf He Hfs.
  destruct (may_proceed_installed E self d sub st e Hf He Hfs) as [Hp Hrec].
  cbn [install]. rewrite (install_body_verified E self _ _ _ _ _ _ Hver), Hp.
  destruct (already_installed_spec self req sub (recorded E sub st)
              (presence_checked E req silent sub false st))
    as (st' & Heq & Hby & Hfs' & Hl & msg & Hh).
  exists st', msg. split; [done|].
  rewrite Hfs', Hl, Hh, Hby, history_presence_checked, Hrec, <- app_assoc.
  cbn. repeat split.
  unfold update_entry, referrers. rewrite Hct, He. cbn.
  by rewrite union_empty_r_L.
Qed.

(** Witness of C1: the component of the scenario, installed for A and B,
    is asked for again by A. *)
Lemma already_installed_adds_referrer_witness :
  exists st' msg,
    install healthy plain 1 "bam_sort_stats_samtools" false sort_installed
      = Ret false st' /\
    fs st' = fs sort_installed /\
    history st' =
      history sort_installed ++
        [EvInstall "bam_sort_stats_samtools" false "A"; EvCheckUpToDate;
         EvVerifySha; EvVerifyName "bam_sort_stats_samtools";
         EvCurrentVersion "bam_sort_stats_samtools";
         EvPresenceCheck "bam_sort_stats_samtools" false; EvLog Debug msg;
         EvUpdate "bam_sort_stats_samtools" (Some "v1") "A";
         EvReturn "bam_sort_stats_samtools" false] /\
    modules_json st' =
      <[("subworkflows", "bam_sort_stats_samtools") :=
          Entry "v1" ({[ "A"; "B" ]} ∪ {[ "A" ]})]>
        (healed healthy sort_installed) /\
    self_installed_by st' = "A".
Proof.
  refine (already_installed_adds_referrer healthy plain 0
            "bam_sort_stats_samtools" false sort_installed "/pipe"
            "bam_sort_stats_samtools" (Entry "v1" {[ "A"; "B" ]}) _ _ _ _ _).
  - reflexivity.
  - repeat split; reflexivity.
  - reflexivity.
  - vm_compute. reflexivity.
  - eexists. vm_compute. reflexivity.
Defined.

(** Counterexample to C1 as stated: the already-installed request and a
    request for a name the registry does not know return the same value,
    so the outcome of the first is not distinct from a failure. *)
Lemma already_installed_returns_failure_value :
  exists st1 st2,
    install healthy plain 1 "bam_sort_stats_samtools" false sort_installed
      = Ret false st1 /\
    EvUpdate "bam_sort_stats_samtools" (Some "v1") "A" ∈ history st1 /\
    known_name "subworkflows" "ghost" nf_core = None /\
    install healthy plain 1 "ghost" false sort_installed = Ret false st2.
Proof.
  eexists _, _. split; [vm_compute; reflexivity|]. split.
  { vm_compute.
    repeat first [apply list_elem_of_here | apply list_elem_of_further]. }
  split; [reflexivity|]. vm_compute. reflexivity.
Qed.

(** The referrers add up: installed for A, asked for again by B. *)
Example referrers_accumulate :
  let first :=
    final empty_pipeline
      (install healthy plain 2 "bam_sort_stats_samtools" false
         (start "A" ∅ ∅)) in
  let second :=
    install healthy plain 2 "bam_sort_stats_samtools" false
      (set_installed_by "B" first) in
  (exists st', second = Ret false st' /\ fs st' = fs first) /\
  elements
    (referrers "subworkflows" "bam_sort_stats_samtools"
       (modules_json (final first second)))
  = ["A"; "B"].
Proof. split; [eexists; split|]; vm_compute; reflexivity. Qed.

(** ** Reinstalling under [force] *)




Example force_reinstall_spec_example :
  (fun e => (git_sha e, elements (installed_by e))) <$>
    modules_json
      (final sort_installed
         (install healthy forced 2 "bam_sort_stats_samtools" false
            sort_installed))
      !! ("subworkflows", "bam_sort_stats_samtools")
  = Some ("v2", ["A"; "B"]).
Proof. vm_compute. reflexivity. Qed.

(** ** A failed download *)

(** C3, as amended: when the download of the files fails, [install]
    returns [False]; without [force] the lockfile is the checked
    [modules.json] untouched, and under [force] it is that lockfile less
    the entry of the component, which was removed before the download and
    is not put back. *)
Theorem failed_download_lockfile E self fuel req silent st d sub version :
  verified E self req d sub ->
  may_proceed E self d sub st = true ->
  target E self sub st = Some version ->
  repo_files E (repo self) sub version = None ->
  exists st',
    install E self (S fuel) req silent st = Ret false st' /\
    modules_json st' =
      (if force self
       then delete (component_type self, sub) (healed E st)
       else healed E st) /\
    EvInstallFiles sub version false ∈ history st'.
Proof.
  intros Hver Hp Ht Hrf. unfold target in Ht.
  cbn [install]. rewrite (install_body_verified E self _ _ _ _ _ _ Hver), Hp.
  unfold install_fresh. rewrite Ht.
  destruct (force_remove _ _ _ _ _ _) as [track st0] eqn:Hfr.
  apply force_remove_spec in Hfr as (_ & _ & _ & Hl0).
  unfold install_component_files. rewrite Hrf. cbn [negb].
  eexists. split; [reflexivity|]. cbn. split; [done|].
  rewrite !elem_of_app. left. right. apply list_elem_of_here.
Qed.

(** Witness of C3: the revision [unreachable] is asked for and nothing is
    installed yet, so nothing is removed either. *)
Lemma failed_download_lockfile_witness :
  exists st',
    install healthy (installer_of false (Some "unreachable") None).1 1
      "bam_stats_samtools" false sort_installed = Ret false st' /\
    modules_json st' = healed healthy sort_installed /\
    EvInstallFiles "bam_stats_samtools" "unreachable" false ∈ history st'.
Proof.
  refine (failed_download_lockfile healthy
            (installer_of false (Some "unreachable") None).1 0
            "bam_stats_samtools" false sort_installed "/pipe"
            "bam_stats_samtools" "unreachable" _ _ _ _).
  - repeat split; reflexivity.
  - vm_compute. reflexivity.
  - reflexivity.
  - reflexivity.
Defined.

(** Counterexample to C3 as stated: under [force] the entry of the
    installed component is gone after the failed request. *)
Lemma failed_forced_download_loses_entry :
  exists st',
    install healthy forced_unreachable 1 "bam_sort_stats_samtools" false
      sort_installed = Ret false st' /\
    registry nf_core "bam_sort_stats_samtools" "unreachable" = None /\
    healed healthy sort_installed
      !! ("subworkflows", "bam_sort_stats_samtools")
      = Some (Entry "v1" {[ "A"; "B" ]}) /\
    modules_json st' !! ("subworkflows", "bam_sort_stats_samtools") = None.
Proof.
  eexists. split; [vm_compute; reflexivity|].
  split; [reflexivity|]. split; vm_compute; reflexivity.
Qed.

(** ** A removal that fails *)

(** A removal that fails changes nothing in what [install] does next:
    the entry is taken out of [modules.json] and the download is
    attempted. *)
Lemma failed_removal_goes_on E self fuel req silent st st' d sub version msg :
  verified E self req d sub ->
  force self = true ->
  target E self sub st = Some version ->
  is_Some (fs st !! os_path_join (folder_of self d) sub) ->
  rmtree_error E (os_path_join (folder_of self d) sub) = Some msg ->
  ends_in (install E self (S fuel) req silent st) st' ->
  exists m1 m2 m3 ok tl,
    history st' =
      history st ++
        [EvInstall req silent (self_installed_by st); EvCheckUpToDate;
         EvVerifySha; EvVerifyName req; EvCurrentVersion sub;
         EvPresenceCheck sub true; EvResolveVersion sub;
         EvLog Info m1;
         EvClearDir (os_path_join (folder_of self d) sub) false;
         EvLog Error ("Could not remove subworkflow: " +:+ msg);
         EvCleanJson sub;
         EvLog Info m2; EvLog Debug m3;
         EvInstallFiles sub version ok] ++ tl.
Proof.
  intros Hver Hf Ht [f Hfs] Hrm Hends. cbn [install] in Hends.
  rewrite (install_body_verified E self _ _ _ _ _ _ Hver) in Hends.
  assert (Hp : may_proceed E self d sub st = true).
  { unfold may_proceed. rewrite Hf. apply check_forced. }
  rewrite Hp in Hends. unfold install_fresh, target in *. rewrite Ht in Hends.
  unfold force_remove in Hends. rewrite Hf, check_forced in Hends.
  cbn [andb] in Hends.
  unfold clear_component_dir, log, presence_checked in Hends.
  cbn [fs emit set_modules_json] in Hends.
  rewrite Hfs, Hrm in Hends. cbn zeta iota in Hends.
  unfold clean_modules_json, install_component_files in Hends.
  cbn beta iota zeta in Hends.
  destruct (repo_files E (repo self) sub version) as [f'|]; cbn [negb] in Hends.
  - apply (install_tail_extends E self _ _ _ _ _ _ _ _ _
             (install_well_behaved E self fuel) (install_grows E self fuel))
      in Hends as (tl & Hh).
    cbn in Hh. rewrite Hh. eexists _, _, _, true, tl.
    by rewrite <- !app_assoc.
  - destruct Hends as [[r H]|[e H]]; [|done].
    injection H as <- <-. cbn. eexists _, _, _, false, _.
    rewrite <- !app_assoc. cbn. reflexivity.
Qed.

(** C4, the code at the failing input: the files of the installed
    component cannot be removed, and [install] goes on all the same. The
    entry is taken out of [modules.json], the files are downloaded, the
    entry is written at the new version, and the call returns [True]. *)
Lemma removal_failure_is_ignored :
  exists st',
    install read_only forced 2 "bam_sort_stats_samtools" false sort_installed
      = Ret true st' /\
    rmtree_error read_only sort_dir = Some "[Errno 13] Permission denied" /\
    history st' =
      [EvInstall "bam_sort_stats_samtools" false "A"; EvCheckUpToDate;
       EvVerifySha; EvVerifyName "bam_sort_stats_samtools";
       EvCurrentVersion "bam_sort_stats_samtools";
       EvPresenceCheck "bam_sort_stats_samtools" true;
       EvResolveVersion "bam_sort_stats_samtools";
       EvLog Info "Removing installed version of 'nf-core/bam_sort_stats_samtools'";
       EvClearDir sort_dir false;
       EvLog Error "Could not remove subworkflow: [Errno 13] Permission denied";
       EvCleanJson "bam_sort_stats_samtools";
       EvLog Info "Reinstalling 'bam_sort_stats_samtools'";
       EvLog Debug "Installing subworkflow 'bam_sort_stats_samtools' at hash v2 from https://github.com/nf-core/modules.git";
       EvInstallFiles "bam_sort_stats_samtools" "v2" true;
       EvScan sort_dir;
       EvLog Info "Include statement: include { BAM_SORT_STATS_SAMTOOLS } from './pipe/subworkflows/nf-core/bam_sort_stats_samtools/main'";
       EvUpdateSubworkflow "bam_sort_stats_samtools" "v2" "A"
         (Some {[ "A"; "B" ]});
       EvReturn "bam_sort_stats_samtools" true] /\
    modules_json sort_installed !! ("subworkflows", "bam_sort_stats_samtools")
      = Some (Entry "v1" {[ "A"; "B" ]}) /\
    modules_json st' !! ("subworkflows", "bam_sort_stats_samtools")
      = Some (Entry "v2" {[ "A"; "B" ]}).
Proof.
  eexists. split; [vm_compute; reflexivity|].
  split; [reflexivity|]. split; [vm_compute; reflexivity|].
  split; vm_compute; reflexivity.
Qed.

(** ** The order of the steps *)

(** C6, as amended: a call that ends, by returning or by raising, either
    resolved a target version, and then the recorded version was looked
    up, the presence check was made and let the install go ahead, and the
    resolution came right after it; or it returned [False] without
    resolving any target version, which is what the already-installed
    path does. *)
Theorem presence_check_precedes_resolution E self fuel req silent st st' :
  ends_in (install E self fuel req silent st) st' ->
  (exists sub tl,
     history st' =
       history st ++
         [EvInstall req silent (self_installed_by st); EvCheckUpToDate;
          EvVerifySha; EvVerifyName req; EvCurrentVersion sub;
          EvPresenceCheck sub true; EvResolveVersion sub] ++ tl) \/
  (install E self fuel req silent st = Ret false st' /\
   exists tl,
     history st' = history st ++ tl /\
     Forall (fun e => is_resolve e = false) tl).
Proof.
  intros H. destruct fuel as [|fuel]; [by destruct H as [[? ?]|[? ?]]|].
  cbn [install] in *. destruct H as [[r H]|[e H]].
  2:{ apply (install_body_raise E self _ _ _ _ _ _
               (install_well_behaved E self fuel) (install_grows E self fuel))
        in H as (d & sub & version & pre & tl & _ & Hh & _).
      left. eexists sub, _.
      by rewrite Hh, history_presence_checked, <- app_assoc. }
  destruct (install_body_cases E self (install E self fuel) req silent st)
    as [(st1 & Heq & _ & tl & Hh & _ & _ & Hnr)|(d & sub & Hver)].
  - rewrite Heq in H |- *. injection H as <- <-. right. split; [done|].
    eexists. cbn. rewrite Hh, <- app_assoc. split; [reflexivity|].
    cbn. constructor; [done|]. apply Forall_app. split; [done|].
    by repeat constructor.
  - rewrite (install_body_verified E self _ _ _ _ _ _ Hver) in H |- *.
    destruct (may_proceed E self d sub st) eqn:Hp.
    + apply (install_fresh_spec E self _ _ _ _ _ _ _ _ _
               (install_well_behaved E self fuel)) in H
        as (_ & (tl & Hh & _) & _).
      left. exists sub, tl.
      by rewrite Hh, history_presence_checked, <- app_assoc.
    + destruct (already_installed_spec self req sub (recorded E sub st)
                  (presence_checked E req silent sub false st))
        as (st1 & Heq & _ & _ & _ & msg & Hh).
      rewrite Heq in H |- *. injection H as <- <-. right. split; [done|].
      eexists. rewrite Hh, history_presence_checked, <- app_assoc.
      split; [reflexivity|]. by repeat constructor.
Qed.

(** Witness of C6: a first install of the component of the scenario. *)
Lemma presence_check_precedes_resolution_witness :
  ends_in
    (install healthy plain 2 "bam_sort_stats_samtools" false empty_pipeline)
    (final empty_pipeline
       (install healthy plain 2 "bam_sort_stats_samtools" false
          empty_pipeline)) /\
  exists sub tl,
    history
      (final empty_pipeline
         (install healthy plain 2 "bam_sort_stats_samtools" false
            empty_pipeline)) =
      history empty_pipeline ++
        [EvInstall "bam_sort_stats_samtools" false "subworkflows";
         EvCheckUpToDate; EvVerifySha;
         EvVerifyName "bam_sort_stats_samtools"; EvCurrentVersion sub;
         EvPresenceCheck sub true; EvResolveVersion sub] ++ tl.
Proof.
  assert (Hends :
    ends_in
      (install healthy plain 2 "bam_sort_stats_samtools" false empty_pipeline)
      (final empty_pipeline
         (install healthy plain 2 "bam_sort_stats_samtools" false
            empty_pipeline))).
  { left. exists true. vm_compute. reflexivity. }
  split; [exact Hends|].
  destruct (presence_check_precedes_resolution healthy plain 2
              "bam_sort_stats_samtools" false empty_pipeline _ Hends)
    as [H|[H _]]; [exact H|].
  exfalso. revert H. vm_compute. discriminate.
Defined.

(** A call that raises has made its presence check and its resolution
    in the same order. *)
Example raising_call_keeps_the_order :
  exists st' tl,
    install healthy plain 2 "no_main" false empty_pipeline
    = Raise (FileNotFoundError "/pipe/subworkflows/nf-core/no_main/main.nf")
        st' /\
    history st' =
      [EvInstall "no_main" false "subworkflows"; EvCheckUpToDate;
       EvVerifySha; EvVerifyName "no_main"; EvCurrentVersion "no_main";
       EvPresenceCheck "no_main" true; EvResolveVersion "no_main"] ++ tl.
Proof. eexists _, _. split; vm_compute; reflexivity. Qed.

(** Counterexample to C6 as stated: the presence check of the first
    request decides for the already-installed path and no target version
    is resolved at all; in the second request, which does install, the
    resolution is the event after the presence check. *)
Lemma presence_check_comes_first :
  exists st1 st2 tl,
    install healthy plain 1 "bam_sort_stats_samtools" false sort_installed
    = Ret false st1 /\
    EvPresenceCheck "bam_sort_stats_samtools" false ∈ history st1 /\
    Forall (fun e => is_resolve e = false) (history st1) /\
    install healthy plain 2 "bam_sort_stats_samtools" false empty_pipeline
    = Ret true st2 /\
    history st2 =
      [EvInstall "bam_sort_stats_samtools" false "subworkflows";
       EvCheckUpToDate; EvVerifySha; EvVerifyName "bam_sort_stats_samtools";
       EvCurrentVersion "bam_sort_stats_samtools";
       EvPresenceCheck "bam_sort_stats_samtools" true;
       EvResolveVersion "bam_sort_stats_samtools"] ++ tl.
Proof.
  eexists _, _, _. split; [vm_compute; reflexivity|]. split.
  { vm_compute.
    repeat first [apply list_elem_of_here | apply list_elem_of_further]. }
  split; [vm_compute; repeat constructor|].
  split; vm_compute; reflexivity.
Qed.

(** ** The dependencies *)

(** C7: in a call that ends, nothing is done for a dependency before the
    files of the component are on disk, and the entry of the component is
    written once the whole of [install_included_components] has returned.
    A call that returns [False] starts no dependency at all, and a call
    that raises does so among its dependencies, after the download and
    without having written its entry before. *)
Theorem dependencies_between_download_and_update
    E self fuel req silent st st' :
  ends_in (install E self fuel req silent st) st' ->
  (install E self fuel req silent st = Ret false st' /\
   exists tl,
     history st' =
       history st ++ EvInstall req silent (self_installed_by st) :: tl /\
     calm tl) \/
  (install E self fuel req silent st = Ret true st' /\
   exists fuel' sub version d f pre st1 st2 deps post track,
     fuel = S fuel' /\
     repo_files E (repo self) sub version = Some f /\
     history st1 =
       history st ++ EvInstall req silent (self_installed_by st) :: pre
         ++ [EvInstallFiles sub version true] /\
     calm pre /\ idle pre /\
     fs st1 !! d = Some f /\
     install_included_components E self fuel' d st1 = Ret tt st2 /\
     history st2 = history st1 ++ EvScan d :: deps /\
     history st' =
       history st2 ++ post
         ++ [EvUpdateSubworkflow sub version (self_installed_by st) track;
             EvReturn req true] /\
     calm post /\ idle post /\
     modules_json st' =
       update_entry (component_type self) sub version (self_installed_by st)
         track (modules_json st2)) \/
  ((exists e, install E self fuel req silent st = Raise e st') /\
   exists sub version d pre tl,
     history st' =
       history st ++ EvInstall req silent (self_installed_by st) :: pre
         ++ EvInstallFiles sub version true :: EvScan d :: tl /\
     calm pre /\ idle pre).
Proof.
  intros H. destruct fuel as [|fuel]; [by destruct H as [[? ?]|[? ?]]|].
  destruct H as [[r H]|[e H]].
  2:{ right. right. split; [by exists e|]. cbn [install] in H.
      apply (install_body_raise E self _ _ _ _ _ _
               (install_well_behaved E self fuel) (install_grows E self fuel))
        in H as (d & sub & version & pre & tl & _ & Hh & Hc & Hi).
      eexists sub, version, _,
        (EvCheckUpToDate :: EvVerifySha :: EvVerifyName req
         :: EvCurrentVersion sub :: EvPresenceCheck sub true
         :: EvResolveVersion sub :: pre), tl.
      split; [by rewrite Hh, history_presence_checked, <- app_assoc|].
      split.
      - unfold calm in *. by repeat (apply Forall_cons; split; [done|]).
      - unfold idle in *. by repeat (apply Forall_cons; split; [done|]). }
  pose proof H as Hrun. cbn [install] in H.
  apply (install_body_spec E self _ _ _ _ _ _ (install_well_behaved E self fuel))
    in H as (_ & (tl & Hh & _ & Hcalm) & Hdone).
  destruct r; [right; left|left; split; [done|]; exists tl; auto].
  split; [done|].
  destruct (Hdone eq_refl) as (d & sub & Hver & Hp & Hc).
  destruct Hc as (version & f & pre & st1 & st2 & post & Hv & Hrf & Hh1 & Hq
                  & Hc1 & Hi1 & Hby1 & Hfs1 & Hl1 & Hd & Hh' & Hc2 & Hi2 & _
                  & _ & Hl).
  pose proof (included_spec E self _ _ _ _ (install_well_behaved E self fuel) Hd)
    as (_ & lines & cfg & segs & _ & Hh2 & _).
  cbn in Hh', Hl.
  eexists fuel, sub, version, _, f,
    (EvCheckUpToDate :: EvVerifySha :: EvVerifyName req
     :: EvCurrentVersion sub :: EvPresenceCheck sub true
     :: EvResolveVersion sub :: pre), st1, st2, _, post, _.
  split; [done|]. split; [exact Hrf|].
  split.
  { rewrite Hh1, history_presence_checked, <- app_assoc. reflexivity. }
  split; [unfold calm in *; by repeat (apply Forall_cons; split; [done|])|].
  split; [unfold idle in *; by repeat (apply Forall_cons; split; [done|])|].
  split; [exact Hfs1|]. split; [exact Hd|]. split; [exact Hh2|].
  split; [exact Hh'|]. done.
Qed.

(** Witness of C7: the end-to-end example of the specification. *)
Lemma dependencies_between_download_and_update_witness :
  ends_in (install healthy plain 3 "bam_stats_samtools" false empty_pipeline)
    (final empty_pipeline
       (install healthy plain 3 "bam_stats_samtools" false empty_pipeline))
  /\ exists st1 st2 d sub version track tl,
       In (EvInstallFiles sub version true) (history st1) /\
       install_included_components healthy plain 2 d st1 = Ret tt st2 /\
       history
         (final empty_pipeline
            (install healthy plain 3 "bam_stats_samtools" false
               empty_pipeline))
       = history st2 ++ tl
           ++ [EvUpdateSubworkflow sub version "subworkflows" track;
               EvReturn "bam_stats_samtools" true].
Proof.
  assert (Hends :
    ends_in
      (install healthy plain 3 "bam_stats_samtools" false empty_pipeline)
      (final empty_pipeline
         (install healthy plain 3 "bam_stats_samtools" false
            empty_pipeline))).
  { left. exists true. vm_compute. reflexivity. }
  split; [exact Hends|].
  destruct (dependencies_between_download_and_update healthy plain 3
              "bam_stats_samtools" false empty_pipeline _ Hends)
    as [[Hr _]|[[_ H]|[[e Hr] _]]].
  { exfalso. revert Hr. vm_compute. discriminate. }
  2:{ exfalso. revert Hr. vm_compute. discriminate. }
  destruct H as (fuel' & sub & version & d & f & pre & st1 & st2 & deps & post
                 & track & Hfuel & Hrf & Hh1 & Hc1 & _ & Hfs & Hd & Hh2 & Hh'
                 & _).
  injection Hfuel as <-.
  exists st1, st2, d, sub, version, track, post.
  split; [|split; [exact Hd|exact Hh']].
  rewrite Hh1. apply in_or_app. right. right. apply in_or_app. right.
  by left.
Defined.



Example end_to_end_dependencies :
  scan_lines bam_stats_main
  = (["samtools/flagstat"], ["bam_sort_stats_samtools"]).
Proof. vm_compute. reflexivity. Qed.

Example end_to_end_lockfile :
  (fun '(k, e) => (k, git_sha e, elements (installed_by e))) <$>
    map_to_list
      (modules_json
         (final empty_pipeline
            (install healthy plain 3 "bam_stats_samtools" false
               empty_pipeline)))
  = [("modules", "samtools/flagstat", "m1", ["bam_stats_samtools"]);
     ("subworkflows", "bam_sort_stats_samtools", "v2", ["bam_stats_samtools"]);
     ("subworkflows", "bam_stats_samtools", "v2", ["subworkflows"])].
Proof. vm_compute. reflexivity. Qed.


(** ** The [installed_by] field *)

(** C10: a call of [install_included_components] that returns leaves
    [installed_by] as it found it. *)
Theorem installed_by_restored E self fuel subworkflow_dir st st' :
  install_included_components E self fuel subworkflow_dir st = Ret tt st' ->
  self_installed_by st' = self_installed_by st.
Proof.
  intros H. unfold install_included_components in H.
  by apply (included_spec E self _ _ _ _ (install_well_behaved E self fuel))
    in H as [? _].
Qed.

(** Witness of C10: the dependencies of [bam_stats_samtools], one of them
    a subworkflow installed in the name of [bam_stats_samtools]. *)
Lemma installed_by_restored_witness :
  install_included_components healthy plain 2 stats_dir stats_on_disk
    = Ret tt
        (final stats_on_disk
           (install_included_components healthy plain 2 stats_dir
              stats_on_disk)) /\
  EvInstall "bam_sort_stats_samtools" true "bam_stats_samtools"
    ∈ history
        (final stats_on_disk
           (install_included_components healthy plain 2 stats_dir
              stats_on_disk)) /\
  self_installed_by
    (final stats_on_disk
       (install_included_components healthy plain 2 stats_dir stats_on_disk))
  = "subworkflows".
Proof.
  split; [vm_compute; reflexivity|].
  split; [vm_compute; apply list_elem_of_further, list_elem_of_here|].
  refine (installed_by_restored healthy plain 2 stats_dir stats_on_disk _ _).
  vm_compute. reflexivity.
Defined.

(** A call that raises does not put the field back: the recursive call
    for a dependency without [main.nf] fails to open the file, and the
    field keeps the name of the parent. *)
Example installed_by_kept_on_raise :
  exists st',
    install_included_components healthy plain 2 needs_no_main_dir
      needs_no_main_on_disk
    = Raise (FileNotFoundError "/pipe/subworkflows/nf-core/no_main/main.nf") st'
    /\ self_installed_by needs_no_main_on_disk = "subworkflows"
    /\ self_installed_by st' = "needs_no_main".
Proof. eexists. split; [vm_compute; reflexivity|]. split; reflexivity. Qed.

(** C9, as amended: an installer constructed without [installed_by], or
    with a falsy one, has the literal component type in the field, and the
    update of [modules.json] that a call of [install] makes for the
    component it was asked for (after a full install, or on the
    already-installed path) records that literal. The updates made by
    the silent calls for the subworkflows that the component includes
    record the last part of the directory of the component instead,
    which is its name when the name is one path segment; the call itself
    writes no other entry. *)
Theorem default_referrer_of_request
    pipeline_dir force_ prompt_ sha_ repo_ installed_by_ :
  truthy installed_by_ = None ->
  let self := (init pipeline_dir force_ prompt_ sha_ repo_ installed_by_).1 in
  let by_ := (init pipeline_dir force_ prompt_ sha_ repo_ installed_by_).2 in
  by_ = "subworkflows" /\
  (forall E fuel req silent st r st' d sub,
    self_installed_by st = by_ ->
    verified E self req d sub ->
    install E self fuel req silent st = Ret r st' ->
    r = true \/ may_proceed E self d sub st = false ->
    "subworkflows" ∈ referrers "subworkflows" sub (modules_json st') /\
    exists pre e,
      history st' = pre ++ [e; EvReturn req r] /\
      written e = Some (sub, "subworkflows")) /\
  (forall E fuel req silent st st' d sub,
    self_installed_by st = by_ ->
    verified E self req d sub ->
    install E self fuel req silent st = Ret true st' ->
    exists parent version lines cfg pre segs post track,
      path_last_part (os_path_join (folder_of self d) sub) = Some parent /\
      (is_segment sub = true -> parent = sub) /\
      repo_files E (repo self) sub version = Some (Files (Some lines) cfg) /\
      history st' =
        history st ++ EvInstall req silent "subworkflows" :: pre
          ++ EvScan (os_path_join (folder_of self d) sub) :: concat segs
          ++ post
          ++ [EvUpdateSubworkflow sub version "subworkflows" track;
              EvReturn req true] /\
      idle pre /\ idle post /\
      Forall2 (nested_for parent) (scan_lines lines).2 segs).
Proof.
  intros Hfalsy self by_.
  assert (Hby : by_ = "subworkflows").
  { subst by_. unfold init. cbn. by destruct installed_by_ as [[|c s]|]. }
  split; [done|]. rewrite Hby. clear Hby by_. split.
  { intros E fuel req silent st r st' d sub Hst Hver H Hpath.
    destruct r.
    - destruct (install_true_inv _ _ _ _ _ _ _ _ _ Hver H)
        as (fuel' & -> & Hp & Hc).
      destruct Hc as (version & f & pre & st1 & st2 & post & _ & _ & _ & _ & _
                      & _ & _ & _ & _ & _ & Hh & _ & _ & _ & _ & Hl).
      cbn in Hh, Hl. rewrite Hst in Hh, Hl. split.
      + rewrite Hl. unfold update_entry, referrers at 1.
        change (component_type self) with "subworkflows".
        rewrite lookup_insert_eq. cbn. set_solver.
      + eexists (history st2 ++ post), _. rewrite <- app_assoc.
        split; [exact Hh|reflexivity].
    - destruct Hpath as [|Hp]; [done|].
      destruct fuel as [|fuel]; [done|]. cbn [install] in H.
      rewrite (install_body_verified E self _ _ _ _ _ _ Hver), Hp in H.
      destruct (already_installed_spec self req sub (recorded E sub st)
                  (presence_checked E req silent sub false st))
        as (st1 & Heq & _ & _ & Hl & msg & Hh).
      rewrite Heq in H. injection H as <-. cbn in Hl, Hh.
      rewrite Hst in Hl, Hh. split.
      + rewrite Hl. unfold update_entry, referrers at 1.
        change (component_type self) with "subworkflows".
        rewrite lookup_insert_eq. cbn. set_solver.
      + eexists (_ ++ [EvLog Debug msg]), _. rewrite <- app_assoc.
        split; [exact Hh|reflexivity]. }
  intros E fuel req silent st st' d sub Hst Hver H.
  destruct (install_true_inv _ _ _ _ _ _ _ _ _ Hver H)
    as (fuel' & -> & Hp & Hc).
  destruct Hc as (version & f & pre & st1 & st2 & post & _ & Hrf & Hh1 & _
                  & _ & Hi1 & _ & Hfs1 & _ & Hd & Hh' & _ & Hi2 & _).
  pose proof (included_records E self _ _ _ _ (install_records E self fuel') Hd)
    as (lines & cfg & segs & Hfs & Hh2 & Hsegs).
  rewrite Hfs1 in Hfs. injection Hfs as ->.
  destruct (component_dir_has_name d (repo_path (repo self)) sub)
    as [parent Hlast].
  cbn in Hh'. rewrite Hst in Hh'.
  eexists parent, version, lines, cfg,
    ([EvCheckUpToDate; EvVerifySha; EvVerifyName req; EvCurrentVersion sub;
      EvPresenceCheck sub true; EvResolveVersion sub]
     ++ pre ++ [EvInstallFiles sub version true]), segs,
    (module_events self (os_path_join (folder_of self d) sub)
       (scan_lines lines).1 ++ post), _.
  split; [exact Hlast|]. split.
  { intros Hseg. unfold folder_of in Hlast.
    rewrite (path_last_part_join _ _ Hseg) in Hlast. congruence. }
  split; [exact Hrf|]. split.
  { rewrite Hh', Hh2, Hh1, history_presence_checked, Hst, <- !app_assoc. cbn.
    by rewrite <- !app_assoc. }
  split.
  { unfold idle in *. repeat (apply Forall_cons; split; [done|]).
    apply Forall_app. split; [done|]. by constructor. }
  split; [|by apply Hsegs].
  unfold idle in *. apply Forall_app. split; [|done].
  unfold module_events. destruct (path_last_part _); [|constructor].
  by apply Forall_map, Forall_true.
Qed.

(** Witness of C9: the empty string for [installed_by], and a request
    for a component with two dependencies. *)
Lemma default_referrer_of_request_witness :
  (init (Some "/pipe") false false None nf_core (Some "")).2 = "subworkflows"
  /\ "subworkflows"
       ∈ referrers "subworkflows" "bam_stats_samtools"
           (modules_json
              (final empty_pipeline
                 (install healthy plain 3 "bam_stats_samtools" false
                    empty_pipeline))).
Proof.
  destruct (default_referrer_of_request (Some "/pipe") false false None
              nf_core (Some "") eq_refl) as (Hby & Hrun & _).
  split; [exact Hby|].
  refine (proj1 (Hrun healthy 3 "bam_stats_samtools" false empty_pipeline true
                   _ "/pipe" "bam_stats_samtools" _ _ _ _)).
  - reflexivity.
  - repeat split; reflexivity.
  - vm_compute. reflexivity.
  - by left.
Defined.

(** Counterexample to C9 as stated: the same installer, constructed
    without [installed_by], records the dependency of the request under
    the name of the request, not under the component type. *)
Lemma nested_update_records_parent :
  exists st',
    install healthy (init (Some "/pipe") false false None nf_core None).1 3
      "bam_stats_samtools" false
      (start (init (Some "/pipe") false false None nf_core None).2 ∅ ∅)
    = Ret true st' /\
    EvUpdateSubworkflow "bam_sort_stats_samtools" "v2" "bam_stats_samtools"
      None ∈ history st' /\
    referrers "subworkflows" "bam_sort_stats_samtools" (modules_json st')
    = {[ "bam_stats_samtools" ]}.
Proof.
  eexists. split; [vm_compute; reflexivity|]. split.
  - vm_compute.
    repeat first [apply list_elem_of_here | apply list_elem_of_further].
  - vm_compute. reflexivity.
Qed.

(* ===================================================================== *)
(** * Further properties of the extractor *)
(* ===================================================================== *)

Import Regex Shapes Wording Outcomes Uncalled Fixtures.

Section ExtractorResults.

Lemma line_deps_needs_include line :
  startswith line "include" = false -> line_deps line = ([], []).
Proof.
  intros H. rewrite line_deps_cases.
  destruct (include_match line) as [[n l]|] eqn:Hm; [|done].
  apply include_match_sound in Hm as [Hs _]. congruence.
Qed.

Lemma line_deps_short line :
  length (line_deps line).1 + length (line_deps line).2 <= 1.
Proof.
  rewrite line_deps_cases.
  destruct (include_match line) as [[n l]|]; [|cbn; lia].
  destruct (startswith l "../../../"); [cbn; lia|].
  destruct (startswith l "../"); cbn; lia.
Qed.

Lemma join_split_replace a b s :
  join (String b "") (split a s) = replace_char a b s.
Proof.
  induction s as [|c s IH]; [done|]. cbn [split replace_char].
  pose proof (split_nonempty a s) as Hne.
  destruct (Ascii.eqb c a).
  - destruct (split a s) as [|h t] eqn:Hs; [done|].
    cbn [join] in *. rewrite <- IH. by destruct t.
  - destruct (split a s) as [|h t] eqn:Hs; [done|].
    rewrite <- IH. destruct t; [done|]. cbn [join]. by rewrite append_cons.
Qed.

Lemma split_replace a b s :
  has_char b s = false -> split b (replace_char a b s) = split a s.
Proof.
  induction s as [|c s IH]; [done|]. cbn [has_char replace_char split].
  intros H. apply orb_false_elim in H as [Hc Hs]. specialize (IH Hs).
  destruct (Ascii.eqb c a) eqn:Hca.
  - rewrite Ascii.eqb_refl. by rewrite IH.
  - rewrite (Ascii.eqb_sym c b), Hc. by rewrite IH.
Qed.

Lemma length_replace a b s :
  String.length (replace_char a b s) = String.length s.
Proof. induction s; cbn; congruence. Qed.

Lemma length_lower s : String.length (lower s) = String.length s.
Proof. induction s; cbn; congruence. Qed.

Lemma ident_lower_chars c :
  is_ident c = true ->
  is_subworkflow_char (lower_char c) = true /\
  is_module_char (if Ascii.eqb (lower_char c) "_" then "/"%char else lower_char c)
    = true.
Proof. destruct c as [[] [] [] [] [] [] [] []]; vm_compute; intros; done. Qed.

Lemma lower_ident_chars name :
  all_chars is_ident name = true ->
  all_chars is_subworkflow_char (lower name) = true /\
  all_chars is_module_char (replace_char "_" "/" (lower name)) = true.
Proof.
  induction name as [|c name IH]; [done|]. cbn [all_chars lower replace_char].
  intros H. apply andb_prop in H as [Hc H].
  destruct (ident_lower_chars c Hc) as [-> ->]. by apply IH.
Qed.

(** X1: only the lines that open with the word include count: the
    pattern is matched at the start of the line, so an indented or
    commented include statement gives nothing, and dropping every other
    line from the file changes no result. *)
Theorem only_include_lines_count lines :
  scan_lines lines
  = scan_lines (filter (fun l => startswith l "include" = true) lines).
Proof.
  rewrite !scan_lines_concat.
  assert (H : forall f : string -> list string,
            (forall l, startswith l "include" = false -> f l = []) ->
            concat (map f lines)
            = concat (map f (filter (fun l => startswith l "include" = true)
                               lines))).
  { intros f Hf. induction lines as [|l lines IH]; [done|].
    destruct (startswith l "include") eqn:Hl.
    - rewrite filter_cons_True by done. cbn [map concat]. by rewrite IH.
    - rewrite filter_cons_False by (by rewrite Hl). cbn [map concat].
      by rewrite (Hf l Hl), IH. }
  f_equal; apply H; intros l Hl; by rewrite line_deps_needs_include.
Qed.

(** X2: the result for two files one after the other is the two results
    one after the other: the names come in the order of the lines and a
    name that is included twice is reported twice. *)
Theorem scan_lines_app a b :
  scan_lines (a ++ b)
  = ((scan_lines a).1 ++ (scan_lines b).1, (scan_lines a).2 ++ (scan_lines b).2).
Proof. rewrite !scan_lines_concat. cbn. by rewrite !map_app, !concat_app. Qed.

(** X3: a line gives at most one name, so a file gives no more names
    than it has lines. *)
Theorem at_most_one_name_per_line lines :
  length (scan_lines lines).1 + length (scan_lines lines).2 <= length lines.
Proof.
  rewrite scan_lines_concat. cbn [fst snd].
  induction lines as [|l lines IH]; cbn [map concat]; [cbn; lia|].
  rewrite !length_app. pose proof (line_deps_short l). cbn [length]. lia.
Qed.

(** X4: a module name is made of lower-case letters, digits and
    slashes; a subworkflow name of lower-case letters, digits and
    underscores. *)
Theorem extracted_names_charset lines :
  Forall (fun m => all_chars is_module_char m = true) (scan_lines lines).1 /\
  Forall (fun s => all_chars is_subworkflow_char s = true) (scan_lines lines).2.
Proof.
  rewrite scan_lines_concat. cbn [fst snd].
  induction lines as [|l lines [IH1 IH2]]; [split; constructor|].
  cbn [map concat]. rewrite !Forall_app.
  enough (Forall (fun m => all_chars is_module_char m = true) (line_deps l).1 /\
          Forall (fun s => all_chars is_subworkflow_char s = true) (line_deps l).2)
    as [? ?] by done.
  rewrite line_deps_cases.
  destruct (include_match l) as [[name link]|] eqn:Hm; [|split; constructor].
  apply include_match_sound in Hm as (_ & Hname & _).
  destruct (lower_ident_chars name Hname) as [Hs Hmod].
  destruct (startswith link "../../../"); cbn [fst snd].
  { split; [|constructor]. constructor; [|constructor].
    change "/"%string with (String "/" ""). by rewrite join_split_replace. }
  destruct (startswith link "../"); cbn [fst snd]; split; repeat constructor.
  done.
Qed.

(** X5: the module name of a matching line is the lower-cased symbol
    with every underscore replaced by a slash: it is as long as the
    symbol, and cutting it at its slashes gives back the words of the
    symbol between its underscores. *)
Theorem module_name_segments line name link :
  include_match line = Some (name, link) ->
  startswith link "../../../" = true ->
  exists m,
    line_deps line = ([m], []) /\
    m = replace_char "_" "/" (lower name) /\
    split "/" m = split "_" (lower name) /\
    String.length m = String.length name.
Proof.
  intros Hm Hl. rewrite line_deps_cases, Hm, Hl.
  apply include_match_sound in Hm as (_ & Hname & _).
  eexists. split; [reflexivity|].
  change "/"%string with (String "/" ""). rewrite join_split_replace.
  split; [done|]. split.
  - apply split_replace. by apply lower_ident_no_slash.
  - by rewrite length_replace, length_lower.
Qed.

Lemma module_name_segments_witness :
  exists m,
    line_deps
      "include { SAMTOOLS_SORT } from '../../../modules/nf-core/samtools/sort/main'"
    = ([m], []) /\
    m = replace_char "_" "/" (lower "SAMTOOLS_SORT") /\
    split "/" m = split "_" (lower "SAMTOOLS_SORT") /\
    String.length m = String.length "SAMTOOLS_SORT".
Proof.
  refine (module_name_segments
            "include { SAMTOOLS_SORT } from '../../../modules/nf-core/samtools/sort/main'"
            "SAMTOOLS_SORT" "../../../modules/nf-core/samtools/sort/main" _ _).
  - vm_compute. reflexivity.
  - reflexivity.
Defined.

End ExtractorResults.

(* ===================================================================== *)
(** * Lines as they are written in files *)
(* ===================================================================== *)

Section LineShapes.

Lemma has_char_app c p t :
  has_char c (p +:+ t) = false -> has_char c t = false.
Proof.
  induction p as [|x p IH]; [done|]. rewrite append_cons. cbn [has_char].
  intros H. apply orb_false_elim in H as [_ H]. by apply IH.
Qed.

(** ** Text after the match *)

Lemma star_match_dead {R} p t (k : string -> option R) :
  (forall pre t', t = pre +:+ t' -> k t' = None) -> star_match p t k = None.
Proof.
  induction t as [|c t IH]; intros Hk; cbn [star_match].
  - by apply (Hk "").
  - rewrite IH.
    + rewrite (Hk "" (String c t)) by done. by destruct (p c).
    + intros pre t' ->. by apply (Hk (String c pre)).
Qed.

(** A continuation that fails on every suffix makes the match fail. *)
Lemma rmatch_dead r :
  forall t g k,
    (forall pre t' g', t = pre +:+ t' -> k t' g' = None) ->
    rmatch r t g k = None.
Proof.
  induction r as [c|p|r1 IH1 r2 IH2|r1 IH1 r2 IH2|r1 IH1|i r1 IH1];
    intros t g k Hk; cbn [rmatch].
  - destruct t as [|c' t]; [done|]. destruct (Ascii.eqb c c'); [|done].
    by apply (Hk (String c' "")).
  - apply star_match_dead. intros pre t' ->. by apply (Hk pre).
  - apply IH1. intros pre t' g' ->. apply IH2. intros pre' t'' g'' ->.
    apply (Hk (pre +:+ pre')). by rewrite append_assoc.
  - by rewrite IH1, IH2.
  - rewrite IH1 by done. by apply (Hk "").
  - apply IH1. intros pre t' g' ->. by apply (Hk pre).
Qed.

Lemma star_match_trailing {R} T p s (K k : string -> option R) :
  (forall pre s', s = pre +:+ s' -> K (s' +:+ T) = k s') ->
  (forall c pre t, T = String c pre +:+ t -> K t = None) ->
  star_match p (s +:+ T) K = star_match p s k.
Proof.
  intros H1 H2. induction s as [|c s IH].
  - rewrite append_empty. cbn [star_match]. rewrite <- (H1 "" "") by done.
    rewrite append_empty. destruct T as [|c T]; [done|]. cbn [star_match].
    rewrite star_match_dead; [by destruct (p c)|].
    intros pre t' ->. by apply (H2 c pre).
  - rewrite append_cons. cbn [star_match]. rewrite IH.
    + rewrite <- append_cons. by rewrite (H1 "" (String c s)).
    + intros pre s' ->. by apply (H1 (String c pre)).
Qed.

(** Text after the line that no continuation can use changes nothing:
    the matcher explores it and comes back. *)
Lemma rmatch_trailing T r :
  forall s g K k,
    (forall pre s' g', s = pre +:+ s' -> K (s' +:+ T) g' = k s' g') ->
    (forall c pre t g', T = String c pre +:+ t -> K t g' = None) ->
    rmatch r (s +:+ T) g K = rmatch r s g k.
Proof.
  induction r as [c|p|r1 IH1 r2 IH2|r1 IH1 r2 IH2|r1 IH1|i r1 IH1];
    intros s g K k H1 H2; cbn [rmatch].
  - destruct s as [|c' s].
    + rewrite append_empty. destruct T as [|c' T]; [done|].
      destruct (Ascii.eqb c c'); [|done]. by apply (H2 c' "").
    + rewrite append_cons. destruct (Ascii.eqb c c'); [|done].
      by apply (H1 (String c' "")).
  - apply star_match_trailing.
    + intros pre s' ->. by apply (H1 pre).
    + intros c pre t ->. by apply (H2 c pre).
  - apply IH1.
    + intros pre s' g' ->. apply IH2; [|done].
      intros pre' s'' g'' ->. apply (H1 (pre +:+ pre')).
      by rewrite append_assoc.
    + intros c pre t g' ->. apply rmatch_dead. intros pre' t' g'' ->.
      apply (H2 c (pre +:+ pre')). by rewrite <- append_cons, append_assoc.
  - by rewrite (IH1 _ _ _ _ H1 H2), (IH2 _ _ _ _ H1 H2).
  - rewrite (IH1 _ _ _ _ H1 H2). by rewrite (H1 "" s).
  - apply IH1.
    + intros pre s' g' ->. rewrite append_assoc, !consumed_append.
      by apply (H1 pre).
    + intros c pre t g' ->. by apply (H2 c pre).
Qed.

Lemma quote_needs_quote t g (k : string -> caps -> option caps) :
  has_char squote t = false -> has_char dquote t = false ->
  rmatch quote t g k = None.
Proof.
  destruct t as [|c t]; [done|]. cbn [has_char]. intros H1 H2.
  apply orb_false_elim in H1 as [H1 _]. apply orb_false_elim in H2 as [H2 _].
  unfold quote. cbn [rmatch]. by rewrite H1, H2.
Qed.

(** The pattern is everything up to the closing quote, then that quote. *)
Lemma include_regex_closing s g k :
  rmatch include_regex s g k
  = rmatch
      (lits "include"
         (cats [ sp; Lit "{"; sp; Grp 1 (StarCls is_ident);
                 Opt (cats [sp; Lit "a"] (Cat (Lit "s") sp));
                 Opt (StarCls is_ident);
                 sp; Lit "}";
                 sp; Lit "f"; Lit "r"; Lit "o"; Lit "m"; sp;
                 quote ]
            (Grp 2 (StarCls is_dot))))
      s g (fun s' g' => rmatch quote s' g' k).
Proof. reflexivity. Qed.

(** X6: text after the statement that has no quote in it (the line
    terminator that the iteration over the file leaves on the line, a
    semicolon, a comment) changes neither the match nor what the line
    gives. *)
Theorem trailing_text_is_ignored line t :
  has_char squote t = false -> has_char dquote t = false ->
  include_match (line +:+ t) = include_match line /\
  line_deps (line +:+ t) = line_deps line.
Proof.
  intros Hs Hd.
  assert (H : include_match (line +:+ t) = include_match line).
  { unfold include_match, re_match. rewrite !include_regex_closing.
    rewrite (rmatch_trailing t _ line [] _
               (fun s' g' => rmatch quote s' g' (fun _ g => Some g))); [done| |].
    - intros pre s' g' _. destruct s' as [|c s']; [|done].
      rewrite append_empty. by rewrite quote_needs_quote.
    - intros c pre t' g' Ht. apply quote_needs_quote.
      + apply (has_char_app _ (String c pre)). by rewrite <- Ht.
      + apply (has_char_app _ (String c pre)). by rewrite <- Ht. }
  split; [exact H|]. by rewrite !line_deps_cases, H.
Qed.

Lemma trailing_text_is_ignored_witness :
  line_deps ("include { FOO } from '../foo/main'" +:+ String newline "")
  = line_deps "include { FOO } from '../foo/main'".
Proof.
  refine (proj2 (trailing_text_is_ignored
                   "include { FOO } from '../foo/main'" (String newline "") _ _));
    reflexivity.
Defined.

(** ** Lines as they are usually written *)

Lemma is_quote_cases q : is_quote q = true -> q = squote \/ q = dquote.
Proof.
  unfold is_quote. intros H. apply orb_prop in H as [H|H];
    apply Ascii.eqb_eq in H; auto.
Qed.

Lemma rmatch_open_quote q r s g k :
  is_quote q = true ->
  rmatch (Cat quote r) (String q s) g k = rmatch r s g k.
Proof.
  intros [-> | ->]%is_quote_cases; unfold quote; cbn [rmatch].
  - change (Ascii.eqb squote squote) with true. cbn iota.
    change (Ascii.eqb dquote squote) with false. cbn iota.
    by destruct (rmatch r s g k).
  - change (Ascii.eqb squote dquote) with false. cbn iota.
    change (Ascii.eqb dquote dquote) with true. done.
Qed.

Lemma rmatch_closing_quote q link g :
  is_quote q = true -> all_chars is_dot link = true ->
  rmatch (Cat (Grp 2 (StarCls is_dot)) quote) (link +:+ String q "") g
    (fun _ g' => Some g')
  = Some ((2, link) :: g).
Proof.
  intros Hq Hlink. cbn [rmatch].
  destruct (is_quote_cases q Hq) as [-> | ->].
  - erewrite star_match_greedy; [|exact Hlink|reflexivity].
    by rewrite consumed_append.
  - erewrite star_match_greedy; [|exact Hlink|reflexivity].
    by rewrite consumed_append.
Qed.

(** From the closing brace on. *)
Lemma rmatch_from q1 q2 link g :
  is_quote q1 = true -> is_quote q2 = true -> all_chars is_dot link = true ->
  rmatch
    (cats [ sp; Lit "}"; sp; Lit "f"; Lit "r"; Lit "o"; Lit "m"; sp; quote;
            Grp 2 (StarCls is_dot) ] quote)
    (" } from " +:+ String q1 (link +:+ String q2 "")) g (fun _ g' => Some g')
  = Some ((2, link) :: g).
Proof.
  intros Hq1 Hq2 Hlink. cbn [cats]. rewrite !append_cons, !append_empty.
  rewrite rmatch_spaces_before by reflexivity. rewrite !rmatch_lit.
  rewrite rmatch_spaces_before by reflexivity. rewrite !rmatch_lit.
  assert (Hsp : is_space q1 = false).
  { by destruct (is_quote_cases q1 Hq1) as [-> | ->]. }
  rewrite rmatch_spaces_before by exact Hsp.
  rewrite (rmatch_open_quote q1) by exact Hq1.
  by rewrite (rmatch_closing_quote q2 link g Hq2 Hlink).
Qed.

Lemma ident_head c s :
  all_chars is_ident (String c s) = true ->
  is_ident c = true /\ is_space c = false.
Proof.
  cbn [all_chars]. intros H. apply andb_prop in H as [Hc _].
  split; [done|]. by apply ident_not_space.
Qed.

Lemma rmatch_space_then c r s g k x :
  is_space c = false ->
  rmatch r (String c s) g k = Some x ->
  rmatch (Cat sp r) (String " " (String c s)) g k = Some x.
Proof. intros Hc H. rewrite rmatch_spaces_before by exact Hc. by rewrite H. Qed.

Lemma rmatch_opt_taken r1 r s g k x :
  rmatch r1 s g (fun s' g' => rmatch r s' g' k) = Some x ->
  rmatch (Cat (Opt r1) r) s g k = Some x.
Proof. intros H. cbn [rmatch]. by rewrite H. Qed.

Lemma rmatch_run p run c rest r g k x :
  all_chars p run = true -> p c = false ->
  rmatch r (String c rest) g k = Some x ->
  rmatch (StarCls p) (run +:+ String c rest) g
    (fun s' g' => rmatch r s' g' k) = Some x.
Proof.
  intros Hrun Hc H. cbn [rmatch]. apply star_match_greedy; [exact Hrun|].
  by rewrite star_match_stop.
Qed.

Lemma rmatch_as_chain r s g k :
  rmatch (Cat sp (Cat (Lit "a") (Cat (Lit "s") sp))) s g
    (fun s' g' => rmatch r s' g' k)
  = rmatch (Cat sp (Cat (Lit "a") (Cat (Lit "s") (Cat sp r)))) s g k.
Proof. reflexivity. Qed.

(** What follows the symbol, with or without an alias. *)
Lemma after_symbol_usual alias q1 q2 link g :
  (forall a, alias = Some a -> a <> "" /\ all_chars is_ident a = true) ->
  is_quote q1 = true -> is_quote q2 = true -> all_chars is_dot link = true ->
  rmatch after_symbol
    ((if alias is Some a then " as " +:+ a else "")
     +:+ " } from " +:+ String q1 (link +:+ String q2 "")) g
    (fun _ g' => Some g')
  = Some ((2, link) :: g).
Proof.
  intros Halias Hq1 Hq2 Hlink.
  pose proof (rmatch_from q1 q2 link g Hq1 Hq2 Hlink) as Hfrom.
  unfold after_symbol. cbn [cats] in *.
  destruct alias as [a|].
  - destruct (Halias a eq_refl) as [Hne Ha].
    destruct a as [|c a]; [done|]. destruct (ident_head c a Ha) as [Hc Hsp].
    rewrite append_assoc.
    change (" } from " +:+ String q1 (link +:+ String q2 ""))
      with (String " " ("} from " +:+ String q1 (link +:+ String q2 "")))
      in *.
    rewrite !append_cons, !append_empty.
    apply rmatch_opt_taken.
    rewrite rmatch_as_chain.
    apply rmatch_space_then; [reflexivity|]. rewrite !rmatch_lit.
    apply rmatch_space_then; [exact Hsp|].
    apply rmatch_opt_taken. rewrite <- (append_cons c a).
    apply rmatch_run; [exact Ha|reflexivity|exact Hfrom].
  - rewrite append_empty.
    change (" } from " +:+ String q1 (link +:+ String q2 ""))
      with (String " " (String "}"
              (" from " +:+ String q1 (link +:+ String q2 "")))) in *.
    rewrite rmatch_skip_as by reflexivity.
    rewrite rmatch_skip_alias by reflexivity.
    exact Hfrom.
Qed.

(** The match of an include statement as it is usually written. *)
Lemma include_line_match c name alias q1 q2 link :
  all_chars is_ident (String c name) = true ->
  (forall a, alias = Some a -> a <> "" /\ all_chars is_ident a = true) ->
  is_quote q1 = true -> is_quote q2 = true ->
  all_chars is_dot link = true ->
  include_match (include_line (String c name) alias q1 q2 link)
  = Some (String c name, link).
Proof.
  intros Hname Halias Hq1 Hq2 Hlink.
  destruct (ident_head c name Hname) as [_ Hc].
  unfold include_match, re_match, include_regex, include_line. cbn [lits cats].
  assert (Hcore :
    rmatch (Cat (Grp 1 (StarCls is_ident)) after_symbol)
      (String c name +:+ (if alias is Some a then " as " +:+ a else "")
       +:+ " } from " +:+ String q1 (link +:+ String q2 "")) []
      (fun _ g' => Some g')
    = Some [(2, link); (1, String c name)]).
  { cbn [rmatch].
    erewrite star_match_greedy; [reflexivity|exact Hname|].
    assert (Hhead : exists x tl,
              (if alias is Some a then " as " +:+ a else "")
              +:+ " } from " +:+ String q1 (link +:+ String q2 "")
              = String x tl /\ is_ident x = false).
    { destruct alias; rewrite !append_cons; eauto. }
    destruct Hhead as (x & tl & Heq & Hx).
    rewrite Heq. rewrite star_match_stop by exact Hx.
    rewrite consumed_append, <- Heq. by apply after_symbol_usual. }
  rewrite !append_cons, !append_empty in Hcore.
  rewrite (append_cons c name), !append_cons, !append_empty.
  rewrite !rmatch_lit.
  rewrite rmatch_spaces_before by reflexivity.
  rewrite !rmatch_lit.
  rewrite rmatch_spaces_before by exact Hc.
  by rewrite Hcore.
Qed.

(** X7: an include statement as it is usually written is found: the
    symbol between the braces, with or without an alias, and the path
    between single or double quotes (the two need not be the same). The
    symbol reported is the one before the alias, and the path runs to
    the last quote of the line. *)
Theorem usual_include_is_found c name alias q1 q2 link :
  all_chars is_ident (String c name) = true ->
  (forall a, alias = Some a -> a <> "" /\ all_chars is_ident a = true) ->
  is_quote q1 = true -> is_quote q2 = true ->
  all_chars is_dot link = true ->
  include_match (include_line (String c name) alias q1 q2 link)
  = Some (String c name, link).
Proof. apply include_line_match. Qed.

Lemma usual_include_is_found_witness :
  include_match
    (include_line "SAMTOOLS_SORT" (Some "SORT2") dquote squote
       "../../../modules/nf-core/samtools/sort/main")
  = Some ("SAMTOOLS_SORT", "../../../modules/nf-core/samtools/sort/main").
Proof.
  refine (usual_include_is_found "S" "AMTOOLS_SORT" (Some "SORT2") dquote
            squote "../../../modules/nf-core/samtools/sort/main" _ _ _ _ _).
  - reflexivity.
  - intros a [= <-]. split; [done|reflexivity].
  - reflexivity.
  - reflexivity.
  - reflexivity.
Defined.

End LineShapes.

(* ===================================================================== *)
(** * The classification of include lines *)
(* ===================================================================== *)

Section Classification.

(** The lower-casing, the prefix test and the module name of the source
    are those of the specification. *)
Lemma lower_char_table c :
  lower_char c = letter_for c upper_case_letters lower_case_letters.
Proof. destruct c as [[] [] [] [] [] [] [] []]; reflexivity. Qed.

Lemma lower_spec s : lower s = spec_lowercase s.
Proof.
  induction s as [|c s IH]; [done|]. cbn [lower spec_lowercase].
  by rewrite lower_char_table, IH.
Qed.

Lemma startswith_prefix s p : startswith s p = true <-> has_prefix p s.
Proof.
  revert s. induction p as [|x p IH]; intros s; cbn [startswith].
  - split; [|done]. intros _. by exists s.
  - destruct s as [|y s].
    + split; [done|]. intros [rest H]. by rewrite append_cons in H.
    + destruct (Ascii.eqb_spec x y) as [<-|Hne].
      * rewrite IH. split; intros [rest H]; exists rest.
        -- by rewrite append_cons, H.
        -- rewrite append_cons in H. by injection H.
      * split; [done|]. intros [rest H]. rewrite append_cons in H.
        by injection H as -> _.
Qed.

Lemma startswith_no_prefix s p : startswith s p = false <-> ~ has_prefix p s.
Proof.
  rewrite <- startswith_prefix. by destruct (startswith s p).
Qed.

(** C5: a line that matches the include pattern, with the symbol and the
    quoted path it binds, opens with the word include and has a symbol
    of letters, digits and underscores. When the path starts with
    [../../../] the line gives one module, named by the lower-cased
    symbol with a slash between its underscore-separated parts; when the
    path otherwise starts with [../] it gives one subworkflow, named by
    the lower-cased symbol; otherwise it gives nothing. An include
    statement as it is usually written matches, with the symbol before
    the alias and the path between the quotes; a line that does not open
    with the word include does not match, and a line that does not match
    gives nothing. The result for a file is what its lines give, in
    order. The names are stated with the lower-casing, the prefixes and
    the module name of the specification. *)
Theorem include_classification :
  (forall line,
     match include_match line with
     | Some (symbol, path) =>
         has_prefix "include" line /\
         all_chars is_ident symbol = true /\
         (has_prefix "../../../" path ->
          line_deps line = ([spec_module_name symbol], [])) /\
         (~ has_prefix "../../../" path -> has_prefix "../" path ->
          line_deps line = ([], [spec_lowercase symbol])) /\
         (~ has_prefix "../" path -> line_deps line = ([], []))
     | None => line_deps line = ([], [])
     end) /\
  (forall c name alias q1 q2 path,
     all_chars is_ident (String c name) = true ->
     (forall a, alias = Some a -> a <> "" /\ all_chars is_ident a = true) ->
     is_quote q1 = true -> is_quote q2 = true ->
     all_chars is_dot path = true ->
     include_match (include_line (String c name) alias q1 q2 path)
     = Some (String c name, path)) /\
  (forall line, ~ has_prefix "include" line -> include_match line = None) /\
  (forall lines,
     scan_lines lines =
       (concat (map (fun l => (line_deps l).1) lines),
        concat (map (fun l => (line_deps l).2) lines))).
Proof.
  split; [|split; [|split]].
  - intros line. rewrite line_deps_cases.
    destruct (include_match line) as [[symbol path]|] eqn:Hm; [|done].
    apply include_match_sound in Hm as (Hinc & Hsym & _).
    split; [by apply startswith_prefix|]. split; [done|].
    unfold spec_module_name. rewrite <- lower_spec.
    change "/"%string with (String "/" ""). rewrite join_split_replace.
    split; [|split].
    + intros H. apply startswith_prefix in H. by rewrite H.
    + intros H3 H1. apply startswith_no_prefix in H3.
      apply startswith_prefix in H1. by rewrite H3, H1.
    + intros H1. apply startswith_no_prefix in H1.
      destruct (startswith path "../../../") eqn:H3; [|by rewrite H1].
      apply startswith_prefix in H3 as [rest ->].
      by rewrite !append_cons in H1.
  - apply include_line_match.
  - intros line H. apply startswith_no_prefix in H.
    destruct (include_match line) as [[symbol path]|] eqn:Hm; [|done].
    apply include_match_sound in Hm as (Hinc & _). congruence.
  - apply scan_lines_concat.
Qed.

(** Witness of C5: the two lines of the specification, an aliased
    module in double quotes, an include from the same directory, and an
    indented line. *)
Lemma include_classification_witness :
  line_deps "include { FOO } from '../../../modules/nf-core/foo/main'"
  = (["foo"], []) /\
  line_deps "include { BAR } from '../bar/main'" = ([], ["bar"]) /\
  line_deps
    (include_line "SAMTOOLS_SORT" (Some "SORT2") dquote dquote
       "../../../modules/nf-core/samtools/sort/main")
  = (["samtools/sort"], []) /\
  line_deps "include { BAZ } from './baz/main'" = ([], []) /\
  include_match "  include { BAR } from '../bar/main'" = None.
Proof.
  destruct include_classification as (Hline & Husual & Hother & _).
  assert (Hm : forall c name alias q1 q2 path,
            all_chars is_ident (String c name) = true ->
            (forall a, alias = Some a -> a <> "" /\ all_chars is_ident a = true) ->
            is_quote q1 = true -> is_quote q2 = true ->
            all_chars is_dot path = true ->
            has_prefix "include" (include_line (String c name) alias q1 q2 path)
            /\ all_chars is_ident (String c name) = true
            /\ (has_prefix "../../../" path ->
                line_deps (include_line (String c name) alias q1 q2 path)
                = ([spec_module_name (String c name)], []))
            /\ (~ has_prefix "../../../" path -> has_prefix "../" path ->
                line_deps (include_line (String c name) alias q1 q2 path)
                = ([], [spec_lowercase (String c name)]))
            /\ (~ has_prefix "../" path ->
                line_deps (include_line (String c name) alias q1 q2 path)
                = ([], []))).
  { intros c name alias q1 q2 path H1 H2 H3 H4 H5.
    pose proof (Hline (include_line (String c name) alias q1 q2 path)) as H.
    by rewrite (Husual c name alias q1 q2 path H1 H2 H3 H4 H5) in H. }
  assert (Hnone : forall a : string, None = Some a ->
                    a <> "" /\ all_chars is_ident a = true) by done.
  split.
  { refine (proj1 (proj2 (proj2 (Hm "F"%char "OO" None squote squote
              "../../../modules/nf-core/foo/main" eq_refl Hnone eq_refl eq_refl
              eq_refl))) _).
    by exists "modules/nf-core/foo/main". }
  split.
  { refine (proj1 (proj2 (proj2 (proj2 (Hm "B"%char "AR" None squote squote
              "../bar/main" eq_refl Hnone eq_refl eq_refl eq_refl)))) _ _).
    - intros [rest H]. discriminate H.
    - by exists "bar/main". }
  split.
  { refine (proj1 (proj2 (proj2 (Hm "S"%char "AMTOOLS_SORT" (Some "SORT2") dquote
              dquote "../../../modules/nf-core/samtools/sort/main" eq_refl _
              eq_refl eq_refl eq_refl))) _).
    - intros a [= <-]. split; [done|reflexivity].
    - by exists "modules/nf-core/samtools/sort/main". }
  split.
  { refine (proj2 (proj2 (proj2 (proj2 (Hm "B"%char "AZ" None squote squote
              "./baz/main" eq_refl Hnone eq_refl eq_refl eq_refl)))) _).
    intros [rest H]. discriminate H. }
  apply Hother. intros [rest H]. discriminate H.
Defined.

End Classification.

(* ===================================================================== *)
(** * Further properties of the installer *)
(* ===================================================================== *)

Section CallOutcomes.
Variable E : env.
Variable self : installer.

Lemma force_remove_fs sub cv d st track st1 :
  force_remove E self sub cv d st = (track, st1) ->
  (force self = false -> track = None /\ st1 = st) /\
  (fs st1 = fs st \/ (force self = true /\ fs st1 = delete d (fs st))).
Proof.
  unfold force_remove. destruct (force self); cbn [andb].
  - rewrite check_forced.
    unfold clear_component_dir, clean_modules_json, log.
    intros H. repeat case_match; simplify_eq; cbn; split; try done; auto.
  - intros [= <- <-]. auto.
Qed.

Lemma install_tail_true rec req silent sub version folder track st r st' :
  install_tail E self rec req silent sub version folder track st = Ret r st' ->
  r = true.
Proof.
  unfold install_tail, finish.
  destruct (install_included_components_with _ _ _ _ _); [|done..].
  by intros [= <- _].
Qed.

(** Once the files are on disk nothing makes the call return [False]. *)
Lemma install_fresh_downloaded rec req silent sub cv folder st version f r st' :
  truthy (get_version E sub (component_type self) (sha self) (prompt self)
            cv (repo self)) = Some version ->
  repo_files E (repo self) sub version = Some f ->
  install_fresh E self rec req silent sub cv folder st = Ret r st' ->
  r = true.
Proof.
  intros Hv Hrf. unfold install_fresh. rewrite Hv.
  destruct (force_remove _ _ _ _ _ _) as [track st0].
  unfold install_component_files. rewrite Hrf. cbn [negb].
  apply install_tail_true.
Qed.

Lemma install_body_false_fs rec req silent st st' :
  install_body E self rec req silent st = Ret false st' ->
  (force self = false -> fs st' = fs st) /\ fs st' ⊆ fs st.
Proof.
  unfold install_body, has_valid_directory.
  destruct (dir self) as [d|]; [|by intros [= <-]].
  destruct (os_path_exists E d); cbn [negb]; [|by intros [= <-]].
  destruct (verify_sha _ _ _); cbn [negb]; [|by intros [= <-]].
  destruct (truthy _) as [sub|]; [|by intros [= <-]].
  unfold install_verified. cbv zeta.
  destruct (check_component_installed _ _ _ _ _ _ _); cbn [negb];
    [|by intros [= <-]].
  unfold install_fresh.
  destruct (truthy _) as [version|]; [|by intros [= <-]].
  destruct (force_remove _ _ _ _ _ _) as [track st0] eqn:Hfr.
  apply force_remove_fs in Hfr as [Hnf Hfs0].
  destruct (install_component_files _ _ _ _ _ _) as [ok st1] eqn:Hic.
  apply install_component_files_spec in Hic as (_ & _ & _ & Hrf).
  destruct ok; cbn [negb].
  - intros H. by apply install_tail_true in H.
  - destruct (repo_files _ _ _ _); [by destruct Hrf|]. destruct Hrf as [_ Hfs1].
    unfold finish. intros [= <-]. cbn in *. rewrite Hfs1. split.
    + intros Hf. by destruct (Hnf Hf) as [_ ->].
    + destruct Hfs0 as [->|[_ ->]]; [done|]. apply delete_subseteq.
Qed.

(** ** The exceptions *)

Lemma scan_raise d st e st' :
  get_modules_subworkflows_to_install d st = Raise e st' -> missing_main e st'.
Proof.
  unfold get_modules_subworkflows_to_install. cbn [fs emit].
  destruct (fs st !! d) as [[[lines|] cfg]|] eqn:Hfs; intros [= <- <-];
    exists d; cbn; by rewrite Hfs, last_snoc.
Qed.

Lemma install_modules_returns d mods st parent :
  path_last_part d = Some parent ->
  exists st',
    install_modules E self d mods st = Ret tt st' /\
    self_installed_by st' = self_installed_by st /\
    history st' = history st ++ module_events self d mods.
Proof.
  intros Hp.
  assert (H : exists st', install_modules E self d mods st = Ret tt st').
  { revert st. induction mods as [|m mods IH]; intros st; cbn [install_modules];
      [by eexists|].
    rewrite Hp.
    destruct (module_install E _ m (fs _) (modules_json _)) as [[ok dk] l].
    apply IH. }
  destruct H as [st' H]. exists st'. split; [done|].
  by apply (install_modules_spec E self d mods st st').
Qed.

Lemma install_subworkflows_raise_from rec d subs st e st' :
  is_Some (path_last_part d) -> raises_for_missing_main rec ->
  install_subworkflows rec d subs st = Raise e st' -> missing_main e st'.
Proof.
  intros [parent Hp] Hrec. revert st.
  induction subs as [|s subs IH]; intros st; cbn [install_subworkflows];
    [done|].
  rewrite Hp. destruct (rec s true _) as [r st1|e1 st1|] eqn:Hr; [| |done].
  - apply IH.
  - intros [= <- <-]. by apply Hrec in Hr.
Qed.

Lemma included_raise_missing rec d st e st' :
  is_Some (path_last_part d) -> raises_for_missing_main rec ->
  install_included_components_with E self rec d st = Raise e st' ->
  missing_main e st'.
Proof.
  intros Hp Hrec. unfold install_included_components_with.
  destruct (get_modules_subworkflows_to_install d st)
    as [[mods subs] st1|e1 st1|] eqn:Hscan; [| |done].
  2:{ intros [= <- <-]. by apply scan_raise in Hscan. }
  destruct (install_subworkflows rec d subs st1) as [[] st2|e2 st2|] eqn:Hs;
    [| |done].
  - destruct Hp as [parent Hp].
    destruct (install_modules_returns d mods st2 parent Hp) as (st3 & -> & _).
    done.
  - intros [= <- <-]. by apply install_subworkflows_raise_from in Hs.
Qed.

Lemma install_body_raise_missing rec :
  raises_for_missing_main rec ->
  raises_for_missing_main (install_body E self rec).
Proof.
  intros Hrec req silent st e st' H.
  destruct (install_body_cases E self rec req silent st)
    as [(st1 & Heq & _)|(d & sub & Hver)]; [by rewrite Heq in H|].
  rewrite (install_body_verified E self _ _ _ _ _ _ Hver) in H.
  destruct (may_proceed E self d sub st); [|done].
  unfold install_fresh in H. destruct (truthy _) as [version|]; [|done].
  destruct (force_remove _ _ _ _ _ _) as [track st0].
  destruct (install_component_files _ _ _ _ _ _) as [[] st1]; cbn [negb] in H;
    [|done].
  unfold install_tail in H.
  destruct (install_included_components_with _ _ _ _ _)
    as [[] st2|e2 st2|] eqn:Hd; [done| |done].
  injection H as <- <-.
  apply included_raise_missing in Hd; [done| |done].
  apply component_dir_has_name.
Qed.

(** ** Dependencies the registry does not know *)

Lemma install_body_unknown rec req silent st d :
  dir self = Some d -> os_path_exists E d = true ->
  verify_sha E (prompt self) (sha self) = true ->
  truthy (collect_and_verify_name E (component_type self) req (repo self))
    = None ->
  install_body E self rec req silent st
  = Ret false
      (emit (EvReturn req false)
         (emit (EvVerifyName req)
            (emit EvVerifySha
               (set_modules_json (healed E st)
                  (emit EvCheckUpToDate
                     (emit (EvInstall req silent (self_installed_by st))
                        st)))))).
Proof.
  intros Hd Hex Hsha Hname. unfold install_body, has_valid_directory.
  rewrite Hd, Hex. cbn [negb]. rewrite Hsha. cbn [negb]. by rewrite Hname.
Qed.

Lemma install_subworkflows_unknown fuel d parent dd subs st :
  dir self = Some dd -> os_path_exists E dd = true ->
  verify_sha E (prompt self) (sha self) = true ->
  path_last_part d = Some parent ->
  Forall (fun s =>
            truthy (collect_and_verify_name E (component_type self) s
                      (repo self)) = None) subs ->
  exists st' tl,
    install_subworkflows (install E self (S fuel)) d subs st = Ret tt st' /\
    fs st' = fs st /\ self_installed_by st' = self_installed_by st /\
    history st' = history st ++ tl /\
    Forall (fun s => EvReturn s false ∈ tl) subs.
Proof.
  intros Hd Hex Hsha Hp Hsubs. revert st.
  induction Hsubs as [|s subs Hs _ IH]; intros st; cbn [install_subworkflows].
  - exists st, []. rewrite app_nil_r. by repeat split.
  - rewrite Hp. cbn [install].
    rewrite (install_body_unknown _ _ _ _ dd Hd Hex Hsha Hs).
    edestruct IH as (st' & tl & -> & Hfs & Hby & Hh & Hall).
    eexists st', _. split; [reflexivity|]. cbn in Hfs, Hby, Hh.
    split; [done|]. split; [done|].
    split; [rewrite Hh, <- !app_assoc; cbn; reflexivity|].
    constructor.
    + rewrite !elem_of_cons. auto 10.
    + eapply Forall_impl; [exact Hall|]. cbn. intros x Hx.
      rewrite !elem_of_cons. auto 10.
Qed.

(** ** The entry of a call that returned [True] *)

Lemma install_true_entry fuel req silent st st' d sub :
  verified E self req d sub ->
  install E self fuel req silent st = Ret true st' ->
  exists version e,
    target E self sub st = Some version /\
    modules_json st' !! (component_type self, sub) = Some e /\
    git_sha e = version /\
    self_installed_by st ∈ installed_by e /\
    self_installed_by st' = self_installed_by st.
Proof.
  intros Hver H.
  pose proof (install_well_behaved E self fuel _ _ _ _ _ H) as [Hby _].
  destruct (install_true_inv E self _ _ _ _ _ _ _ Hver H)
    as (fuel' & -> & Hp & Hc).
  destruct Hc as (version & f & pre & st1 & st2 & post & Hv & _ & _ & _ & _
                  & _ & _ & _ & _ & _ & _ & _ & _ & _ & _ & Hl).
  cbn in Hl. eexists version, _. split; [exact Hv|].
  split; [rewrite Hl; unfold update_entry; by rewrite lookup_insert_eq|].
  cbn. split; [done|]. split; [set_solver|done].
Qed.

End CallOutcomes.

(** X8: without a pipeline directory (none given, or one that does not
    exist) [install] logs one error and returns [False]; the disk,
    [modules.json] and [installed_by] are as before, and [modules.json]
    has not even been checked. *)
Theorem invalid_directory_touches_nothing E self fuel req silent st :
  (forall d, dir self = Some d -> os_path_exists E d = false) ->
  exists st' msg,
    install E self (S fuel) req silent st = Ret false st' /\
    fs st' = fs st /\ modules_json st' = modules_json st /\
    self_installed_by st' = self_installed_by st /\
    history st' =
      history st ++
        [EvInstall req silent (self_installed_by st); EvLog Error msg;
         EvReturn req false].
Proof.
  intros H. cbn [install]. unfold install_body, has_valid_directory.
  destruct (dir self) as [d|] eqn:Hd.
  - rewrite (H d eq_refl). cbn [negb]. eexists _, _.
    split; [reflexivity|]. cbn. by rewrite <- !app_assoc.
  - eexists _, _. split; [reflexivity|]. cbn. by rewrite <- !app_assoc.
Qed.

Lemma invalid_directory_touches_nothing_witness :
  exists st' msg,
    install healthy (init (Some "/elsewhere") true false None nf_core None).1 1
      "bam_sort_stats_samtools" false sort_installed = Ret false st' /\
    fs st' = fs sort_installed /\
    modules_json st' = modules_json sort_installed /\
    self_installed_by st' = self_installed_by sort_installed /\
    history st' =
      history sort_installed ++
        [EvInstall "bam_sort_stats_samtools" false
           (self_installed_by sort_installed);
         EvLog Error msg; EvReturn "bam_sort_stats_samtools" false].
Proof.
  refine (invalid_directory_touches_nothing healthy
            (init (Some "/elsewhere") true false None nf_core None).1 0
            "bam_sort_stats_samtools" false sort_installed _).
  intros d [= <-]. reflexivity.
Defined.

(** X9: a request whose revision is refused or whose name is not
    verified returns [False] with the disk as before, but after the
    consistency check of [modules.json], whose outcome is kept; a refused
    revision ends the call before the name is looked at. *)
Theorem rejected_request_only_heals E self fuel req silent st d :
  dir self = Some d -> os_path_exists E d = true ->
  verify_sha E (prompt self) (sha self) = false \/
  truthy (collect_and_verify_name E (component_type self) req (repo self))
    = None ->
  exists st',
    install E self (S fuel) req silent st = Ret false st' /\
    fs st' = fs st /\ modules_json st' = healed E st /\
    self_installed_by st' = self_installed_by st /\
    history st' =
      history st ++
        [EvInstall req silent (self_installed_by st); EvCheckUpToDate;
         EvVerifySha]
        ++ (if verify_sha E (prompt self) (sha self)
            then [EvVerifyName req] else [])
        ++ [EvReturn req false].
Proof.
  intros Hd Hex H. cbn [install]. unfold install_body, has_valid_directory.
  rewrite Hd, Hex. cbn [negb].
  destruct (verify_sha E (prompt self) (sha self)) eqn:Hsha; cbn [negb].
  - destruct H as [H|H]; [done|]. rewrite H. eexists.
    split; [reflexivity|]. cbn. by rewrite <- !app_assoc.
  - eexists. split; [reflexivity|]. cbn. by rewrite <- !app_assoc.
Qed.

Lemma rejected_request_only_heals_witness :
  exists st',
    install healthy plain 1 "ghost" false sort_installed = Ret false st' /\
    fs st' = fs sort_installed /\
    modules_json st' = healed healthy sort_installed /\
    self_installed_by st' = self_installed_by sort_installed /\
    history st' =
      history sort_installed ++
        [EvInstall "ghost" false (self_installed_by sort_installed);
         EvCheckUpToDate; EvVerifySha]
        ++ (if verify_sha healthy (prompt plain) (sha plain)
            then [EvVerifyName "ghost"] else [])
        ++ [EvReturn "ghost" false].
Proof.
  refine (rejected_request_only_heals healthy plain 0 "ghost" false
            sort_installed "/pipe" _ _ _).
  - reflexivity.
  - reflexivity.
  - right. reflexivity.
Defined.

(** X10: when no target version can be resolved the call returns
    [False] right after the resolution: nothing is removed, also under
    [force], nothing is downloaded, and [modules.json] is as the
    consistency check left it. *)
Theorem unresolved_version_removes_nothing E self fuel req silent st d sub :
  verified E self req d sub ->
  may_proceed E self d sub st = true ->
  target E self sub st = None ->
  exists st',
    install E self (S fuel) req silent st = Ret false st' /\
    fs st' = fs st /\ modules_json st' = healed E st /\
    self_installed_by st' = self_installed_by st /\
    history st' =
      history st ++
        [EvInstall req silent (self_installed_by st); EvCheckUpToDate;
         EvVerifySha; EvVerifyName req; EvCurrentVersion sub;
         EvPresenceCheck sub true; EvResolveVersion sub; EvReturn req false].
Proof.
  intros Hver Hp Ht. unfold target in Ht. cbn [install].
  rewrite (install_body_verified E self _ _ _ _ _ _ Hver), Hp.
  unfold install_fresh. rewrite Ht. eexists. split; [reflexivity|].
  cbn. by rewrite <- !app_assoc.
Qed.

Lemma unresolved_version_removes_nothing_witness :
  exists st',
    install healthy (installer_of true (Some "") None).1 1
      "bam_sort_stats_samtools" false sort_installed = Ret false st' /\
    fs st' = fs sort_installed /\
    modules_json st' = healed healthy sort_installed /\
    self_installed_by st' = self_installed_by sort_installed /\
    history st' =
      history sort_installed ++
        [EvInstall "bam_sort_stats_samtools" false
           (self_installed_by sort_installed);
         EvCheckUpToDate; EvVerifySha; EvVerifyName "bam_sort_stats_samtools";
         EvCurrentVersion "bam_sort_stats_samtools";
         EvPresenceCheck "bam_sort_stats_samtools" true;
         EvResolveVersion "bam_sort_stats_samtools";
         EvReturn "bam_sort_stats_samtools" false].
Proof.
  refine (unresolved_version_removes_nothing healthy
            (installer_of true (Some "") None).1 0 "bam_sort_stats_samtools"
            false sort_installed "/pipe" "bam_sort_stats_samtools" _ _ _).
  - repeat split; reflexivity.
  - vm_compute. reflexivity.
  - reflexivity.
Defined.

(** X11: a call that returns [False] has added nothing to the disk, and
    without [force] the disk is exactly as before. *)
Theorem failure_keeps_the_disk E self fuel req silent st st' :
  install E self fuel req silent st = Ret false st' ->
  fs st' ⊆ fs st /\ (force self = false -> fs st' = fs st).
Proof.
  destruct fuel as [|fuel]; [done|]. cbn [install]. intros H.
  apply install_body_false_fs in H as [? ?]. done.
Qed.

Lemma failure_keeps_the_disk_witness :
  fs (final sort_installed
        (install healthy (installer_of false (Some "unreachable") None).1 1
           "bam_stats_samtools" false sort_installed))
  = fs sort_installed.
Proof.
  refine (proj2 (failure_keeps_the_disk healthy
                   (installer_of false (Some "unreachable") None).1 1
                   "bam_stats_samtools" false sort_installed _ _) eq_refl).
  vm_compute. reflexivity.
Defined.

(** X12: a call that returns [True] leaves an entry for the component in
    [modules.json], at the version it resolved and with the caller's
    [installed_by] among the referrers, and [installed_by] is as
    before. *)
Theorem success_records_the_component E self fuel req silent st st' d sub :
  verified E self req d sub ->
  install E self fuel req silent st = Ret true st' ->
  exists version e,
    target E self sub st = Some version /\
    modules_json st' !! (component_type self, sub) = Some e /\
    git_sha e = version /\
    self_installed_by st ∈ installed_by e /\
    self_installed_by st' = self_installed_by st.
Proof.
  intros Hver H.
  destruct (install_true_entry E self _ _ _ _ _ _ _ Hver H)
    as (version & e & Ht & He & Hsha & Hin & Hby).
  by exists version, e.
Qed.

Lemma success_records_the_component_witness :
  exists version e,
    target healthy plain "bam_sort_stats_samtools" (start "A" ∅ ∅)
      = Some version /\
    modules_json
      (final (start "A" ∅ ∅)
         (install healthy plain 2 "bam_sort_stats_samtools" false
            (start "A" ∅ ∅)))
      !! (component_type plain, "bam_sort_stats_samtools") = Some e /\
    git_sha e = version /\
    self_installed_by (start "A" ∅ ∅) ∈ installed_by e /\
    self_installed_by
      (final (start "A" ∅ ∅)
         (install healthy plain 2 "bam_sort_stats_samtools" false
            (start "A" ∅ ∅)))
    = self_installed_by (start "A" ∅ ∅).
Proof.
  refine (success_records_the_component healthy plain 2
            "bam_sort_stats_samtools" false (start "A" ∅ ∅) _ "/pipe"
            "bam_sort_stats_samtools" _ _).
  - repeat split; reflexivity.
  - vm_compute. reflexivity.
Defined.

(** X13: a call of [install] ends in one of three ways. It returns; or
    its recursion is deeper than allowed, which Python ends with a
    [RecursionError]; or it raises the [FileNotFoundError] of a component
    directory without [main.nf]. In the last case the file named is
    [Path(directory, "main.nf")] as a string, the directory is the one
    scanned last and has no [main.nf], and nothing was done after the
    scan. The index into the parts of the directory never fails inside
    [install], because the directory of a component always has a last
    part. *)
Theorem install_raises_only_for_missing_main E self fuel req silent st :
  (exists r st', install E self fuel req silent st = Ret r st') \/
  install E self fuel req silent st = OutOfFuel \/
  (exists p st',
     install E self fuel req silent st
     = Raise (FileNotFoundError (path_join_str p "main.nf")) st' /\
     (fs st' !! p ≫= main_nf) = None /\
     last (history st') = Some (EvScan p)).
Proof.
  assert (H : raises_for_missing_main (install E self fuel)).
  { induction fuel as [|fuel IH]; [done|]. cbn [install].
    by apply install_body_raise_missing. }
  destruct (install E self fuel req silent st) as [r st'|e st'|] eqn:Hrun.
  - left. by exists r, st'.
  - right. right. destruct (H _ _ _ _ _ Hrun) as (p & -> & Hfs & Hlast).
    by exists p, st'.
  - right. by left.
Qed.

(** The three ways, each on a request of the scenario; the file named in
    the exception has lost the dot the pipeline directory starts with. *)
Example install_ends_in_three_ways :
  (exists st',
     install healthy plain 2 "bam_sort_stats_samtools" false empty_pipeline
     = Ret true st') /\
  install looping forced 50 "ouroboros" false empty_pipeline = OutOfFuel /\
  (exists st',
     install healthy plain 3 "needs_no_main" false empty_pipeline
     = Raise (FileNotFoundError "/pipe/subworkflows/nf-core/no_main/main.nf")
         st') /\
  path_join_str "./subworkflows/nf-core/no_main" "main.nf"
  = "subworkflows/nf-core/no_main/main.nf".
Proof.
  split; [eexists; vm_compute; reflexivity|].
  split; [vm_compute; reflexivity|].
  split; [eexists; vm_compute; reflexivity|]. reflexivity.
Qed.

(** X14: once the files of the component are downloaded the call cannot
    return [False] any more: whatever the installs of its dependencies
    return is dropped. *)
Theorem downloaded_means_true E self fuel req silent st d sub version f r st' :
  verified E self req d sub ->
  may_proceed E self d sub st = true ->
  target E self sub st = Some version ->
  repo_files E (repo self) sub version = Some f ->
  install E self fuel req silent st = Ret r st' ->
  r = true.
Proof.
  intros Hver Hp Ht Hrf. destruct fuel as [|fuel]; [done|]. cbn [install].
  rewrite (install_body_verified E self _ _ _ _ _ _ Hver), Hp.
  by apply install_fresh_downloaded with version f.
Qed.

Lemma downloaded_means_true_witness :
  exists st',
    install haunted plain 2 "needs_ghost" false empty_pipeline = Ret true st'
    /\ EvReturn "ghost" false ∈ history st'.
Proof.
  eexists. split.
  - assert (H : exists r, install haunted plain 2 "needs_ghost" false
                           empty_pipeline
                         = Ret r (final empty_pipeline
                                    (install haunted plain 2 "needs_ghost"
                                       false empty_pipeline))).
    { eexists. vm_compute. reflexivity. }
    destruct H as [r H]. rewrite H. f_equal.
    refine (downloaded_means_true haunted plain 2 "needs_ghost" false
              empty_pipeline "/pipe" "needs_ghost" "v2"
              (Files (Some needs_ghost_main) false) r _ _ _ _ _ H).
    + repeat split; reflexivity.
    + vm_compute. reflexivity.
    + reflexivity.
    + reflexivity.
  - vm_compute.
    repeat first [apply list_elem_of_here | apply list_elem_of_further].
Defined.

(** X15: dependencies whose names the registry does not verify are
    skipped: each of their installs returns [False], and the component
    that includes them is installed and returns [True] all the same. *)
Theorem unknown_dependencies_are_skipped
    E self fuel req silent st d sub version lines cfg :
  verified E self req d sub ->
  may_proceed E self d sub st = true ->
  target E self sub st = Some version ->
  repo_files E (repo self) sub version = Some (Files (Some lines) cfg) ->
  Forall (fun s =>
            truthy (collect_and_verify_name E (component_type self) s
                      (repo self)) = None) (scan_lines lines).2 ->
  exists st',
    install E self (S (S fuel)) req silent st = Ret true st' /\
    Forall (fun s => EvReturn s false ∈ history st') (scan_lines lines).2.
Proof.
  intros Hver Hp Ht Hrf Hsubs. unfold target in Ht.
  pose proof Hver as (Hd & Hex & Hsha & _).
  destruct (component_dir_has_name d (repo_path (repo self)) sub)
    as [parent Hparent].
  change (install E self (S (S fuel)))
    with (install_body E self (install E self (S fuel))).
  rewrite (install_body_verified E self _ _ _ _ _ _ Hver), Hp.
  unfold install_fresh. rewrite Ht.
  destruct (force_remove _ _ _ _ _ _) as [track st0].
  unfold install_component_files. rewrite Hrf. cbn [negb].
  unfold install_tail, install_included_components_with,
    get_modules_subworkflows_to_install, log.
  cbn [fs emit set_fs]. rewrite lookup_insert_eq.
  destruct (scan_lines lines) as [mods subs]. cbn [snd] in Hsubs |- *.
  edestruct (install_subworkflows_unknown E self fuel
               (os_path_join (folder_of self d) sub) parent d subs)
    as (st2 & tl2 & -> & _ & _ & Hh2 & Hall); [done..|].
  edestruct (install_modules_returns E self
               (os_path_join (folder_of self d) sub) mods st2 parent)
    as (st3 & -> & _ & Hh3); [done|].
  eexists. split; [reflexivity|].
  eapply Forall_impl; [exact Hall|]. cbn beta. intros s Hs.
  assert (Hin : EvReturn s false ∈ history st3).
  { rewrite Hh3, Hh2, !elem_of_app. auto. }
  destruct silent; cbn [negb].
  - cbn. rewrite !elem_of_app. auto.
  - destruct (print_include_statement_spec E sub (folder_of self d) st3)
      as (_ & _ & _ & msg & rest & Hh & _).
    cbn. rewrite Hh, !elem_of_app. auto.
Qed.

Lemma unknown_dependencies_are_skipped_witness :
  exists st',
    install haunted plain 2 "needs_ghost" false empty_pipeline = Ret true st' /\
    Forall (fun s => EvReturn s false ∈ history st')
      (scan_lines needs_ghost_main).2.
Proof.
  refine (unknown_dependencies_are_skipped haunted plain 0 "needs_ghost" false
            empty_pipeline "/pipe" "needs_ghost" "v2" needs_ghost_main false
            _ _ _ _ _).
  - repeat split; reflexivity.
  - vm_compute. reflexivity.
  - reflexivity.
  - reflexivity.
  - vm_compute. repeat constructor.
Defined.

(** X16: the install of a component that includes nothing, without
    [force]: the call returns [True], the files are on disk, the entry is
    written for the caller at the resolved version, and the history is
    the checks, the two log lines, the download, the scan, the include
    statement (with the one for the configuration file when the component
    ships one) unless the call is silent, and the update. The include
    statement names the component in upper case: for a name that is
    ASCII text the letters from a to z are mapped, and for any other
    name the mapping is the one of Unicode. *)
Theorem leaf_install E self fuel req silent st d sub version lines cfg :
  verified E self req d sub ->
  force self = false ->
  may_proceed E self d sub st = true ->
  target E self sub st = Some version ->
  repo_files E (repo self) sub version = Some (Files (Some lines) cfg) ->
  scan_lines lines = ([], []) ->
  let component_dir := os_path_join (folder_of self d) sub in
  exists st',
    install E self (S fuel) req silent st = Ret true st' /\
    self_installed_by st' = self_installed_by st /\
    fs st' = <[component_dir := Files (Some lines) cfg]> (fs st) /\
    modules_json st' =
      update_entry (component_type self) sub version (self_installed_by st)
        None (healed E st) /\
    history st' =
      history st ++
        [EvInstall req silent (self_installed_by st); EvCheckUpToDate;
         EvVerifySha; EvVerifyName req; EvCurrentVersion sub;
         EvPresenceCheck sub true; EvResolveVersion sub;
         EvLog Info ("Installing '" +:+ sub +:+ "'");
         EvLog Debug ("Installing subworkflow '" +:+ sub +:+ "' at hash "
                      +:+ version +:+ " from " +:+ remote_url (repo self));
         EvInstallFiles sub version true; EvScan component_dir]
        ++ (if silent then []
            else EvLog Info ("Include statement: include { "
                             +:+ str_upper E sub
                             +:+ " } from '." +:+ component_dir +:+ "/main'")
                 :: (if cfg
                     then [EvLog Info
                             ("Subworkflow config include statement: includeConfig '"
                              +:+ os_path_join component_dir "nextflow.config"
                              +:+ "'")]
                     else []))
        ++ [EvUpdateSubworkflow sub version (self_installed_by st) None;
            EvReturn req true].
Proof.
  intros Hver Hf Hp Ht Hrf Hscan component_dir. unfold target in Ht.
  cbn [install]. rewrite (install_body_verified E self _ _ _ _ _ _ Hver), Hp.
  unfold install_fresh. rewrite Ht.
  unfold force_remove. rewrite Hf. cbn [andb].
  unfold install_component_files. rewrite Hrf. cbn [negb].
  unfold install_tail, install_included_components_with,
    get_modules_subworkflows_to_install, log.
  cbn [fs emit set_fs]. fold component_dir. rewrite lookup_insert_eq, Hscan.
  cbn [install_subworkflows install_modules].
  unfold print_include_statement, log. cbn [fs emit set_fs]. 
  fold component_dir. rewrite lookup_insert_eq.
  eexists. split; [reflexivity|].
  destruct silent, cfg; cbn; rewrite <- ?app_assoc; cbn; done.
Qed.

Lemma leaf_install_witness :
  exists st',
    install healthy plain 1 "bam_sort_stats_samtools" false (start "A" ∅ ∅)
      = Ret true st' /\
    self_installed_by st' = "A" /\
    fs st' =
      <[sort_dir := Files (Some ["workflow BAM_SORT_STATS_SAMTOOLS { }"]) false]>
        ∅ /\
    modules_json st' =
      update_entry "subworkflows" "bam_sort_stats_samtools" "v2" "A" None
        (healed healthy (start "A" ∅ ∅)) /\
    history st' =
      [EvInstall "bam_sort_stats_samtools" false "A"; EvCheckUpToDate;
       EvVerifySha; EvVerifyName "bam_sort_stats_samtools";
       EvCurrentVersion "bam_sort_stats_samtools";
       EvPresenceCheck "bam_sort_stats_samtools" true;
       EvResolveVersion "bam_sort_stats_samtools";
       EvLog Info "Installing 'bam_sort_stats_samtools'";
       EvLog Debug "Installing subworkflow 'bam_sort_stats_samtools' at hash v2 from https://github.com/nf-core/modules.git";
       EvInstallFiles "bam_sort_stats_samtools" "v2" true; EvScan sort_dir;
       EvLog Info "Include statement: include { BAM_SORT_STATS_SAMTOOLS } from './pipe/subworkflows/nf-core/bam_sort_stats_samtools/main'";
       EvUpdateSubworkflow "bam_sort_stats_samtools" "v2" "A" None;
       EvReturn "bam_sort_stats_samtools" true].
Proof.
  refine (leaf_install healthy plain 0 "bam_sort_stats_samtools" false
            (start "A" ∅ ∅) "/pipe" "bam_sort_stats_samtools" "v2"
            ["workflow BAM_SORT_STATS_SAMTOOLS { }"] false _ _ _ _ _ _).
  - repeat split; reflexivity.
  - reflexivity.
  - vm_compute. reflexivity.
  - reflexivity.
  - reflexivity.
  - vm_compute. reflexivity.
Defined.

(** X17: called on a directory that has no path parts (the empty path,
    a single dot), [install_included_components] returns when [main.nf]
    includes nothing, and raises [IndexError] before it installs anything
    when [main.nf] includes something. *)
Theorem directory_without_parts E self fuel d st lines cfg :
  path_last_part d = None ->
  fs st !! d = Some (Files (Some lines) cfg) ->
  install_included_components E self fuel d st =
    match scan_lines lines with
    | ([], []) => Ret tt (emit (EvScan d) st)
    | _ => Raise IndexError (emit (EvScan d) st)
    end.
Proof.
  intros Hp Hfs.
  unfold install_included_components, install_included_components_with,
    get_modules_subworkflows_to_install.
  cbn [fs emit]. rewrite Hfs.
  destruct (scan_lines lines) as [[|m mods] [|s subs]];
    cbn [install_subworkflows install_modules]; rewrite ?Hp; done.
Qed.

Lemma directory_without_parts_witness :
  install_included_components healthy plain 2 "." here_on_disk
  = Raise IndexError (emit (EvScan ".") here_on_disk).
Proof.
  refine (directory_without_parts healthy plain 2 "." here_on_disk
            ["include { BAR } from '../bar/main'"] false _ _).
  - reflexivity.
  - vm_compute. reflexivity.
Defined.

(** X18: when the downloaded component has no [main.nf], [install]
    raises [FileNotFoundError] after the download, for the file
    [Path(component_dir, "main.nf")] as a string (the normalised path):
    the files are on disk, and no entry has been written for the
    component (under [force] the old one has been removed). *)
Theorem download_without_main_nf E self fuel req silent st d sub version cfg :
  verified E self req d sub ->
  may_proceed E self d sub st = true ->
  target E self sub st = Some version ->
  repo_files E (repo self) sub version = Some (Files None cfg) ->
  let component_dir := os_path_join (folder_of self d) sub in
  exists st' tl,
    install E self (S fuel) req silent st
    = Raise (FileNotFoundError (path_join_str component_dir "main.nf")) st' /\
    fs st' !! component_dir = Some (Files None cfg) /\
    modules_json st' =
      (if force self
       then delete (component_type self, sub) (healed E st)
       else healed E st) /\
    history st' = history st ++ tl /\ idle tl.
Proof.
  intros Hver Hp Ht Hrf component_dir. subst component_dir.
  unfold target in Ht. cbn [install].
  rewrite (install_body_verified E self _ _ _ _ _ _ Hver), Hp.
  unfold install_fresh. rewrite Ht.
  destruct (force_remove _ _ _ _ _ _) as [track st0] eqn:Hfr.
  apply force_remove_spec in Hfr
    as (_ & (ev0 & Hh0 & _ & _ & Hi0) & _ & Hl0).
  unfold install_component_files. rewrite Hrf. cbn [negb].
  unfold install_tail, install_included_components_with,
    get_modules_subworkflows_to_install, log.
  cbn [fs emit set_fs]. rewrite lookup_insert_eq.
  eexists _, _. split; [reflexivity|].
  unfold presence_checked in Hl0.
  cbn [fs modules_json history emit set_fs set_modules_json] in Hl0 |- *.
  split; [by rewrite lookup_insert_eq|]. split; [exact Hl0|].
  rewrite Hh0. cbn [history emit]. rewrite history_presence_checked.
  rewrite <- !app_assoc. split; [reflexivity|].
  unfold idle in *. cbn.
  repeat (apply Forall_cons; split; [done|]).
  apply Forall_app. split; [done|]. by repeat constructor.
Qed.

Lemma download_without_main_nf_witness :
  exists st' tl,
    install in_cwd plain_in_cwd 1 "no_main" false empty_pipeline
    = Raise (FileNotFoundError "subworkflows/nf-core/no_main/main.nf") st' /\
    fs st' !! "./subworkflows/nf-core/no_main" = Some (Files None false) /\
    modules_json st' = healed in_cwd empty_pipeline /\
    history st' = history empty_pipeline ++ tl /\ idle tl.
Proof.
  refine (download_without_main_nf in_cwd plain_in_cwd 0 "no_main" false
            empty_pipeline "." "no_main" "v2" false _ _ _ _).
  - repeat split; reflexivity.
  - vm_compute. reflexivity.
  - reflexivity.
  - reflexivity.
Defined.

(** X19: [clear_subworkflow_dir] removes nothing and returns nothing:
    the module never imports [shutil], so the first statement of its
    [try] raises [NameError], which the handler for [OSError] does not
    catch. *)
Theorem clear_subworkflow_dir_is_unbound E subworkflow_name subworkflow_dir st :
  clear_subworkflow_dir E subworkflow_name subworkflow_dir st
  = (inl (NameError "shutil"), st).
Proof.
  assert (H : load_global "shutil" = inl (NameError "shutil")).
  { unfold load_global. rewrite bool_decide_eq_false_2; [done|].
    unfold module_globals. rewrite !elem_of_cons, elem_of_nil. intros H.
    repeat (destruct H as [H|H]; [discriminate H|]). done. }
  unfold clear_subworkflow_dir. by rewrite H.
Qed.

(** X20: asking again for a component that has just been installed is a
    no-op: as long as the files are still there and the consistency
    check finds nothing to change, the second call, without [force] and
    for the same caller, returns [False] and leaves the disk and
    [modules.json] as the first call left them. *)
Theorem second_request_is_a_no_op
    E self fuel fuel' req silent silent' st st1 d sub :
  constructed self ->
  verified E self req d sub ->
  force self = false ->
  install E self fuel req silent st = Ret true st1 ->
  healed E st1 = modules_json st1 ->
  is_Some (fs st1 !! os_path_join (folder_of self d) sub) ->
  exists st2,
    install E self (S fuel') req silent' st1 = Ret false st2 /\
    fs st2 = fs st1 /\ modules_json st2 = modules_json st1 /\
    self_installed_by st2 = self_installed_by st1.
Proof.
  intros Hct Hver Hf H Hstable Hfs.
  destruct (install_true_entry E self _ _ _ _ _ _ _ Hver H)
    as (version & e & _ & He & _ & Hin & Hby).
  rewrite <- Hstable, Hct in He.
  destruct (may_proceed_installed E self d sub st1 e Hf He Hfs) as [Hp Hrec].
  cbn [install]. rewrite (install_body_verified E self _ _ _ _ _ _ Hver), Hp.
  destruct (already_installed_spec self req sub (recorded E sub st1)
              (presence_checked E req silent' sub false st1))
    as (st2 & Heq & Hby2 & Hfs2 & Hl & _).
  exists st2. split; [done|]. split; [done|]. split; [|done].
  rewrite Hl, Hrec. cbn. unfold update_entry, referrers.
  rewrite Hct, He, <- Hstable. cbn.
  rewrite <- (insert_id (healed E st1) _ _ He) at 2. f_equal.
  destruct e as [v refs]. cbn in Hin |- *. f_equal. rewrite Hby.
  clear -Hin. set_solver.
Qed.

Lemma second_request_is_a_no_op_witness :
  exists st2,
    install healthy plain 1 "bam_sort_stats_samtools" true
      (final (start "A" ∅ ∅)
         (install healthy plain 2 "bam_sort_stats_samtools" false
            (start "A" ∅ ∅)))
    = Ret false st2 /\
    fs st2 =
      fs (final (start "A" ∅ ∅)
            (install healthy plain 2 "bam_sort_stats_samtools" false
               (start "A" ∅ ∅))) /\
    modules_json st2 =
      modules_json
        (final (start "A" ∅ ∅)
           (install healthy plain 2 "bam_sort_stats_samtools" false
              (start "A" ∅ ∅))) /\
    self_installed_by st2 =
      self_installed_by
        (final (start "A" ∅ ∅)
           (install healthy plain 2 "bam_sort_stats_samtools" false
              (start "A" ∅ ∅))).
Proof.
  refine (second_request_is_a_no_op healthy plain 2 0
            "bam_sort_stats_samtools" false true (start "A" ∅ ∅) _ "/pipe"
            "bam_sort_stats_samtools" _ _ _ _ _ _).
  - reflexivity.
  - repeat split; reflexivity.
  - reflexivity.
  - vm_compute. reflexivity.
  - reflexivity.
  - eexists. vm_compute. reflexivity.
Defined.

(** ** The depth of the recursion *)

Section Recursion.
Variable E : env.
Variable self : installer.

Lemma install_modules_ends d mods st :
  install_modules E self d mods st <> OutOfFuel.
Proof.
  revert st. induction mods as [|m mods IH]; intros st; cbn [install_modules];
    [done|].
  destruct (path_last_part d); [|done].
  destruct (module_install E _ m (fs _) (modules_json _)) as [[ok dk] l].
  apply IH.
Qed.

Lemma install_subworkflows_ends rec d subs st :
  (forall s st1, s ∈ subs -> rec s true st1 <> OutOfFuel) ->
  install_subworkflows rec d subs st <> OutOfFuel.
Proof.
  revert st. induction subs as [|s subs IH]; intros st Hrec;
    cbn [install_subworkflows]; [done|].
  destruct (path_last_part d); [|done].
  destruct (rec s true _) as [r st1|e st1|] eqn:Hr; [|done|].
  - apply IH. intros s' st' Hs'. apply Hrec. by right.
  - by apply Hrec in Hr; [|left].
Qed.

Lemma install_body_ends rec req silent st :
  (forall sub v lines cfg s st1,
     truthy (collect_and_verify_name E (component_type self) req (repo self))
       = Some sub ->
     repo_files E (repo self) sub v = Some (Files (Some lines) cfg) ->
     s ∈ (scan_lines lines).2 ->
     rec s true st1 <> OutOfFuel) ->
  install_body E self rec req silent st <> OutOfFuel.
Proof.
  intros Hrec.
  destruct (install_body_cases E self rec req silent st)
    as [(st1 & -> & _)|(d & sub & Hver)]; [done|].
  rewrite (install_body_verified E self _ _ _ _ _ _ Hver).
  destruct Hver as (_ & _ & _ & Hname).
  destruct (may_proceed E self d sub st); [|by unfold already_installed].
  unfold install_fresh, finish.
  destruct (truthy (get_version _ _ _ _ _ _ _)) as [version|]; [|done].
  destruct (force_remove _ _ _ _ _ _) as [track st0].
  unfold install_component_files.
  destruct (repo_files E (repo self) sub version) as [f|] eqn:Hrf;
    cbn [negb]; [|done].
  unfold install_tail, install_included_components_with,
    get_modules_subworkflows_to_install.
  cbn [fs emit set_fs]. rewrite lookup_insert_eq.
  destruct f as [[lines|] cfg]; [|done].
  pose proof (Hrec sub version lines cfg) as Hdeps.
  destruct (scan_lines lines) as [mods subs]. cbn [snd] in Hdeps.
  destruct (install_subworkflows rec _ subs _) as [[] st2|e2 st2|] eqn:Hs;
    [|done|].
  - pose proof (install_modules_ends
                  (os_path_join (folder_of self d) sub) mods st2) as Hm.
    unfold folder_of in Hm.
    by destruct (install_modules E self _ mods st2).
  - exfalso. revert Hs. apply install_subworkflows_ends.
    intros s st1 Hin. by apply Hdeps.
Qed.

End Recursion.

(** X21: when the includes between the subworkflows of the registry
    have no cycle (every subworkflow named in the [main.nf] of a
    component ranks below the component), [install] ends, by returning or
    by raising, within a recursion as deep as the rank of the request. *)
Theorem install_ends_on_acyclic_includes E self rank fuel req silent st :
  (forall req sub v lines cfg s,
     truthy (collect_and_verify_name E (component_type self) req (repo self))
       = Some sub ->
     repo_files E (repo self) sub v = Some (Files (Some lines) cfg) ->
     s ∈ (scan_lines lines).2 ->
     rank s < rank req) ->
  rank req < fuel ->
  exists st', ends_in (install E self fuel req silent st) st'.
Proof.
  intros Hrank Hfuel.
  enough (install E self fuel req silent st <> OutOfFuel) as H.
  { destruct (install E self fuel req silent st) as [r st'|e st'|];
      [exists st'; left; by exists r|exists st'; right; by exists e|done]. }
  revert req silent st Hfuel.
  induction fuel as [|fuel IH]; intros req silent st Hfuel; [lia|].
  cbn [install]. apply install_body_ends.
  intros sub v lines cfg s st1 Hname Hrf Hs. apply IH.
  pose proof (Hrank req sub v lines cfg s Hname Hrf Hs). lia.
Qed.

Lemma install_ends_on_acyclic_includes_witness :
  exists st',
    ends_in (install healthy plain 2 "bam_stats_samtools" false empty_pipeline)
      st'.
Proof.
  refine (install_ends_on_acyclic_includes healthy plain depth 2
            "bam_stats_samtools" false empty_pipeline _ _).
  - intros req sub v lines cfg s Hname Hrf Hs.
    assert (sub = req) as ->.
    { revert Hname. change (component_type plain) with "subworkflows".
      change (collect_and_verify_name healthy) with known_name.
      unfold known_name, truthy.
      destruct (String.eqb req "ghost"); [done|].
      destruct req; [done|]. by intros [= <-]. }
    revert Hrf. change (repo_files healthy) with registry. unfold registry.
    destruct (String.eqb v "unreachable"); [done|].
    repeat
      match goal with
      | |- context [String.eqb req ?n] =>
          destruct (String.eqb_spec req n) as [->|_];
          [intros [= <- <-];
           match type of Hs with
           | _ ∈ ?l => let x := eval vm_compute in l in change l with x in Hs
           end;
           rewrite ?elem_of_cons, ?elem_of_nil in Hs;
           repeat (destruct Hs as [Hs|Hs]); try done; subst s;
           vm_compute; lia
          |]
      end.
    all: done.
  - vm_compute. lia.
Defined.

(** X22: under [force], a component whose [main.nf] names the component
    itself as its first subworkflow makes [install] call itself without
    end: whatever depth of recursion is allowed, the call uses it up and
    returns nothing (Python ends it with a [RecursionError]). *)
Theorem forced_self_include_never_returns E self fuel req silent st d sub :
  verified E self req d sub ->
  force self = true ->
  (forall cv, exists version lines cfg rest,
     truthy (get_version E sub (component_type self) (sha self) (prompt self)
               cv (repo self)) = Some version /\
     repo_files E (repo self) sub version = Some (Files (Some lines) cfg) /\
     (scan_lines lines).2 = req :: rest) ->
  install E self fuel req silent st = OutOfFuel.
Proof.
  intros Hver Hf Hloop. revert silent st.
  induction fuel as [|fuel IH]; intros silent st; [done|].
  cbn [install]. rewrite (install_body_verified E self _ _ _ _ _ _ Hver).
  assert (Hp : may_proceed E self d sub st = true).
  { unfold may_proceed. rewrite Hf. apply check_forced. }
  rewrite Hp. unfold install_fresh.
  destruct (Hloop (recorded E sub st))
    as (version & lines & cfg & rest & -> & Hrf & Hs).
  destruct (force_remove _ _ _ _ _ _) as [track st0].
  unfold install_component_files. rewrite Hrf. cbn [negb].
  unfold install_tail, install_included_components_with,
    get_modules_subworkflows_to_install.
  cbn [fs emit set_fs]. rewrite lookup_insert_eq.
  destruct (scan_lines lines) as [mods subs]. cbn [snd] in Hs. subst subs.
  cbn [install_subworkflows].
  destruct (component_dir_has_name d (repo_path (repo self)) sub)
    as [parent Hparent].
  unfold folder_of. rewrite Hparent. by rewrite IH.
Qed.

Lemma forced_self_include_never_returns_witness :
  install looping forced 50 "ouroboros" false empty_pipeline = OutOfFuel.
Proof.
  refine (forced_self_include_never_returns looping forced 50 "ouroboros" false
            empty_pipeline "/pipe" "ouroboros" _ _ _).
  - repeat split; reflexivity.
  - reflexivity.
  - intros cv. eexists _, _, _, _. split; [reflexivity|].
    split; [reflexivity|]. vm_compute. reflexivity.
Defined.

(** ** Dependencies that are installed already *)

Section Sharing.
Variable E : env.
Variable self : installer.

Lemma install_already_there fuel s silent st d e :
  constructed self ->
  verified E self s d s ->
  force self = false ->
  healed E st = modules_json st ->
  modules_json st !! ("subworkflows", s) = Some e ->
  is_Some (fs st !! os_path_join (folder_of self d) s) ->
  exists st',
    install E self (S fuel) s silent st = Ret false st' /\
    fs st' = fs st /\
    self_installed_by st' = self_installed_by st /\
    modules_json st' =
      alter (add_referrer (self_installed_by st)) ("subworkflows", s)
        (modules_json st).
Proof.
  intros Hct Hver Hf Hstable He Hfs. rewrite <- Hstable in He.
  destruct (may_proceed_installed E self d s st e Hf He Hfs) as [Hp Hrec].
  cbn [install]. rewrite (install_body_verified E self _ _ _ _ _ _ Hver), Hp.
  destruct (already_installed_spec self s s (recorded E s st)
              (presence_checked E s silent s false st))
    as (st' & Heq & Hby & Hfs' & Hl & _).
  exists st'. split; [done|]. split; [done|]. split; [done|].
  rewrite Hl, Hrec. cbn. unfold update_entry, referrers.
  rewrite Hct, He, <- Hstable. cbn. rewrite union_empty_r_L.
  apply map_eq. intros k. destruct (decide (k = ("subworkflows", s))) as [->|Hk].
  - by rewrite lookup_insert_eq, lookup_alter_eq, He.
  - by rewrite lookup_insert_ne, lookup_alter_ne.
Qed.

(** The first loop over dependencies that are all installed. *)
Lemma install_subworkflows_shared fuel d subworkflow_dir parent subs st :
  constructed self -> force self = false ->
  dir self = Some d -> os_path_exists E d = true ->
  verify_sha E (prompt self) (sha self) = true ->
  (forall dk l, check_up_to_date E dk l = l) ->
  path_last_part subworkflow_dir = Some parent ->
  Forall (fun s =>
            truthy (collect_and_verify_name E (component_type self) s
                      (repo self)) = Some s /\
            is_Some (modules_json st !! ("subworkflows", s)) /\
            is_Some (fs st !! os_path_join (folder_of self d) s)) subs ->
  exists st',
    install_subworkflows (install E self (S fuel)) subworkflow_dir subs st
      = Ret tt st' /\
    fs st' = fs st /\ self_installed_by st' = self_installed_by st /\
    modules_json st' =
      fold_left (fun l s => alter (add_referrer parent) ("subworkflows", s) l)
        subs (modules_json st).
Proof.
  intros Hct Hf Hd Hex Hsha Hcheck Hp. revert st.
  induction subs as [|s subs IH]; intros st Hall; cbn [install_subworkflows].
  { by exists st. }
  apply Forall_cons in Hall as [(Hname & [e He] & Hfs) Hall]. rewrite Hp.
  destruct (install_already_there fuel s true (set_installed_by parent st) d e)
    as (st1 & -> & Hfs1 & Hby1 & Hl1); [done|done|done|apply Hcheck|done..|].
  cbn in Hfs1, Hby1, Hl1.
  destruct (IH (set_installed_by (self_installed_by st) st1))
    as (st' & -> & Hfs' & Hby' & Hl').
  { eapply Forall_impl; [exact Hall|]. cbn.
    intros x (Hx & Hlx & Hfx). split; [done|]. rewrite Hl1, Hfs1. split; [|done].
    destruct (decide (("subworkflows", x) = ("subworkflows", s))) as [->|Hne].
    - rewrite lookup_alter_eq, He. by eexists.
    - by rewrite lookup_alter_ne. }
  cbn in Hfs', Hby', Hl'. exists st'. split; [done|].
  split; [congruence|]. split; [done|]. by rewrite Hl', Hl1.
Qed.

End Sharing.

(** X23: when every subworkflow that [main.nf] names is installed
    already and the consistency check finds nothing to change, the first
    loop of [install_included_components] downloads nothing: the disk is
    as before, [installed_by] is put back, and [modules.json] differs
    only in that each of these subworkflows has the component among its
    referrers, at the version it had. The modules are installed from that
    state. *)
Theorem installed_dependencies_gain_a_referrer
    E self fuel d subworkflow_dir parent st lines cfg :
  constructed self -> force self = false ->
  dir self = Some d -> os_path_exists E d = true ->
  verify_sha E (prompt self) (sha self) = true ->
  (forall dk l, check_up_to_date E dk l = l) ->
  path_last_part subworkflow_dir = Some parent ->
  fs st !! subworkflow_dir = Some (Files (Some lines) cfg) ->
  Forall (fun s =>
            truthy (collect_and_verify_name E (component_type self) s
                      (repo self)) = Some s /\
            is_Some (modules_json st !! ("subworkflows", s)) /\
            is_Some (fs st !! os_path_join (folder_of self d) s))
    (scan_lines lines).2 ->
  exists st2,
    fs st2 = fs st /\ self_installed_by st2 = self_installed_by st /\
    modules_json st2 =
      fold_left (fun l s => alter (add_referrer parent) ("subworkflows", s) l)
        (scan_lines lines).2 (modules_json st) /\
    install_included_components E self (S fuel) subworkflow_dir st
    = install_modules E self subworkflow_dir (scan_lines lines).1 st2.
Proof.
  intros Hct Hf Hd Hex Hsha Hcheck Hp Hfs Hall.
  unfold install_included_components, install_included_components_with,
    get_modules_subworkflows_to_install.
  cbn [fs emit]. rewrite Hfs.
  destruct (scan_lines lines) as [mods subs]. cbn [fst snd] in *.
  destruct (install_subworkflows_shared E self fuel d subworkflow_dir parent
              subs (emit (EvScan subworkflow_dir) st))
    as (st2 & -> & Hfs2 & Hby2 & Hl2); [done..|].
  by exists st2.
Qed.

Lemma installed_dependencies_gain_a_referrer_witness :
  exists st2,
    fs st2 = fs stats_beside_sort /\
    self_installed_by st2 = self_installed_by stats_beside_sort /\
    modules_json st2 =
      fold_left
        (fun l s =>
           alter (add_referrer "bam_stats_samtools") ("subworkflows", s) l)
        (scan_lines bam_stats_main).2 (modules_json stats_beside_sort) /\
    install_included_components healthy plain 1 stats_dir stats_beside_sort
    = install_modules healthy plain stats_dir (scan_lines bam_stats_main).1 st2.
Proof.
  refine (installed_dependencies_gain_a_referrer healthy plain 0 "/pipe"
            stats_dir "bam_stats_samtools" stats_beside_sort bam_stats_main true
            _ _ _ _ _ _ _ _ _).
  - reflexivity.
  - reflexivity.
  - reflexivity.
  - reflexivity.
  - reflexivity.
  - reflexivity.
  - vm_compute. reflexivity.
  - vm_compute. reflexivity.
  - rewrite end_to_end_dependencies. repeat constructor.
    + eexists. vm_compute. reflexivity.
    + eexists. vm_compute. reflexivity.
Defined.

Example shared_dependency_lockfile :
  (fun '(k, e) => (k, git_sha e, elements (installed_by e))) <$>
    map_to_list
      (modules_json
         (final stats_beside_sort
            (install_included_components healthy plain 1 stats_dir
               stats_beside_sort)))
  = [("modules", "samtools/flagstat", "m1", ["bam_stats_samtools"]);
     ("subworkflows", "bam_sort_stats_samtools", "v1",
      ["A"; "bam_stats_samtools"])].
Proof. vm_compute. reflexivity. Qed.
